(** * Scribo backend: the multi-model analysis core

    A shallow embedding of the consensus and synthesis engine of the essay
    grading backend ([ai_service.py], [deep_analysis.py],
    [enhanced_deep_analysis.py]) together with the properties its
    specification states about it.

    Conventions.
    - A Python [float] is a real number ([R]): scores and [time.time()]
      readings are reals, compared with the decidable order of [R].
    - A Python [str] that is measured, stripped or scanned by a regular
      expression is a [text], a list of Unicode code points; a [str] that is
      only compared or used as a key (model keys, user ids, labels, error
      messages) is a [string].
    - A Python [dict] that is only looked up by key is a [gmap]; one whose
      iteration order is observed is an association list.
    - A function that may raise returns a [result]; code with side effects
      threads a [World] and reads its surroundings from an [Env]. *)

From Stdlib Require Import ZArith NArith List String Ascii Reals Lra Lia Permutation Sorted.
From stdpp Require Import base option gmap strings pretty.

Import ListNotations.
Local Open Scope string_scope.
Local Open Scope list_scope.

(** * Part I: the program *)

(** ** Outcomes of fallible code *)

(** The exception classes of [ai_service.py], and the standard ones the
    modelled code can meet. [RateLimitExceededError] and
    [AIServiceUnavailableError] are subclasses of [AIServiceError]. *)
Inductive exn : Type :=
| AIServiceError (msg : string)
| RateLimitExceededError (wait_time : R)
| AIServiceUnavailableError (msg : string)
| ClientError (msg : string)
| TimeoutError
| TypeError (msg : string)
| ValueError (msg : string)
| StatisticsError (msg : string)
| OverflowError (msg : string).

Inductive result (A : Type) : Type :=
| Ok (a : A)
| Raise (e : exn).
Arguments Ok {A} a.
Arguments Raise {A} e.

(** [isinstance(e, AIServiceError)]. *)
Definition is_AIServiceError (e : exn) : bool :=
  match e with
  | AIServiceError _ | RateLimitExceededError _ | AIServiceUnavailableError _ => true
  | _ => false
  end.

(** [str(e)]; [fmt] renders a float with one decimal. *)
Definition exn_str (fmt : R -> string) (e : exn) : string :=
  match e with
  | AIServiceError msg | AIServiceUnavailableError msg | ClientError msg
  | TypeError msg | ValueError msg | StatisticsError msg | OverflowError msg => msg
  | RateLimitExceededError w =>
    "Rate limit exceeded. Try again in " +:+ fmt w +:+ " seconds"
  | TimeoutError => ""
  end.

(** ** Floats *)

(** A float is modelled by the real number it denotes, and the infinite
    float by [float_inf], the real [2^1024], which lies above every finite
    float (the largest one is [2^1024 - 2^971]).  Sums, differences, products
    and quotients of floats are those of the reals: their rounding is not
    modelled.  The conversion [float(n)] and the power [x ** n] below are
    modelled with their rounding and their range, since these decide what
    the code returns. *)

(** Comparisons of floats as booleans. *)
Definition Rgeb (x y : R) : bool := if Rge_dec x y then true else false.
Definition Rgtb (x y : R) : bool := if Rgt_dec x y then true else false.
Definition Reqb (x y : R) : bool := if Req_dec_T x y then true else false.

Definition float_inf : R := IZR (2 ^ 1024).

(** A real of magnitude [2^1024 - 2^970] or more has no finite float next to
    it: it rounds to an infinity. *)
Definition float_overflows (x : R) : bool := Rgeb (Rabs x) (IZR (2 ^ 1024 - 2 ^ 970)).

(** [float(n)] for an integer [n >= 0]: [n] itself below [2^53], and above
    the nearest number with 53 significant bits, the even one of two that
    are equally near; [inf] from [2^1024 - 2^970] on. *)
Definition float_of_Z (n : Z) : R :=
  if (n <? 2 ^ 53)%Z then IZR n
  else
    let e := (Z.log2 n - 52)%Z in
    let q := (n / 2 ^ e)%Z in
    let r := (n mod 2 ^ e)%Z in
    let half := (2 ^ (e - 1))%Z in
    let m := if (half <? r)%Z || ((r =? half)%Z && Z.odd q) then (q + 1)%Z else q in
    if (2 ^ 1024 <=? m * 2 ^ e)%Z then float_inf else IZR (m * 2 ^ e).

(** [x ** n] for a float [x] and an integer [n >= 0]: Python raises
    [OverflowError] when the power is out of the range of the floats. *)
Definition float_pow (x : R) (n : Z) : result R :=
  if float_overflows (powerRZ x n)
  then Raise (OverflowError "(34, 'Numerical result out of range')")
  else Ok (powerRZ x n).

(** ** Texts *)

Definition text : Type := list N.

(** Decoding of a UTF-8 literal of this file into code points (sequences of
    one to four bytes; the literals below hold well-formed UTF-8 only). *)
Fixpoint utf8_decode_bytes (fuel : nat) (bs : list N) : text :=
  match fuel with
  | O => []
  | S fuel' =>
    match bs with
    | [] => []
    | b0 :: r0 =>
      if (b0 <? 128)%N then b0 :: utf8_decode_bytes fuel' r0
      else if (b0 <? 224)%N then
        match r0 with
        | b1 :: r1 => ((b0 - 192) * 64 + (b1 - 128))%N :: utf8_decode_bytes fuel' r1
        | _ => [b0]
        end
      else if (b0 <? 240)%N then
        match r0 with
        | b1 :: b2 :: r2 =>
          ((b0 - 224) * 4096 + (b1 - 128) * 64 + (b2 - 128))%N :: utf8_decode_bytes fuel' r2
        | _ => [b0]
        end
      else
        match r0 with
        | b1 :: b2 :: b3 :: r3 =>
          ((b0 - 240) * 262144 + (b1 - 128) * 4096 + (b2 - 128) * 64 + (b3 - 128))%N
            :: utf8_decode_bytes fuel' r3
        | _ => [b0]
        end
    end
  end.

Definition u (s : string) : text :=
  let bs := map N_of_ascii (list_ascii_of_string s) in
  utf8_decode_bytes (length bs) bs.

(** The double quote, as a one-character text. *)
Definition dquote : text := [34%N].

(** The tables of the Unicode database that the code reaches through [str]
    methods and the [re] module: they belong to the Python runtime, not to
    the repository, and are a parameter of the model. *)
Record Unicode : Type := {
  (** [str.isspace] on one character; also the class [\s] of [re]. *)
  isspace : N -> bool;
  (** the value of a decimal digit (the class [\d] of [re]), if it is one. *)
  decimal : N -> option Z;
  (** [ignorecase c x]: under [re.IGNORECASE], does the input character [x]
      match the pattern literal [c]? *)
  ignorecase : N -> N -> bool
}.

(** The tables restricted to Basic Latin, Latin-1 Supplement and the
    characters outside them that match an ASCII letter under IGNORECASE
    (dotted capital I, dotless i, long s, Kelvin sign). *)
Definition latin_isspace (c : N) : bool :=
  ((9 <=? c) && (c <=? 13) || (28 <=? c) && (c <=? 32)
   || (c =? 133) || (c =? 160) || (c =? 5760)
   || (8192 <=? c) && (c <=? 8202)
   || (c =? 8232) || (c =? 8233) || (c =? 8239) || (c =? 8287) || (c =? 12288))%N.

Definition latin_decimal (c : N) : option Z :=
  if ((48 <=? c) && (c <=? 57))%N then Some (Z.of_N c - 48)%Z else None.

Definition latin_lower (c : N) : N :=
  if ((65 <=? c) && (c <=? 90))%N then (c + 32)%N
  else if ((192 <=? c) && (c <=? 222) && negb (c =? 215))%N then (c + 32)%N
  else if (c =? 304)%N then 105%N
  else if (c =? 8490)%N then 107%N
  else c.

Definition latin_ignorecase (c x : N) : bool :=
  let lo := latin_lower c in
  ((x =? c) || (latin_lower x =? lo)
   || (lo =? 105) && (x =? 305)
   || (lo =? 115) && (x =? 383))%N.

Definition latin : Unicode :=
  {| isspace := latin_isspace; decimal := latin_decimal; ignorecase := latin_ignorecase |}.

(** ** The fragment of [re] used by the score extractors *)

Module Re.

Inductive regex : Type :=
| Eps
| Lit (c : N)            (* a literal character, matched under IGNORECASE *)
| WsStar                 (* \s* *)
| Digits                 (* \d+ *)
| Cat (r1 r2 : regex)
| Alt (r1 r2 : regex)
| Group (r : regex).     (* a capturing group *)

(** The literal pattern for a text. *)
Definition lits (s : text) : regex := fold_right (fun c r => Cat (Lit c) r) Eps s.

(** [r1|r2|...] *)
Fixpoint alts (rs : list regex) : regex :=
  match rs with
  | [] => Eps
  | [r] => r
  | r :: rs' => Alt r (alts rs')
  end.

Section Matcher.
Context (ucd : Unicode) {A : Type}.

(** Greedy repetition of a character class, giving characters back on
    failure of the continuation. *)
Fixpoint star (p : N -> bool) (k : text -> option A) (s : text) : option A :=
  match s with
  | x :: s' =>
    if p x then
      match star p k s' with
      | Some a => Some a
      | None => k s
      end
    else k s
  | [] => k []
  end.

Definition plus (p : N -> bool) (k : text -> option A) (s : text) : option A :=
  match s with
  | x :: s' => if p x then star p k s' else None
  | [] => None
  end.

(** Backtracking matcher in continuation-passing style: [caps] are the
    groups captured so far, in the order in which they close. *)
Fixpoint run (r : regex) (k : text -> list text -> option A)
    (s : text) (caps : list text) : option A :=
  match r with
  | Eps => k s caps
  | Lit c =>
    match s with
    | x :: s' => if ignorecase ucd c x then k s' caps else None
    | [] => None
    end
  | WsStar => star (isspace ucd) (fun s' => k s' caps) s
  | Digits => plus (fun x => bool_decide (is_Some (decimal ucd x))) (fun s' => k s' caps) s
  | Cat r1 r2 => run r1 (fun s' caps' => run r2 k s' caps') s caps
  | Alt r1 r2 =>
    match run r1 k s caps with
    | Some a => Some a
    | None => run r2 k s caps
    end
  | Group r1 =>
    run r1 (fun s' caps' => k s' (caps' ++ [firstn (length s - length s') s])) s caps
  end.
End Matcher.

(** A match: its groups and the text that follows it. *)
Definition match_at (ucd : Unicode) (r : regex) (s : text) : option (list text * text) :=
  run ucd r (fun s' caps => Some (caps, s')) s [].

(** [re.search(r, s, re.IGNORECASE)]: the leftmost match. *)
Fixpoint search (ucd : Unicode) (r : regex) (s : text) : option (list text * text) :=
  match match_at ucd r s with
  | Some m => Some m
  | None =>
    match s with
    | [] => None
    | _ :: s' => search ucd r s'
    end
  end.

(** [m.group(n)] for [n >= 1]. *)
Definition group (m : list text * text) (n : nat) : text := nth (n - 1) (fst m) [].

(** [re.findall(r, s, re.IGNORECASE)] for a pattern with one group that
    matches no empty text: the group of every match, scanning from the left
    and resuming after each match ([skip] counts the characters of the
    current match still to pass). *)
Fixpoint findall_from (ucd : Unicode) (r : regex) (s : text) (skip : nat) : list text :=
  match s with
  | [] => []
  | _ :: s' =>
    match skip with
    | S n => findall_from ucd r s' n
    | O =>
      match match_at ucd r s with
      | Some m => group m 1 :: findall_from ucd r s' (length s - length (snd m) - 1)
      | None => findall_from ucd r s' 0
      end
    end
  end.

Definition findall (ucd : Unicode) (r : regex) (s : text) : list text :=
  findall_from ucd r s 0.

End Re.

(** ** Score extraction ([AIService._extract_score]) *)

Module Score.
Import Re.

(** [(Insuficiente|Regular|Bom|Muito Bom|Excelente)] *)
Definition quality_group : regex :=
  Group (alts [lits (u "Insuficiente"); lits (u "Regular"); lits (u "Bom");
               lits (u "Muito Bom"); lits (u "Excelente")]).

Definition paragraph_patterns : list regex :=
  [ Cat (lits (u "AVALIAÇÃO GERAL:")) (Cat WsStar quality_group);
    Cat (lits (u "AVALIAÇÃO:")) (Cat WsStar quality_group);
    Cat (lits (u "GERAL:")) (Cat WsStar quality_group) ].

Definition individual_pattern : regex :=
  Cat (lits (u "AVALIAÇÃO:")) (Cat WsStar quality_group).

Definition full_patterns : list regex :=
  [ Cat (lits (u "NOTA FINAL:")) (Cat WsStar (Cat (Group Digits) (lits (u "/1000"))));
    Cat (lits (u "NOTA FINAL:"))
        (Cat WsStar (Cat (Group Digits) (Cat WsStar (Cat (Lit 47) (Cat WsStar (lits (u "1000")))))));
    Cat (lits (u "TOTAL:")) (Cat WsStar (Cat (Group Digits) (lits (u "/1000"))));
    Cat (Group Digits) (lits (u "/1000")) ].

(** The dictionary [quality_scores]. *)
Definition quality_scores : list (text * Z) :=
  [ (u "Insuficiente", 200%Z); (u "Regular", 400%Z); (u "Bom", 600%Z);
    (u "Muito Bom", 800%Z); (u "Excelente", 1000%Z) ].

(** [quality_scores.get(quality, default)] *)
Fixpoint dict_get (d : list (text * Z)) (key : text) (default : Z) : Z :=
  match d with
  | [] => default
  | (k, v) :: d' => if bool_decide (k = key) then v else dict_get d' key default
  end.

(** The number that a run of decimal digits spells, and [float(digits)]. *)
Definition digits_value (ucd : Unicode) (ds : text) : Z :=
  fold_left (fun acc d => (10 * acc + default 0 (decimal ucd d))%Z) ds 0%Z.

Definition float_of_digits (ucd : Unicode) (ds : text) : R :=
  float_of_Z (digits_value ucd ds).

(** The loop [for pattern in patterns: match = re.search(...); if match:
    return f(match)]. *)
Fixpoint first_match {B : Type} (ucd : Unicode) (patterns : list regex) (s : text)
    (f : list text * text -> B) : option B :=
  match patterns with
  | [] => None
  | p :: ps =>
    match search ucd p s with
    | Some m => Some (f m)
    | None => first_match ucd ps s f
    end
  end.

Definition _extract_score (ucd : Unicode) (feedback : text) (analysis_type : string)
    : option R :=
  match feedback with
  | [] => None
  | _ =>
    if bool_decide (analysis_type = "paragraph") then
      match first_match ucd paragraph_patterns feedback
              (fun m => IZR (dict_get quality_scores (group m 1) 400)) with
      | Some score => Some score
      | None =>
        let individual_assessments := findall ucd individual_pattern feedback in
        match individual_assessments with
        | _ :: _ =>
          let scores := map (fun a => dict_get quality_scores a 400) individual_assessments in
          Some (IZR (fold_right Z.add 0%Z scores) / INR (length scores))%R
        | [] => Some 400%R
        end
      end
    else
      first_match ucd full_patterns feedback (fun m => float_of_digits ucd (group m 1))
  end.

(** A text carries a qualitative assessment marker when one of the three
    paragraph patterns is found in it. *)
Definition has_marker (ucd : Unicode) (feedback : text) : bool :=
  existsb (fun p => bool_decide (is_Some (search ucd p feedback))) paragraph_patterns.

End Score.

(** ** The sliding-window rate limiter ([RateLimiter]) *)

Module RateLimiter.

Record RateLimitConfig : Type := {
  requests_per_minute : Z;
  burst_limit : Z;
  window_size : Z
}.

(** The defaults of the dataclass. *)
Definition default_config : RateLimitConfig :=
  {| requests_per_minute := 1; burst_limit := 1; window_size := 60 |}.

(** The builtin [min] on a list of floats. *)
Definition py_min (l : list R) : result R :=
  match l with
  | [] => Raise (ValueError "min() arg is an empty sequence")
  | x :: l' => Ok (fold_left Rmin l' x)
  end.

(** [is_allowed], run under the lock: [requests] is the dictionary
    [self.requests] and [now] the reading of [time.time()]. The dictionary
    is returned as the call leaves it. *)
Definition is_allowed (config : RateLimitConfig) (requests : gmap string (list R))
    (now : R) (user_id : string) : result (bool * option R) * gmap string (list R) :=
  let window_start := (now - IZR (window_size config))%R in
  let requests :=
    match requests !! user_id with
    | None => <[user_id := []]> requests
    | Some _ => requests
    end in
  let kept :=
    List.filter (fun req_time => Rgtb req_time window_start)
                (default [] (requests !! user_id)) in
  let requests := <[user_id := kept]> requests in
  if (Z.of_nat (length kept) <? requests_per_minute config)%Z then
    (Ok (true, None), <[user_id := kept ++ [now]]> requests)
  else
    match py_min kept with
    | Raise e => (Raise e, requests)
    | Ok oldest_request =>
      let wait_time := (oldest_request + IZR (window_size config) - now)%R in
      (Ok (false, Some (Rmax 0 wait_time)), requests)
    end.

(** The dictionary returned by [get_user_status]; a key the limiter has
    never seen gets no "window_size" entry. *)
Record UserStatus : Type := {
  requests_made : Z;
  requests_remaining : Z;
  reset_time : option R;
  status_window_size : option Z
}.

(** [get_user_status]: the dictionary [requests] is read, not changed. *)
Definition get_user_status (config : RateLimitConfig) (requests : gmap string (list R))
    (now : R) (user_id : string) : UserStatus :=
  let window_start := (now - IZR (window_size config))%R in
  match requests !! user_id with
  | None =>
    {| requests_made := 0; requests_remaining := requests_per_minute config;
       reset_time := None; status_window_size := None |}
  | Some stored =>
    let valid_requests := List.filter (fun req_time => Rgtb req_time window_start) stored in
    let requests_made := Z.of_nat (length valid_requests) in
    let requests_remaining := Z.max 0 (requests_per_minute config - requests_made) in
    let reset_time :=
      match valid_requests with
      | oldest :: others =>
        if (requests_remaining =? 0)%Z
        then Some (fold_left Rmin others oldest + IZR (window_size config))%R
        else None
      | [] => None
      end in
    {| requests_made := requests_made; requests_remaining := requests_remaining;
       reset_time := reset_time; status_window_size := Some (window_size config) |}
  end.

End RateLimiter.

(** ** The single-model correction service ([AIService]) *)

Module AIService.
Export RateLimiter.

Record RetryConfig : Type := {
  max_retries : Z;
  base_delay : R;
  max_delay : R;
  exponential_base : R
}.

Record AIServiceConfig : Type := {
  rate_limit : RateLimitConfig;
  retry : RetryConfig;
  cache_ttl : Z;
  fallback_enabled : bool
}.

Definition default_retry : RetryConfig :=
  {| max_retries := 3; base_delay := 1; max_delay := 60; exponential_base := 2 |}.

Definition default_service_config : AIServiceConfig :=
  {| rate_limit := default_config; retry := default_retry;
     cache_ttl := 86400; fallback_enabled := true |}.

(** An entry of [self.ai_models]; the client object is the environment. *)
Record ModelConfig : Type := {
  name : string;
  model : string;
  available : bool;
  usage : string;
  temperature : R;
  top_p : R;
  max_tokens : Z;
  system_message : option text;
  extra_body : option string
}.

(** The keyword arguments of [client.chat.completions.create]. *)
Record CompletionParams : Type := {
  cp_model : string;
  cp_messages : list (string * text);
  cp_temperature : R;
  cp_top_p : R;
  cp_max_tokens : Z;
  cp_timeout : R;
  cp_extra_body : option string
}.

(** The dictionary that [correct_essay] returns; the canned response has
    no "model", "analysis_type" and "processing_time" entries. *)
Record CorrectionResult : Type := {
  feedback : text;
  score : option R;
  model_used : option string;
  analysis_type_used : option string;
  processing_time : option R;
  is_fallback : bool;
  fallback_reason : option string;
  timestamp : string
}.

(** What a call does to its surroundings, in order. *)
Inductive event : Type :=
| CompletionCall (model_key : string) (params : CompletionParams)
| UsageLog (model_name user_id request_type : string) (response_time : R)
           (success : bool) (error_message : option string)
| Sleep (delay : R)
| ResetScheduled (model_key : string) (delay : Z)
| CacheSet (key : string) (expire : Z).

(** The mutable state the service works on: the limiter's dictionary, the
    model registry (in insertion order), the cache behind [cache_manager],
    the number of clock readings taken and the events so far. *)
Record World : Type := {
  requests : gmap string (list R);
  ai_models : list (string * ModelConfig);
  cache_connected : bool;
  cache : gmap string CorrectionResult;
  clock_reads : nat;
  trace : list event
}.

Definition dict : Type := list (string * text).

(** What the service reads from outside the repository: the Unicode tables,
    [hashlib.md5], the clocks, float formatting, the prompt templates of
    [system_prompts_manager] and the remote models. [completions_create n]
    answers the call made after [n] events. *)
Record Env : Type := {
  ucd : Unicode;
  md5_hexdigest : text -> string;
  time_time : nat -> R;
  utcnow_isoformat : nat -> string;
  format_1f : R -> string;
  personalized_prompt :
    text -> text -> string -> option dict -> option dict -> result text;
  completions_create : nat -> string -> CompletionParams -> result text
}.

(** [str(e)] *)

(** *** The state-and-exception monad of the service *)

Definition M (A : Type) : Type := World -> result A * World.

Definition ret {A} (a : A) : M A := fun w => (Ok a, w).
Definition raise {A} (e : exn) : M A := fun w => (Raise e, w).
Definition bind {A B} (m : M A) (k : A -> M B) : M B :=
  fun w => match m w with
           | (Ok a, w') => k a w'
           | (Raise e, w') => (Raise e, w')
           end.

(** [try: m except <handles> as e: handler e] *)
Definition try_except {A} (m : M A) (handles : exn -> bool) (handler : exn -> M A) : M A :=
  fun w => match m w with
           | (Ok a, w') => (Ok a, w')
           | (Raise e, w') => if handles e then handler e w' else (Raise e, w')
           end.

Definition any_exception (e : exn) : bool := true.

Notation "'do' x <- m ; k" := (bind m (fun x => k))
  (at level 10, x name, m at level 100, k at level 200).
Notation "m ;; k" := (bind m (fun _ => k))
  (at level 100, k at level 200, right associativity).

Definition get_world : M World := fun w => (Ok w, w).

Definition emit (e : event) : M unit :=
  fun w => (Ok tt, {| requests := requests w; ai_models := ai_models w;
                      cache_connected := cache_connected w; cache := cache w;
                      clock_reads := clock_reads w; trace := trace w ++ [e] |}).

Definition set_requests (r : gmap string (list R)) : M unit :=
  fun w => (Ok tt, {| requests := r; ai_models := ai_models w;
                      cache_connected := cache_connected w; cache := cache w;
                      clock_reads := clock_reads w; trace := trace w |}).

Definition set_ai_models (ms : list (string * ModelConfig)) : M unit :=
  fun w => (Ok tt, {| requests := requests w; ai_models := ms;
                      cache_connected := cache_connected w; cache := cache w;
                      clock_reads := clock_reads w; trace := trace w |}).

Definition set_cache (c : gmap string CorrectionResult) : M unit :=
  fun w => (Ok tt, {| requests := requests w; ai_models := ai_models w;
                      cache_connected := cache_connected w; cache := c;
                      clock_reads := clock_reads w; trace := trace w |}).

Definition tick : M nat :=
  fun w => (Ok (clock_reads w),
            {| requests := requests w; ai_models := ai_models w;
               cache_connected := cache_connected w; cache := cache w;
               clock_reads := S (clock_reads w); trace := trace w |}).

(** *** The model registry *)

(** Lookup and update in the model registry. *)
Fixpoint models_get (ms : list (string * ModelConfig)) (key : string) : option ModelConfig :=
  match ms with
  | [] => None
  | (k, c) :: ms' => if bool_decide (k = key) then Some c else models_get ms' key
  end.

Definition set_available (c : ModelConfig) (b : bool) : ModelConfig :=
  {| name := name c; model := model c; available := b; usage := usage c;
     temperature := temperature c; top_p := top_p c; max_tokens := max_tokens c;
     system_message := system_message c; extra_body := extra_body c |}.

Definition mark_unavailable (ms : list (string * ModelConfig)) (key : string)
    : list (string * ModelConfig) :=
  map (fun kc => if bool_decide (fst kc = key)
                 then (fst kc, set_available (snd kc) false) else kc) ms.

(** [_reset_model_availability]: what the task does to the registry once
    its delay has passed. *)
Definition _reset_model_availability (ms : list (string * ModelConfig)) (model_key : string)
    : list (string * ModelConfig) :=
  map (fun kc => if bool_decide (fst kc = model_key)
                 then (fst kc, set_available (snd kc) true) else kc) ms.

(** *** Time and the reset tasks *)

(** The service waits in [asyncio.sleep] only: time is counted in the seconds
    slept, and a sleep takes the time asked for (none for a negative delay).
    The time the other awaits take (the remote client, the cache, the usage
    log) is not modelled. *)
Fixpoint slept (evs : list event) : R :=
  match evs with
  | [] => 0
  | Sleep delay :: later => Rmax 0 delay + slept later
  | _ :: later => slept later
  end.

(** The reset tasks created in [evs], each with its model, its delay and the
    time slept since its creation. *)
Fixpoint reset_tasks (evs : list event) : list (string * Z * R) :=
  match evs with
  | [] => []
  | ResetScheduled model_key delay :: later =>
    (model_key, delay, slept later) :: reset_tasks later
  | _ :: later => reset_tasks later
  end.

(** A task wakes up during a sleep of [delay] seconds when its own delay
    has not ended before that sleep begins and ends before the sleep does.
    A task whose delay ends at the very moment at which a sleep ends has to
    wait for the sleeper to go on: it wakes up the next time the sleeper
    sleeps, however short. *)
Definition wakes_up (delay : R) (task : string * Z * R) : bool :=
  let '(_, after, age) := task in
  Rgeb (IZR after) age
  && (Rgtb (age + Rmax 0 delay) (IZR after) || Reqb age (IZR after)).

Definition resets_due (evs : list event) (delay : R) : list string :=
  map (fun task => fst (fst task)) (List.filter (wakes_up delay) (reset_tasks evs)).

(** [await asyncio.sleep(delay)]: the reset tasks that wake up meanwhile
    run before the caller goes on. *)
Definition sleep (delay : R) : M unit :=
  do w <- get_world;
  emit (Sleep delay);;
  set_ai_models (fold_left _reset_model_availability (resets_due (trace w) delay)
                           (ai_models w)).

Section Service.
Context (env : Env) (config : AIServiceConfig).

(** [time.time()] and [datetime.utcnow().isoformat()] *)
Definition now : M R := do n <- tick; ret (time_time env n).
Definition utcnow : M string := do n <- tick; ret (utcnow_isoformat env n).

(** Truth value of an optional [str]. *)
Definition truthy (s : option string) : bool :=
  match s with
  | Some s' => negb (bool_decide (s' = ""))
  | None => false
  end.

Definition _generate_cache_key (content theme : text) (model analysis_type : string)
    : string :=
  let content_hash := md5_hexdigest env (content ++ theme ++ u analysis_type) in
  "ai:result:" +:+ model +:+ ":" +:+ content_hash.

(** [_check_cache]: a disconnected cache answers [None]. *)
Definition _check_cache (cache_key : string) : M (option CorrectionResult) :=
  do w <- get_world;
  ret (if cache_connected w then cache w !! cache_key else None).

Definition _cache_result (cache_key : string) (result : CorrectionResult) : M unit :=
  do w <- get_world;
  if cache_connected w then
    set_cache (<[cache_key := result]> (cache w));;
    emit (CacheSet cache_key (cache_ttl config))
  else ret tt.

(** [min(base_delay * (exponential_base ** attempt), max_delay)] *)
Definition backoff_delay (attempt : Z) : result R :=
  match float_pow (exponential_base (retry config)) attempt with
  | Ok power => Ok (Rmin (base_delay (retry config) * power) (max_delay (retry config)))
  | Raise e => Raise e
  end.

(** [_retry_with_backoff]: [n] iterations of the loop remain, the next one
    is number [attempt].  An exception raised while the delay is computed
    leaves the loop. *)
Fixpoint retry_loop {A} (func : M A) (n : nat) (attempt : Z) (last_exception : option exn)
    : M A :=
  match n with
  | O =>
    match last_exception with
    | Some e => raise e
    | None => raise (TypeError "exceptions must derive from BaseException")
    end
  | S n' =>
    try_except func any_exception (fun e =>
      if (attempt =? max_retries (retry config))%Z then raise e
      else
        match backoff_delay attempt with
        | Raise overflow => raise overflow
        | Ok delay =>
          sleep delay;;
          retry_loop func n' (attempt + 1)%Z (Some e)
        end)
  end.

Definition _retry_with_backoff {A} (func : M A) : M A :=
  retry_loop func (Z.to_nat (max_retries (retry config) + 1)) 0%Z None.

Definition _get_fallback_prompt (content theme : text) (analysis_type : string) : text :=
  if bool_decide (analysis_type = "paragraph") then
    u "Analise este parágrafo de redação sobre " ++ dquote ++ theme ++ dquote ++ u ":

" ++ content ++ u "

Avalie considerando:
1. **Adequação ao tema** - Desenvolve o tema proposto?
2. **Argumentação** - Argumentos consistentes e fundamentados?
3. **Coesão** - Unidade e conectivos adequados?
4. **Linguagem** - Norma culta e vocabulário adequado?

**FORMATO DE RESPOSTA:**
**AVALIAÇÃO GERAL:** [Insuficiente/Regular/Bom/Muito Bom/Excelente]
**PONTOS FORTES:** [2-3 aspectos positivos]
**PONTOS A MELHORAR:** [2-3 sugestões específicas]
**FEEDBACK:** [análise objetiva em até 200 palavras]"
  else
    u "Analise esta redação sobre " ++ dquote ++ theme ++ dquote ++ u ":

" ++ content ++ u "

Forneça:
1. **Nota geral** (0-1000)
2. **Pontos fortes** (2-3 aspectos)
3. **Pontos a melhorar** (2-3 sugestões)
4. **Comentário geral** (até 150 palavras)".

Definition _get_optimized_prompt (content theme : text) (analysis_type : string)
    (theme_data metadata : option dict) : text :=
  match personalized_prompt env content theme analysis_type theme_data metadata with
  | Ok personalized => personalized
  | Raise _ => _get_fallback_prompt content theme analysis_type
  end.

Definition log_usage (model_key : string) (user_id : option string)
    (analysis_type : string) (response_time : R) (success : bool)
    (error_message : option string) : M unit :=
  match user_id with
  | Some uid =>
    if truthy user_id
    then emit (UsageLog model_key uid analysis_type response_time success error_message)
    else ret tt
  | None => ret tt
  end.

Definition _call_ai_model (model_key : string) (prompt : text) (analysis_type : string)
    (user_id : option string) : M text :=
  do w <- get_world;
  match models_get (ai_models w) model_key with
  | None => raise (AIServiceError ("Model " +:+ model_key +:+ " not available"))
  | Some model_config =>
    if negb (available model_config) then
      raise (AIServiceUnavailableError
               ("Model " +:+ model_key +:+ " is currently unavailable"))
    else
      do start_time <- now;
      let messages :=
        match system_message model_config with
        | Some sm => if bool_decide (sm = []) then [("user", prompt)]
                     else [("system", sm); ("user", prompt)]
        | None => [("user", prompt)]
        end in
      let completion_params :=
        {| cp_model := model model_config;
           cp_messages := messages;
           cp_temperature := temperature model_config;
           cp_top_p := top_p model_config;
           cp_max_tokens := max_tokens model_config;
           cp_timeout := if bool_decide (usage model_config = "full_analysis")
                         then 120%R else 90%R;
           cp_extra_body := extra_body model_config |} in
      do w1 <- get_world;
      emit (CompletionCall model_key completion_params);;
      match completions_create env (length (trace w1)) model_key completion_params with
      | Ok content =>
        do t <- now;
        log_usage model_key user_id analysis_type (t - start_time) true None;;
        ret content
      | Raise e =>
        do t <- now;
        let error_message := exn_str (format_1f env) e in
        log_usage model_key user_id analysis_type (t - start_time) false
                  (Some error_message);;
        do w2 <- get_world;
        set_ai_models (mark_unavailable (ai_models w2) model_key);;
        emit (ResetScheduled model_key 300);;
        raise (AIServiceUnavailableError
                 ("Model " +:+ model_key +:+ " temporarily unavailable: "
                  +:+ error_message))
      end
  end.

Definition _get_fallback_response (theme : text) (analysis_type : string)
    : M CorrectionResult :=
  if negb (fallback_enabled config) then
    raise (AIServiceUnavailableError "AI services unavailable and fallback disabled")
  else if bool_decide (analysis_type = "paragraph") then
    do ts <- utcnow;
    ret {| feedback := u "**ANÁLISE INDISPONÍVEL**

O serviço de correção está temporariamente indisponível. 

**DICAS GERAIS PARA O TEMA " ++ dquote ++ theme ++ dquote ++ u ":**
- Desenvolva uma tese clara na introdução
- Use argumentos consistentes e bem fundamentados
- Conecte ideias com conectivos apropriados
- Proponha intervenção específica e detalhada
- Revise gramática e ortografia

**NOTA:** Análise não disponível
**STATUS:** Tente novamente em alguns minutos";
           score := None; model_used := None; analysis_type_used := None;
           processing_time := None; is_fallback := true; fallback_reason := None;
           timestamp := ts |}
  else
    do ts <- utcnow;
    ret {| feedback := u "**SERVIÇO TEMPORARIAMENTE INDISPONÍVEL**

A correção automática está em manutenção. Aqui estão dicas gerais para o tema " ++ dquote ++ theme ++ dquote ++ u ":

**ESTRUTURA RECOMENDADA:**
1. **Introdução:** Contextualize o tema e apresente sua tese
2. **Desenvolvimento:** 2 parágrafos com argumentos distintos e bem fundamentados
3. **Conclusão:** Retome a tese e proponha intervenção detalhada

**CRITÉRIOS ENEM:**
- **Norma Culta:** Revise gramática, ortografia e concordância
- **Tema:** Mantenha-se dentro do tema proposto
- **Argumentação:** Use dados, exemplos e referências
- **Coesão:** Conecte ideias com conectivos adequados
- **Proposta:** Seja específico (agente, ação, meio, finalidade)

**NOTA:** Análise detalhada indisponível
**STATUS:** Tente novamente em alguns minutos";
           score := None; model_used := None; analysis_type_used := None;
           processing_time := None; is_fallback := true; fallback_reason := None;
           timestamp := ts |}.

(** One model tried to the end: retry, score, result dictionary, cache. *)
Definition attempt_model (start_time : R) (cache_key : string) (model_key : string)
    (prompt : text) (analysis_type : string) (user_id : option string)
    (is_fb : bool) (reason : option string) : M CorrectionResult :=
  do feedback <- _retry_with_backoff (_call_ai_model model_key prompt analysis_type user_id);
  let score := Score._extract_score (ucd env) feedback analysis_type in
  do t <- now;
  do ts <- utcnow;
  let result :=
    {| feedback := feedback; score := score; model_used := Some model_key;
       analysis_type_used := Some analysis_type;
       processing_time := Some (t - start_time)%R;
       is_fallback := is_fb; fallback_reason := reason; timestamp := ts |} in
  _cache_result cache_key result;;
  ret result.

(** The loop over the fallback models, then the canned response. *)
Fixpoint try_fallbacks (start_time : R) (cache_key primary : string)
    (fallback_models : list string) (prompt theme : text) (analysis_type : string)
    (user_id : option string) : M CorrectionResult :=
  match fallback_models with
  | [] => _get_fallback_response theme analysis_type
  | fallback_model :: rest =>
    try_except
      (attempt_model start_time cache_key fallback_model prompt analysis_type user_id
         true (Some ("Primary model " +:+ primary +:+ " failed")))
      any_exception
      (fun _ => try_fallbacks start_time cache_key primary rest prompt theme
                  analysis_type user_id)
  end.

Definition correct_essay (content theme : text) (model_key : string)
    (user_id : option string) (analysis_type : string)
    (theme_data metadata : option dict) : M CorrectionResult :=
  do start_time <- now;
  do model_key <-
    (if bool_decide (analysis_type = "paragraph") then
       if (2000 <? Z.of_nat (length content))%Z
       then raise (AIServiceError "Paragraph content too long (max 2,000 characters)")
       else ret "deepseek_14b"
     else
       if (10000 <? Z.of_nat (length content))%Z
       then raise (AIServiceError "Essay content too long (max 10,000 characters)")
       else ret "llama_253b");
  if forallb (isspace (ucd env)) content then
    raise (AIServiceError "Essay content cannot be empty")
  else
    (match user_id with
     | Some uid =>
       if truthy user_id then
         do t <- now;
         do w <- get_world;
         let '(r, requests') := is_allowed (rate_limit config) (requests w) t uid in
         set_requests requests';;
         match r with
         | Raise e => raise e
         | Ok (allowed, wait_time) =>
           if allowed then ret tt
           else raise (RateLimitExceededError (default 0%R wait_time))
         end
       else ret tt
     | None => ret tt
     end);;
    let cache_key := _generate_cache_key content theme model_key analysis_type in
    do cached_result <- _check_cache cache_key;
    match cached_result with
    | Some cached => ret cached
    | None =>
      let prompt := _get_optimized_prompt content theme analysis_type theme_data metadata in
      try_except
        (attempt_model start_time cache_key model_key prompt analysis_type user_id
           false None)
        is_AIServiceError
        (fun _ =>
           do w <- get_world;
           let fallback_models :=
             List.filter (fun m => negb (bool_decide (m = model_key)))
                         (map fst (ai_models w)) in
           try_fallbacks start_time cache_key model_key fallback_models prompt theme
             analysis_type user_id)
    end.

End Service.

End AIService.

(** ** Recovery of a model ([AIService._reset_model_availability]) *)

Module Recovery.
Import AIService.

(** What the task scheduled by [_call_ai_model] does to the registry once
    its delay has passed. *)
Definition _reset_model_availability (ms : list (string * ModelConfig)) (model_key : string)
    : list (string * ModelConfig) :=
  AIService._reset_model_availability ms model_key.

End Recovery.

(** ** The consensus engine ([DeepAnalysisService._calculate_consensus_metrics]) *)

Module DeepAnalysis.

Inductive AnalysisReliability : Type :=
| VERY_HIGH | HIGH | MEDIUM | LOW | VERY_LOW.

Record ModelResult : Type := {
  model : string;
  feedback : text;
  score : option R;
  processing_time : R;
  timestamp : string;
  error : option string;
  success : bool
}.

Record ConsensusMetrics : Type := {
  score_variance : R;
  score_std_dev : R;
  agreement_percentage : R;
  reliability_level : AnalysisReliability;
  outlier_models : list string;
  consensus_score : option R
}.

(** [self.config] *)
Record Config : Type := {
  max_concurrent_models : Z;
  consensus_threshold : R;
  outlier_threshold : R;
  cache_ttl : Z;
  timeout_per_model : Z;
  min_models_for_consensus : Z
}.

Definition default_config : Config :=
  {| max_concurrent_models := 4; consensus_threshold := 75 / 100;
     outlier_threshold := 2; cache_ttl := 7200; timeout_per_model := 90;
     min_models_for_consensus := 2 |}.

(** *** The functions of the [statistics] module *)

Definition fsum (data : list R) : R := fold_right Rplus 0%R data.

Definition mean (data : list R) : result R :=
  match data with
  | [] => Raise (StatisticsError "mean requires at least one data point")
  | _ => Ok (fsum data / INR (length data))%R
  end.

(** Sample variance: the squared deviations from the mean over [n - 1]. *)
Definition variance (data : list R) : result R :=
  if (length data <? 2)%nat then
    Raise (StatisticsError "variance requires at least two data points")
  else
    let xbar := (fsum data / INR (length data))%R in
    Ok (fsum (map (fun x => (x - xbar) * (x - xbar)) data) / (INR (length data) - 1))%R.

Definition stdev (data : list R) : result R :=
  match variance data with
  | Ok v => Ok (sqrt v)
  | Raise e => Raise e
  end.

(** [sorted(data)] *)
Fixpoint insert_sorted (x : R) (l : list R) : list R :=
  match l with
  | [] => [x]
  | y :: l' => if Rle_dec x y then x :: l else y :: insert_sorted x l'
  end.

Definition sorted (data : list R) : list R := fold_right insert_sorted [] data.

Definition median (data : list R) : result R :=
  let data := sorted data in
  let n := length data in
  match n with
  | O => Raise (StatisticsError "no median for empty data")
  | _ =>
    if Nat.odd n then Ok (nth (n / 2) data 0%R)
    else
      let i := (n / 2)%nat in
      Ok ((nth (i - 1) data 0 + nth i data 0) / 2)%R
  end.

(** *** [_calculate_consensus_metrics] *)

(** [r.success and r.score is not None] *)
Definition qualifies (r : ModelResult) : bool :=
  success r && bool_decide (is_Some (score r)).

(** [r.score] of a result that carries one. *)
Definition score_of (r : ModelResult) : R := default 0%R (score r).

(** [x in l] on model keys. *)
Definition mem (x : string) (l : list string) : bool := bool_decide (x ∈ l).

Definition _calculate_consensus_metrics (config : Config) (model_results : list ModelResult)
    : result ConsensusMetrics :=
  let successful_results := List.filter qualifies model_results in
  if (Z.of_nat (length successful_results) <? min_models_for_consensus config)%Z then
    Ok {| score_variance := 0; score_std_dev := 0; agreement_percentage := 0;
          reliability_level := VERY_LOW; outlier_models := [];
          consensus_score := None |}
  else
    let scores := map score_of successful_results in
    match mean scores with
    | Raise e => Raise e
    | Ok mean_score =>
      let variance := if (1 <? length scores)%nat
                      then match variance scores with Ok v => v | Raise _ => 0%R end
                      else 0%R in
      let std_dev := if (1 <? length scores)%nat
                     then match stdev scores with Ok v => v | Raise _ => 0%R end
                     else 0%R in
      let outlier_models :=
        if Rgtb std_dev 0 then
          map model
              (List.filter
                 (fun result =>
                    let z_score := (Rabs (score_of result - mean_score) / std_dev)%R in
                    Rgtb z_score (outlier_threshold config))
                 successful_results)
        else [] in
      let agreement_percentage :=
        if Rgtb mean_score 0 then
          let cv := (std_dev / mean_score)%R in
          Rmax 0 ((1 - cv) * 100)
        else 0%R in
      let reliability_level :=
        if Rgeb agreement_percentage 90 then VERY_HIGH
        else if Rgeb agreement_percentage 75 then HIGH
        else if Rgeb agreement_percentage 60 then MEDIUM
        else if Rgeb agreement_percentage 40 then LOW
        else VERY_LOW in
      let non_outlier_scores :=
        map score_of
            (List.filter (fun r => negb (mem (model r) outlier_models)) successful_results) in
      match non_outlier_scores with
      | [] =>
        Ok {| score_variance := variance; score_std_dev := std_dev;
              agreement_percentage := agreement_percentage;
              reliability_level := reliability_level;
              outlier_models := outlier_models;
              consensus_score := Some mean_score |}
      | _ =>
        match median non_outlier_scores with
        | Raise e => Raise e
        | Ok consensus =>
          Ok {| score_variance := variance; score_std_dev := std_dev;
                agreement_percentage := agreement_percentage;
                reliability_level := reliability_level;
                outlier_models := outlier_models;
                consensus_score := Some consensus |}
        end
      end
    end.

End DeepAnalysis.

(** ** The single-phase orchestrator ([DeepAnalysisService]) *)

Module DeepService.
Export DeepAnalysis.

(** A call of [self.ai_service.correct_essay] under [asyncio.wait_for]. *)
Record CorrectEssayCall : Type := {
  call_content : text;
  call_theme : text;
  call_model_key : string;
  call_user_id : option string;
  call_analysis_type : string;
  call_theme_data : option AIService.dict;
  call_timeout : Z
}.

(** The state of a run: the number of clock readings and the calls made to
    the correction service so far. *)
Record World : Type := {
  clock_reads : nat;
  calls : list CorrectEssayCall
}.

(** The collaborators: the clocks, float formatting and the injected
    correction service, whose [n]-th call under [asyncio.wait_for] returns a
    dictionary, raises, or times out ([Raise TimeoutError]). *)
Record Env : Type := {
  time_time : nat -> R;
  utcnow_isoformat : nat -> string;
  format_1f : R -> string;
  correct_essay : nat -> CorrectEssayCall -> result AIService.CorrectionResult
}.

Definition M (A : Type) : Type := World -> result A * World.

Definition ret {A} (a : A) : M A := fun w => (Ok a, w).
Definition raise {A} (e : exn) : M A := fun w => (Raise e, w).
Definition bind {A B} (m : M A) (k : A -> M B) : M B :=
  fun w => match m w with
           | (Ok a, w') => k a w'
           | (Raise e, w') => (Raise e, w')
           end.

Notation "'do' x <- m ; k" := (bind m (fun x => k))
  (at level 10, x name, m at level 100, k at level 200).

Definition tick : M nat :=
  fun w => (Ok (clock_reads w), {| clock_reads := S (clock_reads w); calls := calls w |}).

Definition record_call (c : CorrectEssayCall) : M nat :=
  fun w => (Ok (length (calls w)),
            {| clock_reads := clock_reads w; calls := calls w ++ [c] |}).

(** [l[:n]] *)
Definition slice_to {A} (n : Z) (l : list A) : list A :=
  if (0 <=? n)%Z then firstn (Z.to_nat n) l
  else firstn (length l - Z.to_nat (- n)) l.

Section Service.
Context (env : Env) (config : Config) (ai_models : list (string * AIService.ModelConfig)).

Definition now : M R := do n <- tick; ret (time_time env n).
Definition utcnow : M string := do n <- tick; ret (utcnow_isoformat env n).

Definition call_correct_essay (c : CorrectEssayCall) : M AIService.CorrectionResult :=
  do n <- record_call c;
  match correct_essay env n c with
  | Ok r => ret r
  | Raise e => raise e
  end.

Definition _analyze_with_model (model_key : string) (content theme : text)
    (analysis_type : string) : M ModelResult :=
  do start_time <- now;
  fun w =>
    match call_correct_essay
            {| call_content := content; call_theme := theme;
               call_model_key := model_key; call_user_id := None;
               call_analysis_type := analysis_type;
               call_theme_data := Some [("title", theme); ("faculdade", u "ENEM")];
               call_timeout := timeout_per_model config |} w with
    | (Ok result, w') =>
      (do t <- now;
       do ts <- utcnow;
       ret {| model := model_key; feedback := AIService.feedback result;
              score := AIService.score result;
              processing_time := (t - start_time)%R; timestamp := ts;
              error := None; success := true |}) w'
    | (Raise e, w') =>
      let error_msg :=
        match e with
        | TimeoutError =>
          "Model " +:+ model_key +:+ " timed out after "
          +:+ pretty (timeout_per_model config) +:+ "s"
        | _ => "Model " +:+ model_key +:+ " failed: " +:+ exn_str (format_1f env) e
        end in
      (do t <- now;
       do ts <- utcnow;
       ret {| model := model_key; feedback := []; score := None;
              processing_time := (t - start_time)%R; timestamp := ts;
              error := Some error_msg; success := false |}) w'
    end.

(** [asyncio.gather] with [return_exceptions=True], followed by the loop
    that keeps the [ModelResult]s: the coroutines are run one after the
    other, in the order of the list. *)
Fixpoint gather_results (tasks : list (M ModelResult)) : M (list ModelResult) :=
  match tasks with
  | [] => ret []
  | task :: rest =>
    fun w =>
      match task w with
      | (Ok r, w') => (do rs <- gather_results rest; ret (r :: rs)) w'
      | (Raise _, w') => gather_results rest w'
      end
  end.

Definition _run_multiple_models (content theme : text) (analysis_type : string)
    : M (list ModelResult) :=
  let available_models :=
    map fst (List.filter (fun kc => AIService.available (snd kc)) ai_models) in
  match available_models with
  | [] => raise (AIServiceError "No AI models available for deep analysis")
  | _ =>
    let models_to_use := slice_to (max_concurrent_models config) available_models in
    gather_results
      (map (fun model_key => _analyze_with_model model_key content theme analysis_type)
           models_to_use)
  end.

End Service.

(** *** The reliability report *)

Record ReliabilityReport : Type := {
  total_models_attempted : Z;
  successful_models : Z;
  failed_models : Z;
  success_rate : R;
  performance_successful : list string;
  performance_failed : list string;
  performance_outliers : list string;
  quality_agreement_percentage : R;
  quality_reliability_level : string;
  consistency_variance : R;
  consistency_std_dev : R;
  recommendations : list text
}.

(** [AnalysisReliability.value] *)
Definition reliability_value (l : AnalysisReliability) : string :=
  match l with
  | VERY_HIGH => "very_high"
  | HIGH => "high"
  | MEDIUM => "medium"
  | LOW => "low"
  | VERY_LOW => "very_low"
  end.

(** [', '.join(keys)] *)
Fixpoint join_comma (keys : list string) : text :=
  match keys with
  | [] => []
  | [k] => u k
  | k :: rest => u k ++ u ", " ++ join_comma rest
  end.

Definition _generate_reliability_recommendations (consensus_metrics : ConsensusMetrics)
    : list text :=
  [match reliability_level consensus_metrics with
   | VERY_HIGH => u "Análise altamente confiável - pode ser usada com segurança"
   | HIGH => u "Análise confiável - pequenas variações são normais"
   | MEDIUM => u "Considere solicitar nova análise para maior precisão"
   | _ => u "Baixa confiabilidade - recomenda-se análise manual adicional"
   end]
  ++ match outlier_models consensus_metrics with
     | [] => []
     | keys => [u "Modelos " ++ join_comma keys ++ u " apresentaram avaliações divergentes"]
     end
  ++ (if Rgtb (score_std_dev consensus_metrics) 100
      then [u "Alta variação nas pontuações - considere fatores contextuais"]
      else []).

Definition _generate_reliability_report (model_results : list ModelResult)
    (consensus_metrics : ConsensusMetrics) : ReliabilityReport :=
  let successful := map model (List.filter success model_results) in
  let failed := map model (List.filter (fun r => negb (success r)) model_results) in
  {| total_models_attempted := Z.of_nat (length model_results);
     successful_models := Z.of_nat (length successful);
     failed_models := Z.of_nat (length failed);
     success_rate :=
       match model_results with
       | [] => 0%R
       | _ => (INR (length successful) / INR (length model_results) * 100)%R
       end;
     performance_successful := successful;
     performance_failed := failed;
     performance_outliers := outlier_models consensus_metrics;
     quality_agreement_percentage := agreement_percentage consensus_metrics;
     quality_reliability_level := reliability_value (reliability_level consensus_metrics);
     consistency_variance := score_variance consensus_metrics;
     consistency_std_dev := score_std_dev consensus_metrics;
     recommendations := _generate_reliability_recommendations consensus_metrics |}.

End DeepService.

(** ** The enhanced two-phase orchestrator ([EnhancedDeepAnalysisService]) *)

Module Enhanced.
Import Re.

Record Phase1ModelResult : Type := {
  model : string;
  feedback : text;
  score : option R;
  processing_time : R;
  timestamp : string;
  error : option string;
  success : bool;
  raw_output : text
}.

Record Phase1Results : Type := {
  kimi_result : option Phase1ModelResult;
  qwen_result : option Phase1ModelResult;
  deepseek_result : option Phase1ModelResult;
  p1_processing_time : R;
  successful_models : Z
}.

(** [result and result.success] *)
Definition succeeded (r : option Phase1ModelResult) : bool :=
  match r with
  | Some r' => success r'
  | None => false
  end.

Definition get_raw_outputs_for_synthesis (p : Phase1Results) : list (string * text) :=
  (if succeeded (kimi_result p)
   then [("kimi_k2", from_option raw_output [] (kimi_result p))] else [])
  ++ (if succeeded (qwen_result p)
      then [("qwen3_235b", from_option raw_output [] (qwen_result p))] else [])
  ++ (if succeeded (deepseek_result p)
      then [("deepseek_r1", from_option raw_output [] (deepseek_result p))] else []).

Record Phase2Result : Type := {
  consolidated_feedback : text;
  final_score : option R;
  reliability_level : string;
  p2_processing_time : R;
  p2_timestamp : string;
  p2_error : option string;
  p2_success : bool
}.

Record EnhancedDeepAnalysisResult : Type := {
  content_hash : string;
  theme : text;
  analysis_type : string;
  exam_type : text;
  phase1_results : Phase1Results;
  phase2_result : Phase2Result;
  total_processing_time : R;
  e_timestamp : string;
  cache_key : string
}.

(** [self.config] *)
Record Config : Type := {
  phase1_timeout_per_model : Z;
  phase2_timeout : Z;
  cache_ttl : Z;
  min_successful_models : Z;
  max_retries : Z
}.

Definition default_config : Config :=
  {| phase1_timeout_per_model := 120; phase2_timeout := 180; cache_ttl := 7200;
     min_successful_models := 1; max_retries := 2 |}.

Definition phase2_model : string := "llama_49b".

(** A call of [self.ai_service.correct_essay] under [asyncio.wait_for]. *)
Record CorrectEssayCall : Type := {
  call_content : text;
  call_theme : text;
  call_model_key : string;
  call_user_id : option string;
  call_analysis_type : string;
  call_timeout : Z
}.

(** The state of a run: the limiter's dictionary, the cache, the number of
    clock readings and the calls made to the correction service so far. *)
Record World : Type := {
  requests : gmap string (list R);
  cache_connected : bool;
  cache : gmap string EnhancedDeepAnalysisResult;
  clock_reads : nat;
  calls : list CorrectEssayCall
}.

(** The collaborators of the orchestrator: the runtime, the prompt
    templates, and the injected correction service, whose [n]-th call under
    [asyncio.wait_for] returns a dictionary, raises, or times out
    ([Raise TimeoutError]). *)
Record Env : Type := {
  ucd : Unicode;
  md5_hexdigest : text -> string;
  time_time : nat -> R;
  utcnow_isoformat : nat -> string;
  format_1f : R -> string;
  rate_limit : RateLimiter.RateLimitConfig;
  get_prompt : text -> string -> text -> text -> result text;
  detect_faculdade_upper : text -> option AIService.dict -> result text;
  correct_essay : nat -> CorrectEssayCall -> result AIService.CorrectionResult
}.

Definition M (A : Type) : Type := World -> result A * World.

Definition ret {A} (a : A) : M A := fun w => (Ok a, w).
Definition raise {A} (e : exn) : M A := fun w => (Raise e, w).
Definition bind {A B} (m : M A) (k : A -> M B) : M B :=
  fun w => match m w with
           | (Ok a, w') => k a w'
           | (Raise e, w') => (Raise e, w')
           end.

Notation "'do' x <- m ; k" := (bind m (fun x => k))
  (at level 10, x name, m at level 100, k at level 200).
Notation "m ;; k" := (bind m (fun _ => k))
  (at level 100, k at level 200, right associativity).

Definition get_world : M World := fun w => (Ok w, w).

Definition tick : M nat :=
  fun w => (Ok (clock_reads w),
            {| requests := requests w; cache_connected := cache_connected w;
               cache := cache w; clock_reads := S (clock_reads w); calls := calls w |}).

Definition set_requests (r : gmap string (list R)) : M unit :=
  fun w => (Ok tt, {| requests := r; cache_connected := cache_connected w;
                      cache := cache w; clock_reads := clock_reads w; calls := calls w |}).

Definition set_cache (c : gmap string EnhancedDeepAnalysisResult) : M unit :=
  fun w => (Ok tt, {| requests := requests w; cache_connected := cache_connected w;
                      cache := c; clock_reads := clock_reads w; calls := calls w |}).

Definition record_call (c : CorrectEssayCall) : M nat :=
  fun w => (Ok (length (calls w)),
            {| requests := requests w; cache_connected := cache_connected w;
               cache := cache w; clock_reads := clock_reads w;
               calls := calls w ++ [c] |}).

(** [str(n)] for an integer. *)
Definition str_int (n : Z) : string := pretty n.

(** [str.upper] on the ASCII model keys. *)
Definition upper (s : string) : text :=
  map (fun c => if ((97 <=? c) && (c <=? 122))%N then (c - 32)%N else c) (u s).

Definition newline : text := [10%N].

Section Service.
Context (env : Env) (config : Config).

Definition now : M R := do n <- tick; ret (time_time env n).
Definition utcnow : M string := do n <- tick; ret (utcnow_isoformat env n).

(** [await asyncio.wait_for(self.ai_service.correct_essay(...), timeout)] *)
Definition call_correct_essay (c : CorrectEssayCall) : M AIService.CorrectionResult :=
  do n <- record_call c;
  match correct_essay env n c with
  | Ok r => ret r
  | Raise e => raise e
  end.

Definition _generate_enhanced_cache_key (content theme : text) (analysis_type : string)
    : string :=
  let content_hash :=
    md5_hexdigest env (content ++ theme ++ u analysis_type ++ u "enhanced") in
  "enhanced_deep_analysis:" +:+ analysis_type +:+ ":" +:+ content_hash.

Definition _check_enhanced_cache (cache_key : string)
    : M (option EnhancedDeepAnalysisResult) :=
  do w <- get_world;
  ret (if cache_connected w then cache w !! cache_key else None).

Definition _cache_enhanced_result (result : EnhancedDeepAnalysisResult) : M unit :=
  do w <- get_world;
  if cache_connected w
  then set_cache (<[cache_key result := result]> (cache w))
  else ret tt.

Definition _get_phase1_prompt (content theme : text) (analysis_type : string)
    (exam_type : text) : text :=
  match get_prompt env exam_type analysis_type content theme with
  | Ok personalized => personalized
  | Raise _ =>
    u "Analise esta redação sobre " ++ dquote ++ theme ++ dquote ++ u " seguindo os critérios do " ++ exam_type ++ u ":

" ++ content ++ u "

Forneça uma análise completa incluindo:
1. Avaliação por critério/competência
2. Pontos fortes identificados
3. Pontos de melhoria
4. Nota final justificada
5. Sugestões específicas de aprimoramento"
  end.

Definition _analyze_with_phase1_model (model_key : string) (content theme : text)
    (analysis_type : string) (exam_type : text) : M Phase1ModelResult :=
  do start_time <- now;
  let prompt := _get_phase1_prompt content theme analysis_type exam_type in
  fun w =>
    match call_correct_essay
            {| call_content := content; call_theme := theme;
               call_model_key := model_key; call_user_id := None;
               call_analysis_type := analysis_type;
               call_timeout := phase1_timeout_per_model config |} w with
    | (Ok result, w') =>
      (do t <- now;
       do ts <- utcnow;
       ret {| model := model_key; feedback := AIService.feedback result;
              score := AIService.score result;
              processing_time := (t - start_time)%R; timestamp := ts;
              error := None; success := true;
              raw_output := AIService.feedback result |}) w'
    | (Raise e, w') =>
      let error_msg :=
        match e with
        | TimeoutError =>
          "Phase 1 model " +:+ model_key +:+ " timed out after "
          +:+ str_int (phase1_timeout_per_model config) +:+ "s"
        | _ =>
          "Phase 1 model " +:+ model_key +:+ " failed: "
          +:+ exn_str (format_1f env) e
        end in
      (do t <- now;
       do ts <- utcnow;
       ret {| model := model_key; feedback := []; score := None;
              processing_time := (t - start_time)%R; timestamp := ts;
              error := Some error_msg; success := false; raw_output := [] |}) w'
    end.

(** One awaitable of [asyncio.gather(..., return_exceptions=True)] mapped
    back: an exception in place of a result becomes [None]. *)
Definition gathered {A} (task : M A) : M (option A) :=
  fun w => match task w with
           | (Ok a, w') => (Ok (Some a), w')
           | (Raise _, w') => (Ok None, w')
           end.

(** [_run_phase1_analysis]. The three coroutines are run one after the
    other, in the order in which they are handed to [gather]. *)
Definition _run_phase1_analysis (content theme : text) (analysis_type : string)
    (exam_type : text) : M Phase1Results :=
  do start_time <- now;
  do kimi_result <-
    gathered (_analyze_with_phase1_model "kimi_k2" content theme analysis_type exam_type);
  do qwen_result <-
    gathered (_analyze_with_phase1_model "qwen3_235b" content theme analysis_type exam_type);
  do deepseek_result <-
    gathered (_analyze_with_phase1_model "deepseek_r1" content theme analysis_type exam_type);
  let successful_models :=
    Z.of_nat (length (List.filter succeeded [kimi_result; qwen_result; deepseek_result])) in
  do t <- now;
  ret {| kimi_result := kimi_result; qwen_result := qwen_result;
         deepseek_result := deepseek_result;
         p1_processing_time := (t - start_time)%R;
         successful_models := successful_models |}.

Definition _create_synthesis_prompt (content theme exam_type : text)
    (phase1_outputs : list (string * text)) : text :=
  let model_analyses_text :=
    fold_left
      (fun acc (kv : string * text) =>
         acc ++ newline ++ newline ++ u "**ANÁLISE DO MODELO " ++ upper (fst kv)
             ++ u ":**" ++ newline ++ snd kv)
      phase1_outputs [] in
  u "Você é um especialista em consolidar análises de redações realizadas por múltiplos avaliadores.

**IMPORTANTE: RESPONDA SEMPRE EM PORTUGUÊS BRASILEIRO.**

## DADOS RECEBIDOS
**TEXTO ORIGINAL DA REDAÇÃO:**
" ++ content ++ u "

**TEMA:** " ++ theme ++ u "

**TIPO DE ANÁLISE:** " ++ exam_type ++ u " (ENEM/FUVEST/PUC-RJ/UNIFESP/ITA/UNESP)

**ANÁLISES DOS MODELOS:** " ++ model_analyses_text ++ u "

## OBJETIVO
Consolidar as análises individuais em um feedback único, identificando:
1. Pontos de consenso entre avaliadores
2. Divergências significativas
3. Insights complementares
4. Nota final mais apropriada

## PROCESSO DE CONSOLIDAÇÃO

### 1. ANÁLISE DE CONSENSO
- Identifique aspectos onde há concordância entre os modelos
- Destaque avaliações unânimes (positivas ou negativas)
- Valorize pontos mencionados por múltiplos avaliadores

### 2. ANÁLISE DE DIVERGÊNCIAS
- Identifique discrepâncias significativas nas notas
- Analise diferentes interpretações do mesmo aspecto
- Pondere qual visão é mais fundamentada

### 3. SÍNTESE INTEGRATIVA
- Combine insights complementares
- Elimine redundâncias
- Mantenha apenas o mais relevante e pedagógico

### 4. NOTA FINAL
- Se houver consenso: use a média
- Se houver divergência significativa (>20%): use mediana
- Justifique ajustes quando necessário

## FORMATO DE SAÍDA

**ANÁLISE CONSOLIDADA - " ++ exam_type ++ u "**

**Consensos Identificados**
[Listar principais pontos de concordância entre avaliadores]

**Divergências Relevantes**
[Apenas se houver discrepâncias significativas que mereçam atenção]

**Avaliação Final por Critério**
[Para cada critério da faculdade específica, apresentar nota consolidada e justificativa breve]

**Nota Total Consolidada:** [X]/[Total]

**Pontos Fortes - Síntese**
[3 principais qualidades identificadas pela maioria dos avaliadores]

**Pontos de Melhoria - Síntese**
[3 principais aspectos a desenvolver segundo consenso dos avaliadores]

**Orientações Prioritárias**
[5 sugestões mais relevantes compiladas das análises, ordenadas por importância]

**Observação sobre a Análise**
[Se houver alguma divergência muito significativa ou aspecto que mereça atenção especial]".

(** Patterns of [_extract_synthesis_score]. *)
Definition synthesis_patterns : list regex :=
  let ratio := Cat WsStar (Cat (Group Digits) (Cat (Lit 47) (Group Digits))) in
  [ Cat (lits (u "Nota Total Consolidada:")) ratio;
    Cat (lits (u "NOTA TOTAL CONSOLIDADA:")) ratio;
    Cat (lits (u "Nota Final:")) ratio;
    Cat (lits (u "NOTA FINAL:")) ratio ].

(** The score and the total of the first pattern that matches. *)
Definition _extract_synthesis_score (synthesis_feedback : text) : option R :=
  match Score.first_match (ucd env) synthesis_patterns synthesis_feedback
          (fun m => (Score.float_of_digits (ucd env) (group m 1),
                     Score.float_of_digits (ucd env) (group m 2))) with
  | Some (score, total) =>
    if Reqb total 1000 then Some score
    else if Reqb total 0 then None
    else Some (score / total * 1000)%R
  | None => None
  end.

(** The success rate is [successful_models / 3.0], compared with 1.0,
    0.67 and 0.33. *)
Definition _calculate_reliability_level (phase1_results : Phase1Results) : string :=
  let success_rate := (IZR (successful_models phase1_results) / 3)%R in
  if Rgeb success_rate 1 then "very_high"
  else if Rgeb success_rate (67 / 100) then "high"
  else if Rgeb success_rate (33 / 100) then "medium"
  else "very_low".

Definition _run_phase2_synthesis (content theme exam_type : text)
    (phase1_results : Phase1Results) : M Phase2Result :=
  do start_time <- now;
  if (successful_models phase1_results <? min_successful_models config)%Z then
    let error_msg :=
      "Insufficient successful Phase 1 models ("
      +:+ str_int (successful_models phase1_results) +:+ ") for synthesis" in
    do t <- now;
    do ts <- utcnow;
    ret {| consolidated_feedback := u "**ANÁLISE PROFUNDA INDISPONÍVEL**

Não foi possível obter análises suficientes dos modelos primários para realizar a síntese.";
           final_score := None; reliability_level := "very_low";
           p2_processing_time := (t - start_time)%R; p2_timestamp := ts;
           p2_error := Some error_msg; p2_success := false |}
  else
    let phase1_outputs := get_raw_outputs_for_synthesis phase1_results in
    let synthesis_prompt := _create_synthesis_prompt content theme exam_type phase1_outputs in
    fun w =>
      match call_correct_essay
              {| call_content := synthesis_prompt;
                 call_theme := u "Síntese de análises para: " ++ theme;
                 call_model_key := phase2_model; call_user_id := None;
                 call_analysis_type := "synthesis";
                 call_timeout := phase2_timeout config |} w with
      | (Ok result, w') =>
        let final_score := _extract_synthesis_score (AIService.feedback result) in
        let reliability_level := _calculate_reliability_level phase1_results in
        (do t <- now;
         do ts <- utcnow;
         ret {| consolidated_feedback := AIService.feedback result;
                final_score := final_score; reliability_level := reliability_level;
                p2_processing_time := (t - start_time)%R; p2_timestamp := ts;
                p2_error := None; p2_success := true |}) w'
      | (Raise TimeoutError, w') =>
        let error_msg :=
          "Phase 2 synthesis timed out after " +:+ str_int (phase2_timeout config) +:+ "s" in
        (do t <- now;
         do ts <- utcnow;
         ret {| consolidated_feedback := u "**ANÁLISE PROFUNDA INDISPONÍVEL**

O processo de síntese das análises excedeu o tempo limite.";
                final_score := None; reliability_level := "low";
                p2_processing_time := (t - start_time)%R; p2_timestamp := ts;
                p2_error := Some error_msg; p2_success := false |}) w'
      | (Raise e, w') =>
        let error_msg := "Phase 2 synthesis failed: " +:+ exn_str (format_1f env) e in
        (do t <- now;
         do ts <- utcnow;
         ret {| consolidated_feedback := u "**ANÁLISE PROFUNDA INDISPONÍVEL**

Ocorreu um erro durante o processo de síntese das análises.";
                final_score := None; reliability_level := "very_low";
                p2_processing_time := (t - start_time)%R; p2_timestamp := ts;
                p2_error := Some error_msg; p2_success := false |}) w'
      end.

Definition _detect_exam_type (theme : text) (theme_data : option AIService.dict) : text :=
  match detect_faculdade_upper env theme theme_data with
  | Ok exam => exam
  | Raise _ => u "ENEM"
  end.

Definition analyze_enhanced_deep (content theme : text) (analysis_type : string)
    (user_id : option string) (theme_data : option AIService.dict)
    : M EnhancedDeepAnalysisResult :=
  do start_time <- now;
  if forallb (isspace (ucd env)) content then
    raise (AIServiceError "Content cannot be empty for enhanced deep analysis")
  else if forallb (isspace (ucd env)) theme then
    raise (AIServiceError "Theme cannot be empty for enhanced deep analysis")
  else
    let exam_type := _detect_exam_type theme theme_data in
    let content_hash :=
      md5_hexdigest env (content ++ theme ++ u analysis_type ++ u "enhanced") in
    let cache_key := _generate_enhanced_cache_key content theme analysis_type in
    do cached_result <- _check_enhanced_cache cache_key;
    match cached_result with
    | Some cached => ret cached
    | None =>
      (match user_id with
       | Some uid =>
         if AIService.truthy user_id then
           do t <- now;
           do w <- get_world;
           let '(r, requests') :=
             RateLimiter.is_allowed (rate_limit env) (requests w) t
                                    ("enhanced_deep_" +:+ uid) in
           set_requests requests';;
           match r with
           | Raise e => raise e
           | Ok (allowed, wait_time) =>
             if allowed then ret tt
             else raise (RateLimitExceededError (default 0%R wait_time))
           end
         else ret tt
       | None => ret tt
       end);;
      do phase1_results <- _run_phase1_analysis content theme analysis_type exam_type;
      do phase2_result <- _run_phase2_synthesis content theme exam_type phase1_results;
      do t <- now;
      do ts <- utcnow;
      let result :=
        {| content_hash := content_hash; theme := theme; analysis_type := analysis_type;
           exam_type := exam_type; phase1_results := phase1_results;
           phase2_result := phase2_result;
           total_processing_time := (t - start_time)%R; e_timestamp := ts;
           cache_key := cache_key |} in
      _cache_enhanced_result result;;
      ret result
    end.

End Service.

End Enhanced.

(** ** What is written to the cache and read back *)

(** The values that the serializers put into a dictionary. A Python [str]
    appears as [PStr] or [PText], after the two representations of strings
    in this development. *)
Module Wire.

#[warnings="-register-all"]
Inductive pyval : Type :=
| PNone
| PBool (b : bool)
| PInt (n : Z)
| PFloat (x : R)
| PStr (s : string)
| PText (t : text)
| PList (l : list pyval)
| PDict (d : list (string * pyval)).

(** How reading a dictionary back fails: a key is missing ([KeyError]), a
    value is not of the type that the dataclass announces, or a string names
    no member of an enumeration ([ValueError]). *)
Inductive decode_error : Type :=
| KeyError (key : string)
| WrongType (key : string)
| NoSuchMember (value : string).

Inductive decoded (A : Type) : Type :=
| Decoded (a : A)
| Failed (e : decode_error).
Arguments Decoded {A} a.
Arguments Failed {A} e.

Definition bind {A B} (m : decoded A) (k : A -> decoded B) : decoded B :=
  match m with
  | Decoded a => k a
  | Failed e => Failed e
  end.

Notation "'let!' x := m 'in' k" := (bind m (fun x => k))
  (at level 10, x name, m at level 100, k at level 200).

(** [d.get(key)] on a dictionary literal: the last binding of a key counts,
    here every key is bound once. *)
Fixpoint lookup (d : list (string * pyval)) (key : string) : option pyval :=
  match d with
  | [] => None
  | (k, v) :: d' => if bool_decide (k = key) then Some v else lookup d' key
  end.

(** [data[key]] and [data.get(key)] *)
Definition item (data : pyval) (key : string) : decoded pyval :=
  match data with
  | PDict d =>
    match lookup d key with
    | Some v => Decoded v
    | None => Failed (KeyError key)
    end
  | _ => Failed (WrongType key)
  end.

Definition get (data : pyval) (key : string) (fallback : pyval) : decoded pyval :=
  match data with
  | PDict d =>
    match lookup d key with
    | Some v => Decoded v
    | None => Decoded fallback
    end
  | _ => Failed (WrongType key)
  end.

(** The typed views of a value. *)
Definition as_string (key : string) (v : pyval) : decoded string :=
  match v with PStr s => Decoded s | _ => Failed (WrongType key) end.

Definition as_text (key : string) (v : pyval) : decoded text :=
  match v with PText t => Decoded t | _ => Failed (WrongType key) end.

Definition as_float (key : string) (v : pyval) : decoded R :=
  match v with PFloat x => Decoded x | _ => Failed (WrongType key) end.

Definition as_int (key : string) (v : pyval) : decoded Z :=
  match v with PInt n => Decoded n | _ => Failed (WrongType key) end.

Definition as_bool (key : string) (v : pyval) : decoded bool :=
  match v with PBool b => Decoded b | _ => Failed (WrongType key) end.

Definition as_optional_float (key : string) (v : pyval) : decoded (option R) :=
  match v with
  | PNone => Decoded None
  | PFloat x => Decoded (Some x)
  | _ => Failed (WrongType key)
  end.

Definition as_optional_string (key : string) (v : pyval) : decoded (option string) :=
  match v with
  | PNone => Decoded None
  | PStr s => Decoded (Some s)
  | _ => Failed (WrongType key)
  end.

Definition of_optional_float (x : option R) : pyval :=
  match x with Some x' => PFloat x' | None => PNone end.

Definition of_optional_string (s : option string) : pyval :=
  match s with Some s' => PStr s' | None => PNone end.

(** A list comprehension over a list of the dictionary. *)
Fixpoint each {A} (f : pyval -> decoded A) (l : list pyval) : decoded (list A) :=
  match l with
  | [] => Decoded []
  | v :: l' => let! a := f v in let! rest := each f l' in Decoded (a :: rest)
  end.

Definition as_list (key : string) (v : pyval) : decoded (list pyval) :=
  match v with PList l => Decoded l | _ => Failed (WrongType key) end.

(** Truth value of a value: [None], [False], zero and the empty string,
    list and dictionary are false. *)
Definition falsy (v : pyval) : bool :=
  match v with
  | PNone => true
  | PBool b => negb b
  | PInt n => (n =? 0)%Z
  | PFloat x => Reqb x 0
  | PStr s => bool_decide (s = "")
  | PText t => bool_decide (t = [])
  | PList l => bool_decide (l = [])
  | PDict d => match d with [] => true | _ => false end
  end.

End Wire.

(** *** [EnhancedDeepAnalysisService]: serializers *)

Module EnhancedWire.
Import Wire Enhanced.

Definition _serialize_model_result (model_result : option Phase1ModelResult) : pyval :=
  match model_result with
  | None => PNone
  | Some r =>
    PDict [("model", PStr (model r));
           ("feedback", PText (feedback r));
           ("score", of_optional_float (score r));
           ("processing_time", PFloat (processing_time r));
           ("timestamp", PStr (timestamp r));
           ("error", of_optional_string (error r));
           ("success", PBool (success r));
           ("raw_output", PText (raw_output r))]
  end.

Definition _serialize_enhanced_result (result : EnhancedDeepAnalysisResult) : pyval :=
  PDict
    [("content_hash", PStr (content_hash result));
     ("theme", PText (theme result));
     ("analysis_type", PStr (analysis_type result));
     ("exam_type", PText (exam_type result));
     ("phase1_results",
      PDict [("kimi_result", _serialize_model_result (kimi_result (phase1_results result)));
             ("qwen_result", _serialize_model_result (qwen_result (phase1_results result)));
             ("deepseek_result",
              _serialize_model_result (deepseek_result (phase1_results result)));
             ("processing_time", PFloat (p1_processing_time (phase1_results result)));
             ("successful_models", PInt (successful_models (phase1_results result)))]);
     ("phase2_result",
      PDict [("consolidated_feedback",
              PText (consolidated_feedback (phase2_result result)));
             ("final_score", of_optional_float (final_score (phase2_result result)));
             ("reliability_level", PStr (reliability_level (phase2_result result)));
             ("processing_time", PFloat (p2_processing_time (phase2_result result)));
             ("timestamp", PStr (p2_timestamp (phase2_result result)));
             ("error", of_optional_string (p2_error (phase2_result result)));
             ("success", PBool (p2_success (phase2_result result)))]);
     ("total_processing_time", PFloat (total_processing_time result));
     ("timestamp", PStr (e_timestamp result));
     ("cache_key", PStr (cache_key result))].

Definition _deserialize_model_result (data : pyval) : decoded (option Phase1ModelResult) :=
  if falsy data then Decoded None
  else
    let! v_model := item data "model" in let! model := as_string "model" v_model in
    let! v_feedback := item data "feedback" in let! feedback := as_text "feedback" v_feedback in
    let! v_score := item data "score" in let! score := as_optional_float "score" v_score in
    let! v_time := item data "processing_time" in
    let! processing_time := as_float "processing_time" v_time in
    let! v_timestamp := item data "timestamp" in
    let! timestamp := as_string "timestamp" v_timestamp in
    let! v_error := get data "error" PNone in let! error := as_optional_string "error" v_error in
    let! v_success := item data "success" in let! success := as_bool "success" v_success in
    let! v_raw := get data "raw_output" (PText []) in
    let! raw_output := as_text "raw_output" v_raw in
    Decoded (Some {| model := model; feedback := feedback; score := score;
                     processing_time := processing_time; timestamp := timestamp;
                     error := error; success := success; raw_output := raw_output |}).

Definition _deserialize_enhanced_result (data : pyval) : decoded EnhancedDeepAnalysisResult :=
  let! phase1_data := item data "phase1_results" in
  let! v_kimi := get phase1_data "kimi_result" PNone in
  let! kimi_result := _deserialize_model_result v_kimi in
  let! v_qwen := get phase1_data "qwen_result" PNone in
  let! qwen_result := _deserialize_model_result v_qwen in
  let! v_deepseek := get phase1_data "deepseek_result" PNone in
  let! deepseek_result := _deserialize_model_result v_deepseek in
  let! v_p1_time := item phase1_data "processing_time" in
  let! p1_time := as_float "processing_time" v_p1_time in
  let! v_successful := item phase1_data "successful_models" in
  let! successful := as_int "successful_models" v_successful in
  let phase1_results :=
    {| kimi_result := kimi_result; qwen_result := qwen_result;
       deepseek_result := deepseek_result; p1_processing_time := p1_time;
       successful_models := successful |} in
  let! phase2_data := item data "phase2_result" in
  let! v_feedback := item phase2_data "consolidated_feedback" in
  let! consolidated := as_text "consolidated_feedback" v_feedback in
  let! v_final := item phase2_data "final_score" in
  let! final_score := as_optional_float "final_score" v_final in
  let! v_level := item phase2_data "reliability_level" in
  let! level := as_string "reliability_level" v_level in
  let! v_p2_time := item phase2_data "processing_time" in
  let! p2_time := as_float "processing_time" v_p2_time in
  let! v_p2_timestamp := item phase2_data "timestamp" in
  let! p2_timestamp := as_string "timestamp" v_p2_timestamp in
  let! v_error := get phase2_data "error" PNone in
  let! p2_error := as_optional_string "error" v_error in
  let! v_success := item phase2_data "success" in
  let! p2_success := as_bool "success" v_success in
  let phase2_result :=
    {| consolidated_feedback := consolidated; final_score := final_score;
       reliability_level := level; p2_processing_time := p2_time;
       p2_timestamp := p2_timestamp; p2_error := p2_error; p2_success := p2_success |} in
  let! v_hash := item data "content_hash" in let! content_hash := as_string "content_hash" v_hash in
  let! v_theme := item data "theme" in let! theme := as_text "theme" v_theme in
  let! v_type := item data "analysis_type" in let! analysis_type := as_string "analysis_type" v_type in
  let! v_exam := item data "exam_type" in let! exam_type := as_text "exam_type" v_exam in
  let! v_total := item data "total_processing_time" in
  let! total := as_float "total_processing_time" v_total in
  let! v_timestamp := item data "timestamp" in
  let! timestamp := as_string "timestamp" v_timestamp in
  let! v_key := item data "cache_key" in let! cache_key := as_string "cache_key" v_key in
  Decoded {| content_hash := content_hash; theme := theme; analysis_type := analysis_type;
             exam_type := exam_type; phase1_results := phase1_results;
             phase2_result := phase2_result; total_processing_time := total;
             e_timestamp := timestamp; cache_key := cache_key |}.

End EnhancedWire.

(** *** [DeepAnalysisService]: serializers *)

Module DeepWire.
Import Wire DeepAnalysis.

(** [DeepAnalysisResult]; the reliability report is a dictionary that the
    serializers pass through. *)
Record DeepAnalysisResult : Type := {
  content_hash : string;
  theme : text;
  analysis_type : string;
  model_results : list ModelResult;
  consensus_metrics : ConsensusMetrics;
  final_score : option R;
  final_feedback : text;
  reliability_report : pyval;
  result_processing_time : R;
  result_timestamp : string;
  cache_key : string
}.

(** [AnalysisReliability.value] and [AnalysisReliability(value)] *)
Definition reliability_value (l : AnalysisReliability) : string :=
  match l with
  | VERY_HIGH => "very_high"
  | HIGH => "high"
  | MEDIUM => "medium"
  | LOW => "low"
  | VERY_LOW => "very_low"
  end.

Definition reliability_of_value (s : string) : decoded AnalysisReliability :=
  if bool_decide (s = "very_high") then Decoded VERY_HIGH
  else if bool_decide (s = "high") then Decoded HIGH
  else if bool_decide (s = "medium") then Decoded MEDIUM
  else if bool_decide (s = "low") then Decoded LOW
  else if bool_decide (s = "very_low") then Decoded VERY_LOW
  else Failed (NoSuchMember s).

Definition serialize_model_result (mr : ModelResult) : pyval :=
  PDict [("model", PStr (model mr));
         ("feedback", PText (feedback mr));
         ("score", of_optional_float (score mr));
         ("processing_time", PFloat (processing_time mr));
         ("timestamp", PStr (timestamp mr));
         ("error", of_optional_string (error mr));
         ("success", PBool (success mr))].

Definition _serialize_deep_result (result : DeepAnalysisResult) : pyval :=
  PDict
    [("content_hash", PStr (content_hash result));
     ("theme", PText (theme result));
     ("analysis_type", PStr (analysis_type result));
     ("model_results", PList (map serialize_model_result (model_results result)));
     ("consensus_metrics",
      PDict [("score_variance", PFloat (score_variance (consensus_metrics result)));
             ("score_std_dev", PFloat (score_std_dev (consensus_metrics result)));
             ("agreement_percentage",
              PFloat (agreement_percentage (consensus_metrics result)));
             ("reliability_level",
              PStr (reliability_value (reliability_level (consensus_metrics result))));
             ("outlier_models",
              PList (map PStr (outlier_models (consensus_metrics result))));
             ("consensus_score",
              of_optional_float (consensus_score (consensus_metrics result)))]);
     ("final_score", of_optional_float (final_score result));
     ("final_feedback", PText (final_feedback result));
     ("reliability_report", reliability_report result);
     ("processing_time", PFloat (result_processing_time result));
     ("timestamp", PStr (result_timestamp result));
     ("cache_key", PStr (cache_key result))].

Definition deserialize_model_result (mr : pyval) : decoded ModelResult :=
  let! v_model := item mr "model" in let! model := as_string "model" v_model in
  let! v_feedback := item mr "feedback" in let! feedback := as_text "feedback" v_feedback in
  let! v_score := item mr "score" in let! score := as_optional_float "score" v_score in
  let! v_time := item mr "processing_time" in
  let! processing_time := as_float "processing_time" v_time in
  let! v_timestamp := item mr "timestamp" in let! timestamp := as_string "timestamp" v_timestamp in
  let! v_error := get mr "error" PNone in let! error := as_optional_string "error" v_error in
  let! v_success := get mr "success" (PBool true) in let! success := as_bool "success" v_success in
  Decoded {| model := model; feedback := feedback; score := score;
             processing_time := processing_time; timestamp := timestamp;
             error := error; success := success |}.

Definition _deserialize_deep_result (data : pyval) : decoded DeepAnalysisResult :=
  let! v_results := item data "model_results" in
  let! l_results := as_list "model_results" v_results in
  let! model_results := each deserialize_model_result l_results in
  let! metrics := item data "consensus_metrics" in
  let! v_variance := item metrics "score_variance" in
  let! variance := as_float "score_variance" v_variance in
  let! v_std_dev := item metrics "score_std_dev" in
  let! std_dev := as_float "score_std_dev" v_std_dev in
  let! v_agreement := item metrics "agreement_percentage" in
  let! agreement := as_float "agreement_percentage" v_agreement in
  let! v_level := item metrics "reliability_level" in
  let! s_level := as_string "reliability_level" v_level in
  let! level := reliability_of_value s_level in
  let! v_outliers := item metrics "outlier_models" in
  let! l_outliers := as_list "outlier_models" v_outliers in
  let! outliers := each (as_string "outlier_models") l_outliers in
  let! v_consensus := item metrics "consensus_score" in
  let! consensus := as_optional_float "consensus_score" v_consensus in
  let consensus_metrics :=
    {| score_variance := variance; score_std_dev := std_dev;
       agreement_percentage := agreement; reliability_level := level;
       outlier_models := outliers; consensus_score := consensus |} in
  let! v_hash := item data "content_hash" in let! content_hash := as_string "content_hash" v_hash in
  let! v_theme := item data "theme" in let! theme := as_text "theme" v_theme in
  let! v_type := item data "analysis_type" in let! analysis_type := as_string "analysis_type" v_type in
  let! v_final := item data "final_score" in
  let! final_score := as_optional_float "final_score" v_final in
  let! v_feedback := item data "final_feedback" in
  let! final_feedback := as_text "final_feedback" v_feedback in
  let! report := item data "reliability_report" in
  let! v_time := item data "processing_time" in
  let! processing_time := as_float "processing_time" v_time in
  let! v_timestamp := item data "timestamp" in
  let! timestamp := as_string "timestamp" v_timestamp in
  let! v_key := item data "cache_key" in let! cache_key := as_string "cache_key" v_key in
  Decoded {| content_hash := content_hash; theme := theme; analysis_type := analysis_type;
             model_results := model_results; consensus_metrics := consensus_metrics;
             final_score := final_score; final_feedback := final_feedback;
             reliability_report := report; result_processing_time := processing_time;
             result_timestamp := timestamp; cache_key := cache_key |}.

End DeepWire.

(** * Part II: vocabulary of the properties and sample data *)

(** A successful, scored result of the model [key]. *)
Definition scored (key : string) (s : R) : DeepAnalysis.ModelResult :=
  {| DeepAnalysis.model := key; DeepAnalysis.feedback := [];
     DeepAnalysis.score := Some s; DeepAnalysis.processing_time := 1;
     DeepAnalysis.timestamp := "2024-01-01T10:00:00";
     DeepAnalysis.error := None; DeepAnalysis.success := true |}.







(** The model that [correct_essay] takes as primary. *)
Definition primary_model (analysis_type : string) : string :=
  if bool_decide (analysis_type = "paragraph") then "deepseek_14b" else "llama_253b".

(** Every call of the remote models fails. *)
Definition all_models_fail (env : AIService.Env) : Prop :=
  forall n model_key params,
    exists e, AIService.completions_create env n model_key params = Raise e.

(** The gates in front of the model calls: the rate limiter lets the caller
    through (it is consulted at the second clock reading of the call, for a
    non-empty user id only), and the cache holds nothing for the request. *)
Definition rate_limit_lets_through (env : AIService.Env) (config : AIService.AIServiceConfig)
    (w : AIService.World) (user_id : option string) : Prop :=
  match user_id with
  | Some uid =>
    AIService.truthy user_id = true ->
    exists requests',
      RateLimiter.is_allowed (AIService.rate_limit config) (AIService.requests w)
                             (AIService.time_time env (S (AIService.clock_reads w))) uid
      = (Ok (true, None), requests')
  | None => True
  end.

Definition cache_misses (env : AIService.Env) (w : AIService.World)
    (content theme : text) (analysis_type : string) : Prop :=
  AIService.cache_connected w = false \/
  AIService.cache w
    !! AIService._generate_cache_key env content theme (primary_model analysis_type)
         analysis_type = None.

(** The length limit of the analysis type. *)
Definition max_length (analysis_type : string) : Z :=
  if bool_decide (analysis_type = "paragraph") then 2000%Z else 10000%Z.

(** A service whose remote models are all down: two registered models, a
    disconnected cache, no template manager. *)
Definition down_env : AIService.Env :=
  {| AIService.ucd := latin;
     AIService.md5_hexdigest := fun _ => "d41d8cd98f00b204e9800998ecf8427e";
     AIService.time_time := fun n => INR n;
     AIService.utcnow_isoformat := fun _ => "2024-01-01T10:00:00";
     AIService.format_1f := fun _ => "0.0";
     AIService.personalized_prompt :=
       fun _ _ _ _ _ => Raise (ValueError "no template");
     AIService.completions_create :=
       fun _ _ _ => Raise (ClientError "connection refused") |}.

Definition registered (model_name usage_kind : string) : AIService.ModelConfig :=
  {| AIService.name := model_name; AIService.model := model_name;
     AIService.available := true; AIService.usage := usage_kind;
     AIService.temperature := 6 / 10; AIService.top_p := 7 / 10;
     AIService.max_tokens := 4096; AIService.system_message := None;
     AIService.extra_body := None |}.

Definition fresh_world : AIService.World :=
  {| AIService.requests := ∅;
     AIService.ai_models :=
       [("deepseek_14b", registered "DeepSeek R1 Distill 14B" "paragraph");
        ("llama_253b", registered "Llama 3.1 Nemotron Ultra 253B" "full_analysis")];
     AIService.cache_connected := false;
     AIService.cache := ∅;
     AIService.clock_reads := 0;
     AIService.trace := [] |}.


(** A configuration whose backoff grows by the factor 2.0 ** 600: the power
    for the third delay, 2.0 ** 1200, is out of the range of the floats. *)
Definition steep_config : AIService.AIServiceConfig :=
  {| AIService.rate_limit := RateLimiter.default_config;
     AIService.retry :=
       {| AIService.max_retries := 3; AIService.base_delay := 1;
          AIService.max_delay := 60; AIService.exponential_base := IZR (2 ^ 600) |};
     AIService.cache_ttl := 86400;
     AIService.fallback_enabled := true |}.





(** An orchestrator whose correction service times out on every call. *)
Definition timing_out_env : Enhanced.Env :=
  {| Enhanced.ucd := latin;
     Enhanced.md5_hexdigest := fun _ => "d41d8cd98f00b204e9800998ecf8427e";
     Enhanced.time_time := fun n => INR n;
     Enhanced.utcnow_isoformat := fun _ => "2024-01-01T10:00:00";
     Enhanced.format_1f := fun _ => "0.0";
     Enhanced.rate_limit := RateLimiter.default_config;
     Enhanced.get_prompt := fun _ _ _ _ => Raise (ValueError "no template");
     Enhanced.detect_faculdade_upper := fun _ _ => Ok (u "ENEM");
     Enhanced.correct_essay := fun _ _ => Raise TimeoutError |}.




(** The times, among [times], at which the checks of [user_id] made one
    after the other are allowed. *)
Fixpoint allowed_times (config : RateLimiter.RateLimitConfig) (user_id : string)
    (requests : gmap string (list R)) (times : list R) : list R :=
  match times with
  | [] => []
  | t :: later =>
    match RateLimiter.is_allowed config requests t user_id with
    | (Ok (true, _), requests') => t :: allowed_times config user_id requests' later
    | (_, requests') => allowed_times config user_id requests' later
    end
  end.

(** [in_window window s a]: the time [a] lies in the window of length
    [window] that ends at [s]. *)
Definition in_window (window s a : R) : bool :=
  Rgtb a (s - window) && (if Rle_dec a s then true else false).

(** The calls of the remote client among some events, and the delays slept. *)
Definition is_client_call (e : AIService.event) : bool :=
  match e with
  | AIService.CompletionCall _ _ => true
  | _ => false
  end.

Definition client_calls (evs : list AIService.event) : nat :=
  length (List.filter is_client_call evs).

Definition sleeps (evs : list AIService.event) : list R :=
  flat_map (fun e => match e with AIService.Sleep d => [d] | _ => [] end) evs.

(** Events that neither call the client nor sleep. *)
Definition quiet (evs : list AIService.event) : Prop :=
  client_calls evs = O /\ sleeps evs = [].

(** The delays of the backoff schedule before the attempts [first + 1], ...,
    [first + n]. *)
Definition backoff_delays (r : AIService.RetryConfig) (first n : nat) : list R :=
  map (fun i => Rmin (AIService.base_delay r
                      * powerRZ (AIService.exponential_base r) (Z.of_nat i))
                     (AIService.max_delay r))
      (seq first n).

(** The limiter's dictionary and the cache are the same in two worlds. *)
Definition same_store (w w' : AIService.World) : Prop :=
  AIService.requests w' = AIService.requests w /\
  AIService.cache w' = AIService.cache w /\
  AIService.cache_connected w' = AIService.cache_connected w.

(** A model the service will not call: not registered, or marked
    unavailable; and the exception [_call_ai_model] raises for it. *)
Definition closed (ms : list (string * AIService.ModelConfig)) (key : string) : Prop :=
  match AIService.models_get ms key with
  | Some mc => AIService.available mc = false
  | None => True
  end.

Definition refusal (ms : list (string * AIService.ModelConfig)) (key : string) : exn :=
  match AIService.models_get ms key with
  | Some _ => AIServiceUnavailableError ("Model " +:+ key +:+ " is currently unavailable")
  | None => AIServiceError ("Model " +:+ key +:+ " not available")
  end.

(** No power of the backoff schedule is out of the range of the floats:
    computing the delays raises nothing. *)
Definition backoff_defined (r : AIService.RetryConfig) : Prop :=
  forall i, (0 <= i < AIService.max_retries r)%Z ->
    float_overflows (powerRZ (AIService.exponential_base r) i) = false.

(** The seconds that the whole backoff schedule sleeps. *)
Definition backoff_seconds (r : AIService.RetryConfig) : R :=
  AIService.slept
    (map AIService.Sleep (backoff_delays r 0 (Z.to_nat (AIService.max_retries r)))).

(** Every reset task of the model [key] created in [evs] has woken up. *)
Definition settled (key : string) (evs : list AIService.event) : Prop :=
  forall after age,
    In (key, after, age) (AIService.reset_tasks evs) -> (IZR after < age)%R.

(** The remote client of the model [key] fails whenever it is called. *)
Definition model_fails (env : AIService.Env) (key : string) : Prop :=
  forall n params, exists e, AIService.completions_create env n key params = Raise e.

Section Stages.
Import AIService.
Context (env : Env) (config : AIServiceConfig).

(** The stages of [correct_essay] after the validation of the content: the
    rate-limit check, and the answer from the cache or the models. *)
Definition admission (user_id : option string) : M unit :=
  match user_id with
  | Some uid =>
    if truthy user_id then
      do t <- now env;
      do w <- get_world;
      let '(r, requests') := is_allowed (rate_limit config) (requests w) t uid in
      set_requests requests';;
      match r with
      | Raise e => raise e
      | Ok (allowed, wait_time) =>
        if allowed then ret tt
        else raise (RateLimitExceededError (default 0%R wait_time))
      end
    else ret tt
  | None => ret tt
  end.

Definition serve (start_time : R) (content theme : text) (model_key : string)
    (user_id : option string) (analysis_type : string)
    (theme_data metadata : option dict) : M CorrectionResult :=
  let cache_key := _generate_cache_key env content theme model_key analysis_type in
  do cached_result <- _check_cache cache_key;
  match cached_result with
  | Some cached => ret cached
  | None =>
    let prompt := _get_optimized_prompt env content theme analysis_type theme_data metadata in
    try_except
      (attempt_model env config start_time cache_key model_key prompt analysis_type user_id
         false None)
      is_AIServiceError
      (fun _ =>
         do w <- get_world;
         let fallback_models :=
           List.filter (fun m => negb (bool_decide (m = model_key)))
                       (map fst (ai_models w)) in
         try_fallbacks env config start_time cache_key model_key fallback_models prompt theme
           analysis_type user_id)
  end.

(** The world after one reading of the clock. *)
Definition ticked (w : World) : World :=
  {| requests := requests w; ai_models := ai_models w;
     cache_connected := cache_connected w; cache := cache w;
     clock_reads := S (clock_reads w); trace := trace w |}.
End Stages.

(** A service whose models answer every call with a graded feedback, and
    one whose primary model for full analyses is down while the others
    answer. *)
Definition up_env : AIService.Env :=
  {| AIService.ucd := latin;
     AIService.md5_hexdigest := fun _ => "d41d8cd98f00b204e9800998ecf8427e";
     AIService.time_time := fun n => INR n;
     AIService.utcnow_isoformat := fun _ => "2024-01-01T10:00:00";
     AIService.format_1f := fun _ => "0.0";
     AIService.personalized_prompt :=
       fun _ _ _ _ _ => Raise (ValueError "no template");
     AIService.completions_create := fun _ _ _ => Ok (u "NOTA FINAL: 800/1000") |}.


(** A stored result, a world whose cache holds it for the sample request,
    and a world in which the user "ana" has just made a request. *)
Definition stored_result : AIService.CorrectionResult :=
  {| AIService.feedback := u "NOTA FINAL: 640/1000";
     AIService.score := Some 640%R;
     AIService.model_used := Some "llama_253b";
     AIService.analysis_type_used := Some "full";
     AIService.processing_time := Some 3%R;
     AIService.is_fallback := false;
     AIService.fallback_reason := None;
     AIService.timestamp := "2023-12-31T09:00:00" |}.

Definition warm_world : AIService.World :=
  {| AIService.requests := ∅;
     AIService.ai_models := AIService.ai_models fresh_world;
     AIService.cache_connected := true;
     AIService.cache :=
       <[AIService._generate_cache_key down_env (u "Uma redação.") (u "Tema")
           "llama_253b" "full" := stored_result]> ∅;
     AIService.clock_reads := 0;
     AIService.trace := [] |}.

Definition busy_world : AIService.World :=
  {| AIService.requests := <["ana" := [0%R]]> ∅;
     AIService.ai_models := AIService.ai_models fresh_world;
     AIService.cache_connected := false;
     AIService.cache := ∅;
     AIService.clock_reads := 0;
     AIService.trace := [] |}.

(** Whether a call was answered, and the shape of the synthesis call. *)
Definition answered {A} (r : result A) : bool :=
  match r with
  | Ok _ => true
  | Raise _ => false
  end.





Definition stored_enhanced : Enhanced.EnhancedDeepAnalysisResult :=
  {| Enhanced.content_hash := "d41d8cd98f00b204e9800998ecf8427e";
     Enhanced.theme := u "Tema";
     Enhanced.analysis_type := "full";
     Enhanced.exam_type := u "ENEM";
     Enhanced.phase1_results :=
       {| Enhanced.kimi_result := None; Enhanced.qwen_result := None;
          Enhanced.deepseek_result := None; Enhanced.p1_processing_time := 1;
          Enhanced.successful_models := 0 |};
     Enhanced.phase2_result :=
       {| Enhanced.consolidated_feedback := []; Enhanced.final_score := None;
          Enhanced.reliability_level := "very_low"; Enhanced.p2_processing_time := 1;
          Enhanced.p2_timestamp := "2023-12-31T09:00:00";
          Enhanced.p2_error := None; Enhanced.p2_success := false |};
     Enhanced.total_processing_time := 2;
     Enhanced.e_timestamp := "2023-12-31T09:00:00";
     Enhanced.cache_key := "enhanced_deep_analysis:full:d41d8cd98f00b204e9800998ecf8427e" |}.

Definition warm_run : Enhanced.World :=
  {| Enhanced.requests := <["enhanced_deep_ana" := [0%R]]> ∅;
     Enhanced.cache_connected := true;
     Enhanced.cache :=
       <[Enhanced._generate_enhanced_cache_key timing_out_env (u "Uma redação.") (u "Tema")
           "full" := stored_enhanced]> ∅;
     Enhanced.clock_reads := 0; Enhanced.calls := [] |}.

(** The call that the single-phase orchestrator makes for a model, and a
    correction service that answers every such call. *)
Definition deep_call (config : DeepAnalysis.Config) (content theme : text)
    (analysis_type model_key : string) : DeepService.CorrectEssayCall :=
  {| DeepService.call_content := content; DeepService.call_theme := theme;
     DeepService.call_model_key := model_key; DeepService.call_user_id := None;
     DeepService.call_analysis_type := analysis_type;
     DeepService.call_theme_data := Some [("title", theme); ("faculdade", u "ENEM")];
     DeepService.call_timeout := DeepAnalysis.timeout_per_model config |}.



(** What [_analyze_with_model] puts into a result: a successful one has no
    error, a failed one an error and neither score nor feedback. *)
Definition well_formed (r : DeepAnalysis.ModelResult) : Prop :=
  if DeepAnalysis.success r then DeepAnalysis.error r = None
  else DeepAnalysis.score r = None /\ DeepAnalysis.feedback r = [] /\
       DeepAnalysis.error r <> None.

(** What the extraction of a written score needs from the Unicode tables: a
    character matches itself under IGNORECASE, the space is a space, the
    slash is no digit and no digit is a space. *)
Definition plain_tables (ucd : Unicode) : Prop :=
  (forall c, ignorecase ucd c c = true) /\
  isspace ucd 32 = true /\
  decimal ucd 47 = None /\
  (forall c, is_Some (decimal ucd c) -> isspace ucd c = false).

(** A non-empty run of decimal digits. *)
Definition digit_run (ucd : Unicode) (ds : text) : Prop :=
  ds <> [] /\ Forall (fun c => is_Some (decimal ucd c)) ds.

(** The five values of the qualitative scale. *)
Definition scale_values : list Z := [200; 400; 600; 800; 1000]%Z.

(** * Part III: the properties *)

(** ** Comparisons of reals *)

Lemma Rgeb_true x y : Rgeb x y = true <-> (x >= y)%R.
Proof. unfold Rgeb; destruct (Rge_dec x y); split; intros; (done || lra). Qed.

Lemma Rgeb_false x y : Rgeb x y = false <-> (x < y)%R.
Proof. unfold Rgeb; destruct (Rge_dec x y); split; intros; (done || lra). Qed.

Lemma Rgtb_true x y : Rgtb x y = true <-> (x > y)%R.
Proof. unfold Rgtb; destruct (Rgt_dec x y); split; intros; (done || lra). Qed.

Lemma Rgtb_false x y : Rgtb x y = false <-> (x <= y)%R.
Proof. unfold Rgtb; destruct (Rgt_dec x y); split; intros; (done || lra). Qed.

(** ** Reliability label of the enhanced run *)

(** C1 (behaviour of the code). The label is a function of the count of
    successful Phase-1 models alone, yet with two successes the success rate
    2/3 = 0.666... lies below the cut point 0.67 written in the code, so the
    label is "medium" and not the "high" that the code's own comment
    ("2 out of 3 models successful") announces.  Three, one and no success
    give "very_high", "medium" and "very_low". *)
Theorem calculate_reliability_level_by_count :
  forall k q d t,
    let p n := {| Enhanced.kimi_result := k; Enhanced.qwen_result := q;
                  Enhanced.deepseek_result := d; Enhanced.p1_processing_time := t;
                  Enhanced.successful_models := n |} in
    Enhanced._calculate_reliability_level (p 3%Z) = "very_high" /\
    Enhanced._calculate_reliability_level (p 2%Z) = "medium" /\
    Enhanced._calculate_reliability_level (p 1%Z) = "medium" /\
    Enhanced._calculate_reliability_level (p 0%Z) = "very_low".
Proof.
  intros k q d t p. unfold Enhanced._calculate_reliability_level, p. simpl.
  repeat split.
  - assert (H : Rgeb (3 / 3) 1 = true) by (apply Rgeb_true; lra).
    now rewrite H.
  - assert (H1 : Rgeb (2 / 3) 1 = false) by (apply Rgeb_false; lra).
    assert (H2 : Rgeb (2 / 3) (67 / 100) = false) by (apply Rgeb_false; lra).
    assert (H3 : Rgeb (2 / 3) (33 / 100) = true) by (apply Rgeb_true; lra).
    now rewrite H1, H2, H3.
  - assert (H1 : Rgeb (1 / 3) 1 = false) by (apply Rgeb_false; lra).
    assert (H2 : Rgeb (1 / 3) (67 / 100) = false) by (apply Rgeb_false; lra).
    assert (H3 : Rgeb (1 / 3) (33 / 100) = true) by (apply Rgeb_true; lra).
    now rewrite H1, H2, H3.
  - assert (H1 : Rgeb (0 / 3) 1 = false) by (apply Rgeb_false; lra).
    assert (H2 : Rgeb (0 / 3) (67 / 100) = false) by (apply Rgeb_false; lra).
    assert (H3 : Rgeb (0 / 3) (33 / 100) = false) by (apply Rgeb_false; lra).
    now rewrite H1, H2, H3.
Qed.

(** ** Score extraction *)

Example extract_score_examples :
  Score._extract_score latin (u "AVALIAÇÃO GERAL:  Muito Bom") "paragraph" = Some 800%R /\
  Score._extract_score latin (u "avaliação: bom") "paragraph" = Some 400%R /\
  Score._extract_score latin (u "NOTA FINAL: 760/1000") "full" = Some 760%R /\
  Score._extract_score latin (u "sem nota") "full" = None.
Proof. repeat split. Qed.

(** [float] of an integer: exact below 2^53, then to the nearest float, ties
    to even, and [inf] when the digits spell too large a number. *)
Example float_of_Z_examples :
  float_of_Z 760 = 760%R /\
  float_of_Z 9007199254740993 = 9007199254740992%R /\
  float_of_Z 9007199254740995 = 9007199254740996%R /\
  float_of_Z (2 ^ 1024 - 2 ^ 970 - 1) = IZR (2 ^ 1024 - 2 ^ 971) /\
  float_of_Z (2 ^ 1024 - 2 ^ 970) = float_inf /\
  float_of_Z (10 ^ 400) = float_inf.
Proof. repeat split; vm_compute; reflexivity. Qed.

Section ScoreFacts.
Import Re Score.
Context (ucd : Unicode).

Lemma search_none_cons r x s :
  search ucd r (x :: s) = None -> match_at ucd r (x :: s) = None /\ search ucd r s = None.
Proof.
  simpl. destruct (match_at ucd r (x :: s)); [discriminate | auto].
Qed.

(** Where [search] finds nothing, [findall] returns the empty list. *)
Lemma findall_from_none r s :
  search ucd r s = None -> forall skip, findall_from ucd r s skip = [].
Proof.
  induction s as [| x s IH]; intros Hs skip; [reflexivity |].
  apply search_none_cons in Hs as [Hm Hs].
  simpl findall_from. destruct skip; [| now apply IH].
  rewrite Hm. now apply IH.
Qed.

Lemma first_match_none {B} ps s (f : list text * text -> B) :
  (forall p, In p ps -> search ucd p s = None) -> first_match ucd ps s f = None.
Proof.
  induction ps as [| p ps IH]; intros H; [reflexivity |].
  simpl. rewrite (H p (or_introl eq_refl)). apply IH. intros q Hq. apply H. now right.
Qed.

Lemma has_marker_false s :
  has_marker ucd s = false ->
  forall p, In p paragraph_patterns -> search ucd p s = None.
Proof.
  unfold has_marker. intros H p Hp.
  destruct (search ucd p s) as [m |] eqn:E; [| reflexivity].
  assert (Hex : existsb (fun p => bool_decide (is_Some (search ucd p s)))
                        paragraph_patterns = true).
  { apply existsb_exists. exists p. split; [exact Hp |].
    rewrite E. apply bool_decide_eq_true. eauto. }
  congruence.
Qed.
End ScoreFacts.

(** C2 (amended). For every feedback text that carries no qualitative
    assessment marker, score extraction in paragraph mode returns 400, the
    numeric equivalent of "Regular" (the second label of the scale), whatever
    the Unicode tables are, unless the text is empty: then it returns no
    score. *)
Theorem extract_score_paragraph_default :
  forall (ucd : Unicode) (feedback : text),
    Score.has_marker ucd feedback = false ->
    Score._extract_score ucd feedback "paragraph"
    = match feedback with
      | [] => None
      | _ :: _ => Some (IZR (Score.dict_get Score.quality_scores (u "Regular") 0))
      end.
Proof.
  intros ucd feedback Hm.
  pose proof (has_marker_false ucd feedback Hm) as Hnone.
  unfold Score._extract_score.
  destruct feedback as [| c rest]; [reflexivity |].
  rewrite bool_decide_eq_true_2 by reflexivity.
  rewrite (first_match_none ucd) by exact Hnone.
  unfold Re.findall.
  rewrite (findall_from_none ucd) by (apply Hnone; simpl; auto).
  reflexivity.
Qed.

Lemma extract_score_paragraph_default_witness :
  Score.has_marker latin (u "This is feedback without any score") = false /\
  Score._extract_score latin (u "This is feedback without any score") "paragraph"
  = Some 400%R.
Proof.
  split; [reflexivity |].
  apply (extract_score_paragraph_default latin (u "This is feedback without any score")).
  reflexivity.
Defined.

(** C2 as stated fails: a text without marker is scored 400, not the 600 of
    the mid-point label "Bom". *)
Lemma extract_score_paragraph_not_midpoint :
  Score.has_marker latin (u "This is feedback without any score") = false /\
  Score.dict_get Score.quality_scores (u "Bom") 0 = 600%Z /\
  Score._extract_score latin (u "This is feedback without any score") "paragraph"
  <> Some 600%R.
Proof.
  split; [reflexivity |]. split; [reflexivity |].
  change (Some 400%R <> Some 600%R).
  intros H. injection H as H. lra.
Qed.

(** ** The consensus engine *)

Section ConsensusFacts.
Import DeepAnalysis.






End ConsensusFacts.

(** C5. With fewer than two results that are both successful and scored,
    the consensus computation returns (it does not raise) the metrics with
    zero variance, zero standard deviation, zero agreement, the lowest
    reliability, no outlier and no consensus score. *)
Theorem consensus_below_minimum :
  forall results : list DeepAnalysis.ModelResult,
    (length (List.filter DeepAnalysis.qualifies results) < 2)%nat ->
    DeepAnalysis._calculate_consensus_metrics DeepAnalysis.default_config results
    = Ok {| DeepAnalysis.score_variance := 0;
            DeepAnalysis.score_std_dev := 0;
            DeepAnalysis.agreement_percentage := 0;
            DeepAnalysis.reliability_level := DeepAnalysis.VERY_LOW;
            DeepAnalysis.outlier_models := [];
            DeepAnalysis.consensus_score := None |}.
Proof.
  intros results Hlt. unfold DeepAnalysis._calculate_consensus_metrics.
  assert (Hmin : (Z.of_nat (length (List.filter DeepAnalysis.qualifies results))
                  <? DeepAnalysis.min_models_for_consensus DeepAnalysis.default_config)%Z
                 = true) by (apply Z.ltb_lt; simpl; lia).
  now rewrite Hmin.
Qed.













(** ** Order of the results *)

Section PermutationFacts.
Import DeepAnalysis.











End PermutationFacts.





(** ** The rate limiter *)

Section RateLimiterFacts.
Import RateLimiter.

(** [min] of a non-empty list is one of its elements, below all others. *)
Lemma fold_left_Rmin_spec (l : list R) (x : R) :
  In (fold_left Rmin l x) (x :: l) /\
  forall t, In t (x :: l) -> (fold_left Rmin l x <= t)%R.
Proof.
  revert x. induction l as [| y l IH]; intros x; simpl.
  - split; [now left |]. intros t [<- | []]. lra.
  - destruct (IH (Rmin x y)) as [Hin Hle]. split.
    + destruct Hin as [E | Hin]; [| now right; right].
      rewrite <- E. unfold Rmin. destruct (Rle_dec x y); [now left | right; now left].
    + intros t Ht.
      assert (Hm : (fold_left Rmin l (Rmin x y) <= Rmin x y)%R)
        by (apply Hle; now left).
      pose proof (Rmin_l x y). pose proof (Rmin_r x y).
      destruct Ht as [<- | [<- | Ht]]; [lra | lra |].
      apply Hle. now right.
Qed.

(** The dictionary after pruning the list of [user_id]. *)
Lemma pruned_lookup (requests : gmap string (list R)) (user_id : string) :
  default [] (match requests !! user_id with
              | None => <[user_id := []]> requests
              | Some _ => requests
              end !! user_id)
  = default [] (requests !! user_id).
Proof.
  destruct (requests !! user_id) as [l |] eqn:E.
  - now rewrite E.
  - now rewrite lookup_insert_eq.
Qed.

Lemma pruned_insert (requests : gmap string (list R)) (user_id : string) (l : list R) :
  <[user_id := l]> (match requests !! user_id with
                    | None => <[user_id := []]> requests
                    | Some _ => requests
                    end)
  = <[user_id := l]> requests.
Proof.
  destruct (requests !! user_id); [reflexivity | apply insert_insert_eq].
Qed.

(** [is_allowed] in terms of the timestamps it keeps. *)
Lemma is_allowed_unfold config requests now user_id :
  let kept :=
    List.filter (fun t => Rgtb t (now - IZR (window_size config)))
                (default [] (requests !! user_id)) in
  is_allowed config requests now user_id =
  if (Z.of_nat (length kept) <? requests_per_minute config)%Z then
    (Ok (true, None), <[user_id := kept ++ [now]]> requests)
  else
    match py_min kept with
    | Raise e => (Raise e, <[user_id := kept]> requests)
    | Ok oldest =>
      (Ok (false, Some (Rmax 0 (oldest + IZR (window_size config) - now))),
       <[user_id := kept]> requests)
    end.
Proof.
  intros kept. unfold is_allowed.
  rewrite pruned_lookup. fold kept. rewrite pruned_insert.
  destruct (Z.of_nat (length kept) <? requests_per_minute config)%Z.
  - now rewrite insert_insert_eq.
  - destruct (py_min kept); reflexivity.
Qed.

Lemma is_allowed_under_limit config requests now user_id :
  let kept :=
    List.filter (fun t => Rgtb t (now - IZR (window_size config)))
                (default [] (requests !! user_id)) in
  (Z.of_nat (length kept) < requests_per_minute config)%Z ->
  is_allowed config requests now user_id
  = (Ok (true, None), <[user_id := kept ++ [now]]> requests).
Proof.
  intros kept Hlt. rewrite is_allowed_unfold. fold kept.
  now rewrite (proj2 (Z.ltb_lt _ _) Hlt).
Qed.

Lemma is_allowed_at_limit config requests now user_id :
  let kept :=
    List.filter (fun t => Rgtb t (now - IZR (window_size config)))
                (default [] (requests !! user_id)) in
  (0 < requests_per_minute config)%Z ->
  (requests_per_minute config <= Z.of_nat (length kept))%Z ->
  exists oldest,
    In oldest kept /\ (forall t, In t kept -> (oldest <= t)%R) /\
    (0 < oldest + IZR (window_size config) - now)%R /\
    is_allowed config requests now user_id
    = (Ok (false, Some (oldest + IZR (window_size config) - now)%R),
       <[user_id := kept]> requests).
Proof.
  intros kept Hpos Hge. rewrite is_allowed_unfold. fold kept.
  rewrite (proj2 (Z.ltb_ge _ _) Hge).
  destruct kept as [| x l] eqn:Ek; [simpl in Hge; lia |].
  destruct (fold_left_Rmin_spec l x) as [Hin Hle].
  exists (fold_left Rmin l x). split; [exact Hin |]. split; [exact Hle |].
  assert (Hw : (0 < fold_left Rmin l x + IZR (window_size config) - now)%R).
  { rewrite <- Ek in Hin. apply filter_In in Hin as [_ Hin].
    apply Rgtb_true in Hin. lra. }
  split; [exact Hw |]. cbn [py_min]. rewrite Rmax_right by lra. reflexivity.
Qed.
End RateLimiterFacts.

(** C9. On a check at time [now], with a limit of at least one request, the
    limiter keeps of the key's timestamps those newer than [now] minus the
    window, so every timestamp older than that is discarded; if fewer than
    the limit remain it records [now] and allows with no wait time;
    otherwise it denies with the wait
    [oldest remaining timestamp + window - now], which is positive.  With a
    limit of one request per 60 seconds and no live timestamp for the key,
    two checks within one second give [(true, None)] then [(false, wait)]
    with [wait > 0], and a third check once 60 seconds have passed since the
    first gives [(true, None)] again. *)
Theorem is_allowed_sliding_window :
  forall (config : RateLimiter.RateLimitConfig) (requests : gmap string (list R))
         (now : R) (user_id : string),
    (0 < RateLimiter.requests_per_minute config)%Z ->
    let window := IZR (RateLimiter.window_size config) in
    let before := default [] (requests !! user_id) in
    let kept := List.filter (fun t => Rgtb t (now - window)) before in
    (forall t, In t before -> (t < now - window)%R -> ~ In t kept) /\
    (forall t, In t kept <-> In t before /\ (t > now - window)%R) /\
    ((Z.of_nat (length kept) < RateLimiter.requests_per_minute config)%Z ->
     RateLimiter.is_allowed config requests now user_id
     = (Ok (true, None), <[user_id := kept ++ [now]]> requests)) /\
    ((RateLimiter.requests_per_minute config <= Z.of_nat (length kept))%Z ->
     exists oldest,
       In oldest kept /\ (forall t, In t kept -> (oldest <= t)%R) /\
       (0 < oldest + window - now)%R /\
       RateLimiter.is_allowed config requests now user_id
       = (Ok (false, Some (oldest + window - now)%R), <[user_id := kept]> requests)) /\
    (forall t1 t2 t3 : R,
        config = RateLimiter.default_config ->
        Forall (fun t => (t <= t1 - 60)%R) before ->
        (t1 <= t2 <= t1 + 1)%R -> (t1 + 60 <= t3)%R ->
        exists s1 s2 s3 wait,
          RateLimiter.is_allowed config requests t1 user_id = (Ok (true, None), s1) /\
          RateLimiter.is_allowed config s1 t2 user_id = (Ok (false, Some wait), s2) /\
          (wait > 0)%R /\
          RateLimiter.is_allowed config s2 t3 user_id = (Ok (true, None), s3)).
Proof.
  intros config requests now user_id Hpos window before kept.
  assert (Hkept : forall t, In t kept <-> In t before /\ (t > now - window)%R).
  { intros t. unfold kept. rewrite filter_In, Rgtb_true. reflexivity. }
  split; [| split; [exact Hkept | split; [| split]]].
  - intros t _ Hold Hin. apply Hkept in Hin as [_ Hin]. lra.
  - apply is_allowed_under_limit.
  - now apply is_allowed_at_limit.
  - intros t1 t2 t3 -> Hexp H12 H3.
    assert (Hnone : List.filter (fun x => Rgtb x (t1 - 60)) before = []).
    { clear Hkept. unfold kept in *. clear kept.
      induction Hexp as [| x l Hx _ IH]; [reflexivity |].
      simpl. rewrite IH. now rewrite (proj2 (Rgtb_false _ _) Hx). }
    assert (Hk2 : List.filter (fun x => Rgtb x (t2 - 60)) [t1] = [t1]).
    { simpl. now rewrite (proj2 (Rgtb_true _ _)) by lra. }
    assert (Hk3 : List.filter (fun x => Rgtb x (t3 - 60)) [t1] = []).
    { simpl. now rewrite (proj2 (Rgtb_false _ _)) by lra. }
    exists (<[user_id := [t1]]> requests).
    exists (<[user_id := [t1]]> (<[user_id := [t1]]> requests)).
    exists (<[user_id := [t3]]> (<[user_id := [t1]]> (<[user_id := [t1]]> requests))).
    exists (t1 + 60 - t2)%R.
    rewrite !is_allowed_unfold.
    change (IZR (RateLimiter.window_size RateLimiter.default_config)) with 60%R.
    fold before. rewrite Hnone.
    rewrite !lookup_insert_eq. cbn [default from_option id]. unfold Datatypes.id.
    rewrite Hk2, Hk3.
    cbn [length Z.of_nat RateLimiter.requests_per_minute RateLimiter.default_config
         Z.ltb Z.compare Pos.compare Pos.compare_cont Pos.of_succ_nat app
         RateLimiter.py_min fold_left].
    rewrite Rmax_right by lra.
    repeat split; lra.
Qed.

Lemma is_allowed_sliding_window_witness :
  (0 < RateLimiter.requests_per_minute RateLimiter.default_config)%Z /\
  exists s1 s2 s3 wait,
    RateLimiter.is_allowed RateLimiter.default_config ∅ 0 "user" = (Ok (true, None), s1) /\
    RateLimiter.is_allowed RateLimiter.default_config s1 (1 / 2) "user"
    = (Ok (false, Some wait), s2) /\
    (wait > 0)%R /\
    RateLimiter.is_allowed RateLimiter.default_config s2 61 "user" = (Ok (true, None), s3).
Proof.
  assert (H : (0 < RateLimiter.requests_per_minute RateLimiter.default_config)%Z)
    by (simpl; lia).
  split; [exact H |].
  destruct (is_allowed_sliding_window RateLimiter.default_config ∅ 0 "user" H)
    as (_ & _ & _ & _ & Hs).
  apply (Hs 0%R (1 / 2)%R 61%R); [reflexivity | constructor | lra | lra].
Defined.

(** With a limit of zero and no live timestamp there is no oldest request:
    the call ends in the [ValueError] of [min]. *)
Lemma is_allowed_zero_limit :
  fst (RateLimiter.is_allowed
         {| RateLimiter.requests_per_minute := 0; RateLimiter.burst_limit := 0;
            RateLimiter.window_size := 60 |} ∅ 0 "user")
  = Raise (ValueError "min() arg is an empty sequence").
Proof. rewrite is_allowed_unfold. reflexivity. Qed.

(** ** The correction service *)

Section ServiceFacts.
Import AIService.
Context (env : Env) (config : AIServiceConfig).

(** *** Delays and sleeps *)

Lemma float_in_range (x : R) : (Rabs x <= IZR (2 ^ 53))%R -> float_overflows x = false.
Proof.
  intros Hx. unfold float_overflows. apply Rgeb_false.
  apply (Rle_lt_trans _ _ _ Hx). apply IZR_lt. apply Z.ltb_lt. vm_compute. reflexivity.
Qed.

Lemma backoff_delay_defined (i : Z) :
  backoff_defined (retry config) -> (0 <= i < max_retries (retry config))%Z ->
  backoff_delay config i
  = Ok (Rmin (base_delay (retry config) * powerRZ (exponential_base (retry config)) i)
             (max_delay (retry config))).
Proof.
  intros Hdef Hi. unfold backoff_delay, float_pow. now rewrite (Hdef i Hi).
Qed.

Lemma sleep_run (delay : R) (w : World) :
  sleep delay w
  = (Ok tt, {| requests := requests w;
               ai_models := fold_left _reset_model_availability
                                      (resets_due (trace w) delay) (ai_models w);
               cache_connected := cache_connected w; cache := cache w;
               clock_reads := clock_reads w; trace := trace w ++ [Sleep delay] |}).
Proof. reflexivity. Qed.

(** One turn of the loop of [_retry_with_backoff]. *)
Lemma retry_loop_S {A} (func : M A) (n : nat) (attempt : Z) (last : option exn) :
  retry_loop config func (S n) attempt last
  = try_except func any_exception (fun e =>
      if (attempt =? max_retries (retry config))%Z then raise e
      else
        match backoff_delay config attempt with
        | Raise overflow => raise overflow
        | Ok delay =>
          bind (sleep delay) (fun _ => retry_loop config func n (attempt + 1)%Z (Some e))
        end).
Proof. reflexivity. Qed.

(** *** When every model fails *)

Context (Hfail : all_models_fail env).






End ServiceFacts.

(** The default retry configuration: the powers 1, 2 and 4 of the schedule
    are floats. *)
Lemma default_backoff_defined : backoff_defined AIService.default_retry.
Proof.
  intros i Hi. cbn [AIService.max_retries AIService.default_retry] in Hi.
  cbn [AIService.exponential_base AIService.default_retry].
  apply float_in_range.
  assert (Hcases : i = 0%Z \/ i = 1%Z \/ i = 2%Z) by lia.
  assert (Hbig : (4 <= IZR (2 ^ 53))%R).
  { apply (IZR_le 4). apply Z.leb_le. vm_compute. reflexivity. }
  assert (Hpowers : powerRZ 2 0 = 1%R /\ powerRZ 2 1 = 2%R /\ powerRZ 2 2 = 4%R)
    by (repeat split; simpl; lra).
  destruct Hpowers as (H0 & H1 & H2).
  destruct Hcases as [-> | [-> | ->]]; rewrite ?H0, ?H1, ?H2;
    rewrite Rabs_right by lra; lra.
Qed.


Lemma down_env_all_fail : all_models_fail down_env.
Proof. intros n k p. eexists. reflexivity. Qed.



(** ** The enhanced two-phase orchestrator *)

Section EnhancedFacts.
Import Enhanced.
Context (env : Env) (config : Config).




End EnhancedFacts.



Lemma consensus_below_minimum_witness :
  (length (List.filter DeepAnalysis.qualifies [scored "deepseek" 850]) < 2)%nat /\
  DeepAnalysis._calculate_consensus_metrics DeepAnalysis.default_config
    [scored "deepseek" 850]
  = Ok {| DeepAnalysis.score_variance := 0;
          DeepAnalysis.score_std_dev := 0;
          DeepAnalysis.agreement_percentage := 0;
          DeepAnalysis.reliability_level := DeepAnalysis.VERY_LOW;
          DeepAnalysis.outlier_models := [];
          DeepAnalysis.consensus_score := None |}.
Proof.
  assert (H : (length (List.filter DeepAnalysis.qualifies [scored "deepseek" 850]) < 2)%nat)
    by (simpl; lia).
  split; [exact H |].
  exact (consensus_below_minimum [scored "deepseek" 850] H).
Defined.

(** *** The trace of a call only grows *)

Section TraceFacts.
Import AIService.
Context (env : Env) (config : AIServiceConfig).
























End TraceFacts.



(** * Part IV: further properties of the code *)

(** ** The rate limiter: keys, capacity, status *)

Section RateLimiterMore.
Import RateLimiter.

(** X1. A check works on the list of its own key alone: the outcome is the
    same in two dictionaries that agree on the key, and the lists of all
    other keys are left as they were. *)
Theorem is_allowed_key_local :
  forall (config : RateLimitConfig) (requests other : gmap string (list R))
         (now : R) (user_id : string),
    (forall k, k <> user_id ->
               snd (is_allowed config requests now user_id) !! k = requests !! k) /\
    (requests !! user_id = other !! user_id ->
     fst (is_allowed config requests now user_id)
     = fst (is_allowed config other now user_id)).
Proof.
  intros config requests other now user_id. split.
  - intros k Hk. rewrite is_allowed_unfold. cbv zeta.
    destruct (Z.of_nat _ <? _)%Z; [| destruct (py_min _)];
      cbn [snd]; now rewrite lookup_insert_ne by congruence.
  - intros Heq. rewrite !is_allowed_unfold. cbv zeta. rewrite Heq.
    destruct (Z.of_nat _ <? _)%Z; [reflexivity |]. now destruct (py_min _).
Qed.

Lemma is_allowed_key_local_witness :
  snd (is_allowed default_config (<["ana" := [1%R]]> ∅) 2 "rui") !! "ana" = Some [1%R].
Proof.
  destruct (is_allowed_key_local default_config (<["ana" := [1%R]]> ∅) ∅ 2 "rui")
    as [Hother _].
  rewrite (Hother "ana") by discriminate. apply lookup_insert_eq.
Defined.

Lemma filter_length_le {A} (f : A -> bool) (l : list A) :
  (length (List.filter f l) <= length l)%nat.
Proof.
  induction l as [| x l IH]; simpl; [lia |]. destruct (f x); simpl; lia.
Qed.

(** The list of the key after a check, and whether the check was allowed. *)
Lemma is_allowed_state config requests now user_id :
  let kept :=
    List.filter (fun t => Rgtb t (now - IZR (window_size config)))
                (default [] (requests !! user_id)) in
  snd (is_allowed config requests now user_id) !! user_id
  = Some (if (Z.of_nat (length kept) <? requests_per_minute config)%Z
          then kept ++ [now] else kept).
Proof.
  intros kept. rewrite is_allowed_unfold. fold kept.
  destruct (Z.of_nat (length kept) <? requests_per_minute config)%Z;
    [| destruct (py_min kept)]; cbn [snd]; apply lookup_insert_eq.
Qed.

(** X2. The limiter never stores more than [requests_per_minute] timestamps
    for a key: if no list is longer than the limit before a check, none is
    after it. *)
Theorem is_allowed_keeps_capacity :
  forall (config : RateLimitConfig) (requests : gmap string (list R))
         (now : R) (user_id : string),
    (0 <= requests_per_minute config)%Z ->
    (forall k, (Z.of_nat (length (default [] (requests !! k)))
                <= requests_per_minute config)%Z) ->
    forall k,
      (Z.of_nat (length (default [] (snd (is_allowed config requests now user_id) !! k)))
       <= requests_per_minute config)%Z.
Proof.
  intros config requests now user_id Hlimit Hcap k.
  destruct (decide (k = user_id)) as [-> | Hk].
  - rewrite is_allowed_state. cbv zeta.
    pose proof (filter_length_le
                  (fun t => Rgtb t (now - IZR (window_size config)))
                  (default [] (requests !! user_id))) as Hle.
    specialize (Hcap user_id).
    set (before := default [] (requests !! user_id)) in *.
    set (kept := List.filter _ before) in *.
    cbn [default from_option id]. unfold Datatypes.id.
    destruct (Z.of_nat (length kept) <? requests_per_minute config)%Z eqn:E.
    + apply Z.ltb_lt in E. rewrite length_app. simpl. lia.
    + lia.
  - destruct (is_allowed_key_local config requests requests now user_id) as [Hother _].
    rewrite (Hother k Hk). apply Hcap.
Qed.

Lemma is_allowed_keeps_capacity_witness :
  (Z.of_nat (length (default [] (snd (is_allowed default_config ∅ 5 "ana") !! "ana")))
   <= 1)%Z.
Proof.
  apply (is_allowed_keeps_capacity default_config ∅ 5 "ana").
  - simpl; lia.
  - intros k. rewrite lookup_empty. simpl; lia.
Defined.

(** X3. A denied caller never has to wait longer than the window: when the
    stored timestamps of the key do not lie in the future, the wait returned
    with a denial is positive and at most [window_size]. *)
Theorem is_allowed_wait_bounded :
  forall (config : RateLimitConfig) (requests requests' : gmap string (list R))
         (now wait : R) (user_id : string),
    Forall (fun t => (t <= now)%R) (default [] (requests !! user_id)) ->
    is_allowed config requests now user_id = (Ok (false, Some wait), requests') ->
    (0 < wait <= IZR (window_size config))%R.
Proof.
  intros config requests requests' now wait user_id Hpast Hcall.
  rewrite is_allowed_unfold in Hcall. cbv zeta in Hcall.
  destruct (Z.of_nat _ <? _)%Z; [discriminate |].
  set (kept := List.filter _ _) in Hcall.
  destruct kept as [| x l] eqn:Ek; [discriminate |].
  cbn [py_min] in Hcall. injection Hcall as Hw _.
  destruct (fold_left_Rmin_spec l x) as [Hin _].
  rewrite <- Ek in Hin. apply filter_In in Hin as [Hin Hlive].
  apply Rgtb_true in Hlive.
  rewrite List.Forall_forall in Hpast. specialize (Hpast _ Hin).
  rewrite Rmax_right in Hw by lra. lra.
Qed.

Lemma is_allowed_wait_bounded_witness :
  (0 < 50 <= IZR (window_size default_config))%R.
Proof.
  apply (is_allowed_wait_bounded default_config (<["ana" := [0%R]]> ∅)
           (<["ana" := [0%R]]> (<["ana" := [0%R]]> ∅)) 10 50 "ana").
  - rewrite lookup_insert_eq. repeat constructor. simpl. lra.
  - rewrite is_allowed_unfold. rewrite lookup_insert_eq.
    change (IZR (window_size default_config)) with 60%R.
    cbn [default from_option id]. unfold Datatypes.id.
    assert (Hk : List.filter (fun t => Rgtb t (10 - 60)) [0%R] = [0%R]).
    { simpl. now rewrite (proj2 (Rgtb_true _ _)) by lra. }
    rewrite Hk. cbn [length Z.of_nat requests_per_minute default_config Z.ltb Z.compare
                     Pos.compare Pos.compare_cont Pos.of_succ_nat py_min fold_left].
    rewrite Rmax_right by lra. repeat f_equal. lra.
Defined.

(** X4. [get_user_status] and [is_allowed] agree: the status counts the
    live timestamps of the key; with a limit of at least one, a check at the
    same time is allowed exactly when the status reports requests remaining,
    and when none remain the check is denied with the wait
    [reset_time - now]. *)
Theorem get_user_status_predicts_is_allowed :
  forall (config : RateLimitConfig) (requests : gmap string (list R))
         (now : R) (user_id : string),
    (0 < requests_per_minute config)%Z ->
    let status := get_user_status config requests now user_id in
    let kept :=
      List.filter (fun t => Rgtb t (now - IZR (window_size config)))
                  (default [] (requests !! user_id)) in
    requests_made status = Z.of_nat (length kept) /\
    (0 <= requests_remaining status)%Z /\
    ((0 < requests_remaining status)%Z ->
     reset_time status = None /\
     fst (is_allowed config requests now user_id) = Ok (true, None)) /\
    (requests_remaining status = 0%Z ->
     exists reset,
       reset_time status = Some reset /\
       fst (is_allowed config requests now user_id) = Ok (false, Some (reset - now)%R)).
Proof.
  intros config requests now user_id Hpos status kept.
  unfold status, get_user_status. rewrite is_allowed_unfold. fold kept.
  unfold kept. destruct (requests !! user_id) as [stored |] eqn:Es;
    cbn [default from_option id]; unfold Datatypes.id.
  - set (valid := List.filter _ stored).
    cbn [requests_made requests_remaining reset_time].
    split; [reflexivity |]. split; [lia |]. split.
    + intros Hrem.
      assert (Hlt : (Z.of_nat (length valid) <? requests_per_minute config)%Z = true)
        by (apply Z.ltb_lt; lia).
      rewrite Hlt. split; [| reflexivity].
      destruct valid; [reflexivity |].
      now rewrite (proj2 (Z.eqb_neq _ _)) by lia.
    + intros Hrem.
      assert (Hge : (Z.of_nat (length valid) <? requests_per_minute config)%Z = false)
        by (apply Z.ltb_ge; lia).
      rewrite Hge, Hrem. destruct valid as [| x l] eqn:Ev; [simpl in Hrem; lia |].
      cbn [Z.eqb py_min fst]. eexists. split; [reflexivity |].
      destruct (fold_left_Rmin_spec l x) as [Hin _].
      assert (Hlive : (fold_left Rmin l x > now - IZR (window_size config))%R).
      { assert (In (fold_left Rmin l x) valid) as Hv by (rewrite Ev; exact Hin).
        apply filter_In in Hv as [_ Hv]. now apply Rgtb_true in Hv. }
      rewrite Rmax_right by lra. reflexivity.
  - cbn [List.filter length Z.of_nat requests_made requests_remaining reset_time].
    split; [reflexivity |]. split; [lia |]. split.
    + intros _. change (Z.of_nat 0) with 0%Z.
      now rewrite (proj2 (Z.ltb_lt _ _) Hpos).
    + intros Hrem. lia.
Qed.

Lemma get_user_status_predicts_is_allowed_witness :
  (0 < requests_per_minute default_config)%Z /\
  requests_made (get_user_status default_config ∅ 0 "ana") = 0%Z /\
  fst (is_allowed default_config ∅ 0 "ana") = Ok (true, None).
Proof.
  assert (H : (0 < requests_per_minute default_config)%Z) by (simpl; lia).
  split; [exact H |].
  destruct (get_user_status_predicts_is_allowed default_config ∅ 0 "ana" H)
    as (Hmade & _ & Hallow & _).
  split; [rewrite Hmade, lookup_empty; reflexivity |].
  apply Hallow. unfold get_user_status. rewrite lookup_empty. simpl. lia.
Defined.
End RateLimiterMore.

(** ** The rate limiter: the sliding-window guarantee *)

Section SlidingWindow.
Import RateLimiter.
Context (config : RateLimitConfig) (user_id : string).
Context (Hlimit : (0 < requests_per_minute config)%Z).
Context (Hwindow : (0 < window_size config)%Z).

Let W := IZR (window_size config).
Let live (t : R) := fun a : R => Rgtb a (t - W).

Lemma W_pos : (0 < W)%R.
Proof. unfold W. now apply IZR_lt. Qed.

Lemma filter_length_mono {A} (f g : A -> bool) (l : list A) :
  (forall a, In a l -> f a = true -> g a = true) ->
  (length (List.filter f l) <= length (List.filter g l))%nat.
Proof.
  induction l as [| x l IH]; intros H; simpl; [lia |].
  assert (IH' := IH (fun a Ha => H a (or_intror Ha))).
  destruct (f x) eqn:Ef.
  - rewrite (H x (or_introl eq_refl) Ef). simpl. lia.
  - destruct (g x); simpl; lia.
Qed.

(** Pruning at a later time subsumes pruning at an earlier one. *)
Lemma live_live (t0 t : R) (l : list R) :
  (t0 <= t)%R -> List.filter (live t) (List.filter (live t0) l) = List.filter (live t) l.
Proof.
  intros Ht. induction l as [| a l IH]; [reflexivity |]. simpl.
  destruct (live t0 a) eqn:E0; simpl.
  - now rewrite IH.
  - rewrite IH. unfold live in *. apply Rgtb_false in E0.
    now rewrite (proj2 (Rgtb_false _ _)) by lra.
Qed.

(** What the limiter holds for the key: the allowed times [history] that
    are still live at the time [t0] of the last check. *)
Definition tracks (requests : gmap string (list R)) (history : list R) (t0 : R) : Prop :=
  default [] (requests !! user_id) = List.filter (live t0) history /\
  Forall (fun a => (a <= t0)%R) history.

(** No window holds more than the limit of the times in [l]. *)
Definition bounded (l : list R) : Prop :=
  forall s, (Z.of_nat (length (List.filter (in_window W s) l))
             <= requests_per_minute config)%Z.

Lemma bounded_snoc (history : list R) (t : R) :
  bounded history ->
  (Z.of_nat (length (List.filter (live t) history)) < requests_per_minute config)%Z ->
  bounded (history ++ [t]).
Proof.
  intros Hb Hroom s. rewrite List.filter_app, length_app. simpl.
  destruct (in_window W s t) eqn:Et; simpl; [| specialize (Hb s); lia].
  unfold in_window in Et. apply andb_true_iff in Et as [_ Ets].
  destruct (Rle_dec t s) as [Hts |]; [| discriminate].
  assert (Hmono : (length (List.filter (in_window W s) history)
                   <= length (List.filter (live t) history))%nat).
  { apply filter_length_mono. intros a _ Ha. unfold in_window in Ha.
    apply andb_true_iff in Ha as [Ha _]. apply Rgtb_true in Ha.
    unfold live. apply Rgtb_true. lra. }
  lia.
Qed.

Lemma allowed_times_bounded (times : list R) :
  forall (requests : gmap string (list R)) (history : list R) (t0 : R),
    tracks requests history t0 -> bounded history ->
    StronglySorted Rle (t0 :: times) ->
    bounded (history ++ allowed_times config user_id requests times).
Proof.
  induction times as [| t later IH]; intros requests history t0 [Hstore Hpast] Hb Hsorted.
  - simpl. now rewrite app_nil_r.
  - inversion Hsorted as [| ? ? Hs Hle]; subst.
    inversion Hle as [| ? ? Ht0 _]; subst.
    assert (Hs' : StronglySorted Rle (t :: later)) by now inversion Hs.
    simpl allowed_times. rewrite is_allowed_unfold. cbv zeta.
    fold W. fold (live t). rewrite Hstore, (live_live t0 t) by exact Ht0.
    pose proof W_pos as HW.
    destruct (Z.of_nat (length (List.filter (live t) history))
              <? requests_per_minute config)%Z eqn:E.
    + apply Z.ltb_lt in E.
      change (history ++ t :: allowed_times config user_id
                (<[user_id := List.filter (live t) history ++ [t]]> requests) later)
        with (history ++ [t] ++ allowed_times config user_id
                (<[user_id := List.filter (live t) history ++ [t]]> requests) later).
      rewrite app_assoc. apply (IH _ _ t).
      * split.
        -- rewrite lookup_insert_eq. cbn [default from_option id]. unfold Datatypes.id.
           rewrite List.filter_app. simpl. unfold live at 3.
           now rewrite (proj2 (Rgtb_true _ _)) by lra.
        -- apply Forall_app. split; [| repeat constructor; lra].
           eapply List.Forall_impl; [| exact Hpast]. intros a Ha. simpl in Ha. lra.
      * now apply bounded_snoc.
      * exact Hs'.
    + apply Z.ltb_ge in E.
      destruct (List.filter (live t) history) as [| x l] eqn:Ek; [simpl in E; lia |].
      cbn [py_min]. apply (IH _ _ t).
      * split.
        -- rewrite lookup_insert_eq. cbn [default from_option id]. unfold Datatypes.id.
           now rewrite Ek.
        -- eapply List.Forall_impl; [| exact Hpast]. intros a Ha. simpl in Ha. lra.
      * exact Hb.
      * exact Hs'.
Qed.
End SlidingWindow.

(** X5. The guarantee of the limiter. For a limit of at least one request
    and a positive window, when a key the limiter has not seen is checked at
    times that do not decrease, no window of length [window_size] (ending at
    any time [s]) contains more than [requests_per_minute] allowed checks. *)
Theorem allowed_checks_per_window :
  forall (config : RateLimiter.RateLimitConfig) (user_id : string)
         (requests : gmap string (list R)) (times : list R) (s : R),
    (0 < RateLimiter.requests_per_minute config)%Z ->
    (0 < RateLimiter.window_size config)%Z ->
    requests !! user_id = None ->
    StronglySorted Rle times ->
    (Z.of_nat (length (List.filter (in_window (IZR (RateLimiter.window_size config)) s)
                                   (allowed_times config user_id requests times)))
     <= RateLimiter.requests_per_minute config)%Z.
Proof.
  intros config user_id requests times s Hlimit Hwindow Hnew Hsorted.
  destruct times as [| t later].
  - simpl. lia.
  - pose proof (allowed_times_bounded config user_id Hlimit Hwindow (t :: later)
                  requests [] t) as H.
    simpl app in H. apply H.
    + split; [now rewrite Hnew | constructor].
    + intros s'. simpl. lia.
    + constructor; [exact Hsorted |]. constructor; [lra |].
      now inversion Hsorted.
Qed.

Lemma allowed_checks_per_window_witness :
  (Z.of_nat (length (List.filter (in_window 60 100)
                                 (allowed_times RateLimiter.default_config "ana" ∅
                                                [50; 70; 100]%R)))
   <= 1)%Z.
Proof.
  apply (allowed_checks_per_window RateLimiter.default_config "ana" ∅ [50; 70; 100]%R 100).
  - simpl; lia.
  - simpl; lia.
  - apply lookup_empty.
  - repeat constructor; lra.
Defined.

(** ** The consensus engine: ranges, outliers, bounds *)

Section ConsensusMore.
Import DeepAnalysis.




(** *** Samuelson's inequality on lists *)










End ConsensusMore.

Section ConsensusBounds.
Import DeepAnalysis.











End ConsensusBounds.

(** ** The correction service: retries, gates, cache *)

Section ServiceMore.
Import AIService.
Context (env : Env) (config : AIServiceConfig).

Lemma client_calls_app a b : client_calls (a ++ b) = (client_calls a + client_calls b)%nat.
Proof. unfold client_calls. now rewrite List.filter_app, length_app. Qed.

Lemma sleeps_app a b : sleeps (a ++ b) = sleeps a ++ sleeps b.
Proof. unfold sleeps. apply flat_map_app. Qed.

Lemma sleeps_map_Sleep ds : sleeps (map Sleep ds) = ds.
Proof. induction ds as [| d ds IH]; [reflexivity |]. simpl. now rewrite IH. Qed.

Lemma client_calls_map_Sleep ds : client_calls (map Sleep ds) = O.
Proof. induction ds as [| d ds IH]; [reflexivity | exact IH]. Qed.

Lemma same_store_refl w : same_store w w.
Proof. repeat split. Qed.

Lemma same_store_trans w1 w2 w3 : same_store w1 w2 -> same_store w2 w3 -> same_store w1 w3.
Proof.
  intros (A1 & A2 & A3) (B1 & B2 & B3). repeat split; congruence.
Qed.

(** *** The seconds slept and the reset tasks *)

Lemma slept_nonneg evs : (0 <= slept evs)%R.
Proof.
  induction evs as [| e evs IH]; [cbn [slept]; lra |].
  destruct e; cbn [slept]; try exact IH.
  match goal with |- context [Rmax 0 ?d] => pose proof (Rmax_l 0 d) end. lra.
Qed.

Lemma slept_app a b : slept (a ++ b) = (slept a + slept b)%R.
Proof.
  induction a as [| e a IH]; [cbn [app slept]; lra |].
  destruct e; cbn [app slept]; rewrite IH; lra.
Qed.

Lemma slept_no_sleep log : sleeps log = [] -> slept log = 0%R.
Proof.
  induction log as [| e log IH]; intros H; [reflexivity |].
  destruct e; try exact (IH H). discriminate H.
Qed.

Lemma in_reset_tasks_app key after age a b :
  In (key, after, age) (reset_tasks (a ++ b)) ->
  (exists age0, In (key, after, age0) (reset_tasks a) /\ age = (age0 + slept b)%R) \/
  In (key, after, age) (reset_tasks b).
Proof.
  induction a as [| e a IH]; [now right |].
  destruct e; cbn [app reset_tasks]; try exact IH.
  intros [E | Hin].
  - left. injection E as -> -> <-. eexists. split; [now left | apply slept_app].
  - destruct (IH Hin) as [(age0 & H0 & ->) | Hb]; [left | now right].
    exists age0. split; [now right | reflexivity].
Qed.

(** The reset tasks of [key] either have woken up or are too young to wake
    up within the next [budget] seconds. *)
Definition calm (key : string) (evs : list event) (budget : R) : Prop :=
  forall after age,
    In (key, after, age) (reset_tasks evs) ->
    (IZR after < age)%R \/ (age + budget < IZR after)%R.

Lemma settled_calm key evs budget : settled key evs -> calm key evs budget.
Proof. intros H after age Hin. left. exact (H after age Hin). Qed.

Lemma calm_not_due key evs budget delay :
  calm key evs budget -> (Rmax 0 delay <= budget)%R -> ~ In key (resets_due evs delay).
Proof.
  intros Hcalm Hd Hin. unfold resets_due in Hin.
  apply in_map_iff in Hin as ([[k after] age] & Hk & Hin). cbn [fst] in Hk. subst k.
  apply filter_In in Hin as [Hin Hwake]. cbn [wakes_up] in Hwake.
  apply andb_true_iff in Hwake as [H1 H2]. apply Rgeb_true in H1.
  pose proof (Rmax_l 0 delay) as Hpos.
  apply orb_true_iff in H2 as [H2 | H2].
  - apply Rgtb_true in H2. destruct (Hcalm after age Hin); lra.
  - unfold Reqb in H2. destruct (Req_dec_T age (IZR after)); [| discriminate].
    destruct (Hcalm after age Hin); lra.
Qed.

Lemma calm_sleep key evs budget delay :
  calm key evs budget -> calm key (evs ++ [Sleep delay]) (budget - Rmax 0 delay).
Proof.
  intros Hcalm after age Hin.
  apply in_reset_tasks_app in Hin as [(age0 & H0 & ->) | []].
  cbn [slept]. pose proof (Rmax_l 0 delay).
  destruct (Hcalm after age0 H0); [left | right]; lra.
Qed.

Lemma settled_app key evs more :
  settled key evs ->
  (forall after age, ~ In (key, after, age) (reset_tasks more)) ->
  settled key (evs ++ more).
Proof.
  intros Hs Hnone after age Hin.
  apply in_reset_tasks_app in Hin as [(age0 & H0 & ->) | Hin].
  - pose proof (Hs after age0 H0). pose proof (slept_nonneg more). lra.
  - destruct (Hnone after age Hin).
Qed.

(** After a failed call the model has one more reset task, 300 seconds
    away. *)
Lemma calm_after_failure key evs params log budget :
  settled key evs -> reset_tasks log = [] -> sleeps log = [] -> (budget < 300)%R ->
  calm key (evs ++ CompletionCall key params :: log ++ [ResetScheduled key 300]) budget.
Proof.
  intros Hs Hnone Hquiet Hb after age Hin.
  apply in_reset_tasks_app in Hin as [(age0 & H0 & ->) | Hin].
  - left. cbn [slept]. rewrite slept_app, (slept_no_sleep log Hquiet). cbn [slept].
    pose proof (Hs after age0 H0). lra.
  - cbn [reset_tasks] in Hin.
    apply in_reset_tasks_app in Hin as [(age0 & H0 & _) | Hin].
    + rewrite Hnone in H0. destruct H0.
    + cbn [reset_tasks slept In] in Hin. destruct Hin as [E | []].
      injection E as <- <-. right. lra.
Qed.

(** *** The model registry *)

Lemma models_get_mark_same ms key :
  models_get (mark_unavailable ms key) key
  = option_map (fun c => set_available c false) (models_get ms key).
Proof.
  induction ms as [| [k c] ms IH]; [reflexivity |].
  cbn [mark_unavailable map fst snd] in *. destruct (bool_decide (k = key)) eqn:E.
  - cbn [models_get]. rewrite E. reflexivity.
  - cbn [models_get]. rewrite E. exact IH.
Qed.

Lemma models_get_mark_other ms key k' :
  k' <> key -> models_get (mark_unavailable ms key) k' = models_get ms k'.
Proof.
  intros Hne. induction ms as [| [k c] ms IH]; [reflexivity |].
  cbn [mark_unavailable map fst snd] in *. destruct (bool_decide (k = key)) eqn:E.
  - apply bool_decide_eq_true in E. subst k. cbn [models_get].
    rewrite bool_decide_eq_false_2 by congruence. exact IH.
  - cbn [models_get]. destruct (bool_decide (k = k')); [reflexivity | exact IH].
Qed.

Lemma keys_mark_unavailable ms key : map fst (mark_unavailable ms key) = map fst ms.
Proof.
  unfold mark_unavailable. rewrite map_map. apply map_ext. intros [k c]. simpl.
  now destruct (bool_decide (k = key)).
Qed.

Lemma closed_mark_unavailable ms key : closed (mark_unavailable ms key) key.
Proof.
  unfold closed. rewrite models_get_mark_same. now destruct (models_get ms key).
Qed.

Lemma refusal_mark_unavailable ms key mc :
  models_get ms key = Some mc ->
  refusal (mark_unavailable ms key) key
  = AIServiceUnavailableError ("Model " +:+ key +:+ " is currently unavailable").
Proof. intros H. unfold refusal. now rewrite models_get_mark_same, H. Qed.

Lemma set_available_same (c : ModelConfig) (b : bool) :
  available c = b -> set_available c b = c.
Proof. destruct c. cbn. now intros ->. Qed.

Lemma keys_reset ms key : map fst (_reset_model_availability ms key) = map fst ms.
Proof.
  unfold _reset_model_availability. rewrite map_map. apply map_ext. intros [k c]. simpl.
  now destruct (bool_decide (k = key)).
Qed.

Lemma models_get_reset ms key k' :
  models_get (_reset_model_availability ms key) k'
  = option_map (fun c => if bool_decide (k' = key) then set_available c true else c)
               (models_get ms k').
Proof.
  induction ms as [| [k c] ms IH]; [reflexivity |].
  cbn [_reset_model_availability map fst snd] in *.
  destruct (bool_decide (k = key)) eqn:E; cbn [models_get];
    destruct (bool_decide (k = k')) eqn:E'; try exact IH; cbn [option_map].
  - apply bool_decide_eq_true in E, E'. subst.
    now rewrite bool_decide_eq_true_2.
  - apply bool_decide_eq_false in E. apply bool_decide_eq_true in E'. subst.
    now rewrite bool_decide_eq_false_2.
Qed.

Lemma keys_resets keys ms :
  map fst (fold_left _reset_model_availability keys ms) = map fst ms.
Proof.
  revert ms. induction keys as [| k keys IH]; intros ms; [reflexivity |].
  cbn [fold_left]. now rewrite IH, keys_reset.
Qed.

(** A reset task changes nothing for a model that is available. *)
Lemma models_get_resets_open keys ms k mc :
  models_get ms k = Some mc -> available mc = true ->
  models_get (fold_left _reset_model_availability keys ms) k = Some mc.
Proof.
  revert ms. induction keys as [| k0 keys IH]; intros ms Hget Hav; [exact Hget |].
  cbn [fold_left]. apply IH; [| exact Hav].
  rewrite models_get_reset, Hget. cbn [option_map].
  destruct (bool_decide (k = k0)); [| reflexivity].
  now rewrite set_available_same.
Qed.

Lemma models_get_resets_other keys ms k :
  ~ In k keys -> models_get (fold_left _reset_model_availability keys ms) k = models_get ms k.
Proof.
  revert ms. induction keys as [| k0 keys IH]; intros ms Hnotin; [reflexivity |].
  cbn [fold_left]. rewrite IH by (intros H; apply Hnotin; now right).
  rewrite models_get_reset. rewrite bool_decide_eq_false_2.
  - now destruct (models_get ms k).
  - intros ->. apply Hnotin. now left.
Qed.

(** *** [asyncio.sleep] *)

Lemma sleep_spec delay w :
  exists w',
    sleep delay w = (Ok tt, w') /\
    trace w' = trace w ++ [Sleep delay] /\ same_store w w' /\
    map fst (ai_models w') = map fst (ai_models w) /\
    (forall k mc, models_get (ai_models w) k = Some mc -> available mc = true ->
                  models_get (ai_models w') k = Some mc) /\
    (forall k, ~ In k (resets_due (trace w) delay) ->
               models_get (ai_models w') k = models_get (ai_models w) k).
Proof.
  eexists. split; [apply sleep_run |]. cbn [trace ai_models].
  split; [reflexivity |]. split; [repeat split |].
  split; [apply keys_resets |].
  split; [intros k mc; apply models_get_resets_open | intros k; apply models_get_resets_other].
Qed.

(** *** [_call_ai_model] case by case *)

Lemma log_usage_quiet k uid a t b msg w :
  exists log w',
    log_usage k uid a t b msg w = (Ok tt, w') /\ quiet log /\
    trace w' = trace w ++ log /\ ai_models w' = ai_models w /\
    clock_reads w' = clock_reads w /\ same_store w w' /\ reset_tasks log = [].
Proof.
  unfold log_usage. destruct uid as [uid |].
  - destruct (truthy (Some uid)).
    + eexists [_], _. unfold emit. split; [reflexivity |]. repeat split; reflexivity.
    + exists [], w. unfold ret. rewrite app_nil_r. repeat split.
  - exists [], w. unfold ret. rewrite app_nil_r. repeat split.
Qed.

Lemma call_closed key prompt a uid w :
  closed (ai_models w) key ->
  _call_ai_model env key prompt a uid w = (Raise (refusal (ai_models w) key), w).
Proof.
  unfold closed, refusal, _call_ai_model, bind, get_world. cbn beta iota.
  destruct (models_get (ai_models w) key) as [mc |]; [| reflexivity].
  intros ->. reflexivity.
Qed.

Lemma call_available key prompt a uid w mc :
  models_get (ai_models w) key = Some mc -> available mc = true ->
  exists params,
    match completions_create env (length (trace w)) key params with
    | Ok content =>
      exists log w',
        _call_ai_model env key prompt a uid w = (Ok content, w') /\ quiet log /\
        trace w' = trace w ++ CompletionCall key params :: log /\
        ai_models w' = ai_models w /\ same_store w w' /\ reset_tasks log = []
    | Raise e =>
      exists log w',
        _call_ai_model env key prompt a uid w
        = (Raise (AIServiceUnavailableError
                    ("Model " +:+ key +:+ " temporarily unavailable: "
                     +:+ exn_str (format_1f env) e)), w') /\
        quiet log /\
        trace w' = trace w ++ CompletionCall key params :: log ++ [ResetScheduled key 300] /\
        ai_models w' = mark_unavailable (ai_models w) key /\ same_store w w' /\
        reset_tasks log = []
    end.
Proof.
  intros Hget Hav.
  exists {| cp_model := model mc;
            cp_messages :=
              match system_message mc with
              | Some sm => if bool_decide (sm = []) then [("user", prompt)]
                           else [("system", sm); ("user", prompt)]
              | None => [("user", prompt)]
              end;
            cp_temperature := temperature mc;
            cp_top_p := top_p mc;
            cp_max_tokens := max_tokens mc;
            cp_timeout := if bool_decide (usage mc = "full_analysis")
                          then 120%R else 90%R;
            cp_extra_body := extra_body mc |}.
  match goal with
  | |- match completions_create env ?n key ?p with _ => _ end =>
    destruct (completions_create env n key p) as [content | e] eqn:Ecall
  end.
  - unfold _call_ai_model. unfold bind at 1. unfold get_world at 1.
    cbn beta iota. rewrite Hget, Hav. cbn [negb]. cbv iota.
    unfold bind at 1. unfold now at 1, bind at 1, tick at 1, ret at 1. cbn beta iota.
    unfold bind at 1. unfold get_world at 1. cbn beta iota.
    unfold bind at 1. unfold emit at 1. cbn beta iota. cbn [trace].
    rewrite Ecall.
    unfold bind at 1. unfold now at 1, bind at 1, tick at 1, ret at 1. cbn beta iota.
    unfold bind at 1.
    match goal with
    | |- context [log_usage ?k ?u ?x ?t ?b ?m ?w0] =>
      destruct (log_usage_quiet k u x t b m w0)
        as (log & w' & -> & Hq & Ht & Hm & _ & Hs & Hnone)
    end.
    exists log, w'. unfold ret. split; [reflexivity |]. split; [exact Hq |].
    split; [rewrite Ht; cbn [trace]; now rewrite <- app_assoc |].
    split; [exact Hm |]. split; [| exact Hnone].
    destruct Hs as (S1 & S2 & S3). repeat split; assumption.
  - unfold _call_ai_model. unfold bind at 1. unfold get_world at 1.
    cbn beta iota. rewrite Hget, Hav. cbn [negb]. cbv iota.
    unfold bind at 1. unfold now at 1, bind at 1, tick at 1, ret at 1. cbn beta iota.
    unfold bind at 1. unfold get_world at 1. cbn beta iota.
    unfold bind at 1. unfold emit at 1. cbn beta iota. cbn [trace].
    rewrite Ecall.
    unfold bind at 1. unfold now at 1, bind at 1, tick at 1, ret at 1. cbn beta iota.
    unfold bind at 1.
    match goal with
    | |- context [log_usage ?k ?u ?x ?t ?b ?m ?w0] =>
      destruct (log_usage_quiet k u x t b m w0)
        as (log & w' & -> & Hq & Ht & Hm & _ & Hs & Hnone)
    end.
    exists log. eexists. unfold bind, get_world, set_ai_models, emit, raise.
    cbn beta iota. split; [reflexivity |]. split; [exact Hq |].
    cbn [trace ai_models requests cache cache_connected].
    split; [rewrite Ht; cbn [trace]; now rewrite <- !app_assoc |].
    split; [now rewrite Hm |]. split; [| exact Hnone].
    destruct Hs as (S1 & S2 & S3). repeat split; assumption.
Qed.

Lemma refusal_is_service_error ms key : is_AIServiceError (refusal ms key) = true.
Proof. unfold refusal. now destruct (models_get ms key). Qed.

Lemma open_or_closed ms key :
  closed ms key \/ exists mc, models_get ms key = Some mc /\ available mc = true.
Proof.
  unfold closed. destruct (models_get ms key) as [mc |]; [| now left].
  destruct (available mc) eqn:E; [right; eauto | now left].
Qed.

(** What a call of the model [key] leaves behind, whatever its outcome. *)
Lemma call_frame key prompt a uid w :
  exists r w' evs,
    _call_ai_model env key prompt a uid w = (r, w') /\
    trace w' = trace w ++ evs /\ same_store w w' /\
    map fst (ai_models w') = map fst (ai_models w) /\
    (forall k, k <> key -> models_get (ai_models w') k = models_get (ai_models w) k) /\
    (forall k after age, In (k, after, age) (reset_tasks evs) -> k = key) /\
    match r with
    | Ok content =>
      exists params, completions_create env (length (trace w)) key params = Ok content
    | Raise e => is_AIServiceError e = true
    end.
Proof.
  destruct (open_or_closed (ai_models w) key) as [Hcl | (mc & Hget & Hav)].
  - rewrite (call_closed _ _ _ _ _ Hcl). eexists _, w, [].
    split; [reflexivity |]. rewrite app_nil_r. split; [reflexivity |].
    split; [apply same_store_refl |]. split; [reflexivity |]. split; [reflexivity |].
    split; [intros k after age [] | apply refusal_is_service_error].
  - destruct (call_available key prompt a uid w mc Hget Hav) as [params Hcall].
    destruct (completions_create env (length (trace w)) key params) as [content | e] eqn:Ec.
    + destruct Hcall as (log & w' & -> & Hq & Ht & Hm & Hs & Hnone).
      eexists _, w', _. split; [reflexivity |]. split; [exact Ht |]. split; [exact Hs |].
      rewrite Hm. split; [reflexivity |]. split; [reflexivity |].
      split; [| eauto]. cbn [reset_tasks]. rewrite Hnone. intros k after age [].
    + destruct Hcall as (log & w' & -> & Hq & Ht & Hm & Hs & Hnone).
      eexists _, w', _. split; [reflexivity |]. split; [exact Ht |]. split; [exact Hs |].
      rewrite Hm. split; [apply keys_mark_unavailable |].
      split; [intros k Hk; now apply models_get_mark_other |].
      split; [| reflexivity]. cbn [reset_tasks]. intros k after age Hin.
      apply in_reset_tasks_app in Hin as [(age0 & H0 & _) | Hin].
      * rewrite Hnone in H0. destruct H0.
      * cbn [reset_tasks In] in Hin. destruct Hin as [E | []]. now injection E.
Qed.

(** *** [_retry_with_backoff] around [_call_ai_model], in general *)

Lemma backoff_delay_ok (i : Z) (delay : R) :
  backoff_delay config i = Ok delay ->
  delay = Rmin (base_delay (retry config) * powerRZ (exponential_base (retry config)) i)
               (max_delay (retry config)).
Proof.
  unfold backoff_delay, float_pow.
  destruct (float_overflows (powerRZ (exponential_base (retry config)) i)); [discriminate |].
  now intros [= <-].
Qed.

Lemma retry_frame key prompt a uid :
  forall n attempt last w,
    exists r w' evs,
      retry_loop config (_call_ai_model env key prompt a uid) n attempt last w = (r, w') /\
      trace w' = trace w ++ evs /\ same_store w w' /\
      map fst (ai_models w') = map fst (ai_models w) /\
      (forall k mc, k <> key -> models_get (ai_models w) k = Some mc ->
                    available mc = true -> models_get (ai_models w') k = Some mc) /\
      (forall k after age, In (k, after, age) (reset_tasks evs) -> k = key) /\
      match r with
      | Ok content => exists i params, completions_create env i key params = Ok content
      | Raise _ => True
      end.
Proof.
  induction n as [| n IH]; intros attempt last w.
  - cbn [retry_loop]. destruct last; unfold raise; eexists _, w, [];
      (split; [reflexivity |]); rewrite app_nil_r; repeat split; auto;
      intros k after age [].
  - rewrite retry_loop_S. unfold try_except.
    destruct (call_frame key prompt a uid w)
      as (r1 & w1 & evs1 & -> & Ht1 & Hs1 & Hk1 & Ho1 & Hr1 & Hres1).
    assert (Hopen1 : forall k mc, k <> key -> models_get (ai_models w) k = Some mc ->
                       available mc = true -> models_get (ai_models w1) k = Some mc)
      by (intros k mc Hk Hget _; now rewrite Ho1).
    destruct r1 as [content | e].
    { exists (Ok content), w1, evs1. repeat split; try assumption; try apply Hs1.
      destruct Hres1 as [params Hp]. eauto. }
    cbn [any_exception].
    destruct (attempt =? max_retries (retry config))%Z.
    { exists (Raise e), w1, evs1. unfold raise. repeat split; try assumption; apply Hs1. }
    destruct (backoff_delay config attempt) as [delay | overflow].
    2:{ exists (Raise overflow), w1, evs1. unfold raise.
        repeat split; try assumption; apply Hs1. }
    unfold bind at 1.
    destruct (sleep_spec delay w1) as (w2 & -> & Ht2 & Hs2 & Hk2 & Hopen2 & _).
    destruct (IH (attempt + 1)%Z (Some e) w2)
      as (r & w' & evs3 & -> & Ht3 & Hs3 & Hk3 & Hopen3 & Hr3 & Hres3).
    exists r, w', (evs1 ++ [Sleep delay] ++ evs3).
    split; [reflexivity |].
    split; [rewrite Ht3, Ht2, Ht1, <- !app_assoc; reflexivity |].
    split; [exact (same_store_trans _ _ _ (same_store_trans _ _ _ Hs1 Hs2) Hs3) |].
    split; [congruence |].
    split; [intros k mc Hk Hget Hav; apply Hopen3; [exact Hk | | exact Hav];
            apply Hopen2; [| exact Hav]; now apply Hopen1 |].
    split; [| exact Hres3].
    intros k after age Hin.
    apply in_reset_tasks_app in Hin as [(age0 & H0 & _) | Hin]; [exact (Hr1 _ _ _ H0) |].
    apply in_reset_tasks_app in Hin as [(age0 & [] & _) | Hin]. exact (Hr3 _ _ _ Hin).
Qed.


(** A model whose client always fails: the loop ends in an exception of the
    service. *)
Lemma call_fails key prompt a uid w :
  model_fails env key ->
  exists e w', _call_ai_model env key prompt a uid w = (Raise e, w') /\
               is_AIServiceError e = true.
Proof.
  intros Hfail.
  destruct (call_frame key prompt a uid w) as (r & w' & evs & -> & _ & _ & _ & _ & _ & Hr).
  destruct r as [content | e]; [| eauto].
  destruct Hr as [params Hp]. destruct (Hfail (length (trace w)) params) as [e He].
  congruence.
Qed.


(** *** Retries of a model that is closed and whose reset is far away *)

Lemma retry_closed key prompt a uid :
  forall n i last w budget,
    closed (ai_models w) key ->
    max_retries (retry config) = Z.of_nat (i + n) ->
    calm key (trace w) budget ->
    (slept (map Sleep (backoff_delays (retry config) i n)) <= budget)%R ->
    exists r w' m,
      retry_loop config (_call_ai_model env key prompt a uid) (S n) (Z.of_nat i) last w
      = (r, w') /\
      (m <= n)%nat /\
      trace w' = trace w ++ map Sleep (backoff_delays (retry config) i m) /\
      models_get (ai_models w') key = models_get (ai_models w) key /\
      (backoff_defined (retry config) -> m = n /\ r = Raise (refusal (ai_models w) key)).
Proof.
  induction n as [| n IH]; intros i last w budget Hcl Hmax Hcalm Hbudget.
  - rewrite retry_loop_S. unfold try_except. rewrite (call_closed _ _ _ _ _ Hcl).
    cbn [any_exception]. rewrite (proj2 (Z.eqb_eq _ _)) by (rewrite Hmax; f_equal; lia).
    eexists _, w, O. unfold raise, backoff_delays. cbn [seq map]. rewrite app_nil_r.
    repeat split. lia.
  - rewrite retry_loop_S. unfold try_except. rewrite (call_closed _ _ _ _ _ Hcl).
    cbn [any_exception]. rewrite (proj2 (Z.eqb_neq _ _)) by lia.
    destruct (backoff_delay config (Z.of_nat i)) as [delay | overflow] eqn:Edelay.
    2:{ eexists _, w, O. unfold raise, backoff_delays. cbn [seq map]. rewrite app_nil_r.
        split; [reflexivity |]. split; [lia |]. split; [reflexivity |].
        split; [reflexivity |]. intros Hdef.
        rewrite (backoff_delay_defined config (Z.of_nat i) Hdef) in Edelay by lia.
        discriminate. }
    apply backoff_delay_ok in Edelay.
    assert (Hsplit : backoff_delays (retry config) i (S n)
                     = delay :: backoff_delays (retry config) (S i) n)
      by (rewrite Edelay; reflexivity).
    rewrite Hsplit in Hbudget. cbn [map slept] in Hbudget.
    pose proof (slept_nonneg (map Sleep (backoff_delays (retry config) (S i) n))) as Hrest.
    unfold bind at 1.
    destruct (sleep_spec delay w) as (w1 & -> & Ht1 & _ & _ & _ & Hsame).
    assert (Hget1 : models_get (ai_models w1) key = models_get (ai_models w) key).
    { apply Hsame. apply (calm_not_due key (trace w) budget); [exact Hcalm | lra]. }
    replace (Z.of_nat i + 1)%Z with (Z.of_nat (S i)) by lia.
    destruct (IH (S i) (Some (refusal (ai_models w) key)) w1 (budget - Rmax 0 delay)%R)
      as (r & w' & m & -> & Hm & Ht & Hget & Hexact).
    + unfold closed. rewrite Hget1. exact Hcl.
    + rewrite Hmax. f_equal. lia.
    + rewrite Ht1. now apply calm_sleep.
    + lra.
    + exists r, w', (S m). split; [reflexivity |]. split; [lia |].
      split.
      { rewrite Ht, Ht1, <- app_assoc.
        assert (Hsplit' : backoff_delays (retry config) i (S m)
                          = delay :: backoff_delays (retry config) (S i) m)
          by (rewrite Edelay; reflexivity).
        rewrite Hsplit'. reflexivity. }
      split; [congruence |].
      intros Hdef. destruct (Hexact Hdef) as [-> ->]. split; [reflexivity |].
      unfold refusal. now rewrite Hget1.
Qed.

(** With every reset task of the model woken up and a backoff schedule of
    less than 300 seconds, the loop calls the client of the model at most
    once. *)
Lemma retry_timed key prompt a uid w :
  settled key (trace w) -> (backoff_seconds (retry config) < 300)%R ->
  exists r w' evs,
    _retry_with_backoff config (_call_ai_model env key prompt a uid) w = (r, w') /\
    trace w' = trace w ++ evs /\
    (client_calls evs
     <= match models_get (ai_models w) key with Some _ => 1 | None => 0 end)%nat.
Proof.
  intros Hsettled Hbudget. unfold _retry_with_backoff.
  destruct (Z.ltb_spec (max_retries (retry config)) 0) as [Hneg | Hpos].
  { replace (Z.to_nat (max_retries (retry config) + 1)) with O by lia.
    cbn [retry_loop]. unfold raise. eexists _, w, [].
    split; [reflexivity |]. rewrite app_nil_r. split; [reflexivity |]. cbn. lia. }
  set (n := Z.to_nat (max_retries (retry config))).
  replace (Z.to_nat (max_retries (retry config) + 1)) with (S n) by lia.
  destruct (open_or_closed (ai_models w) key) as [Hcl | (mc & Hget & Hav)].
  { destruct (retry_closed key prompt a uid n 0 None w
                (slept (map Sleep (backoff_delays (retry config) 0 n))) Hcl)
      as (r & w' & m & Hrun & _ & Ht & _); [lia | now apply settled_calm | lra |].
    change (Z.of_nat 0) with 0%Z in Hrun. rewrite Hrun.
    eexists _, w', _. split; [reflexivity |]. split; [exact Ht |].
    rewrite client_calls_map_Sleep. lia. }
  destruct (call_available key prompt a uid w mc Hget Hav) as [params Hcall].
  rewrite Hget.
  destruct (completions_create env (length (trace w)) key params) as [content | e0] eqn:Ec.
  - destruct Hcall as (log & w' & Hrun & Hq & Ht & _).
    rewrite retry_loop_S. unfold try_except. rewrite Hrun.
    eexists _, w', _. split; [reflexivity |]. split; [exact Ht |].
    change (client_calls (CompletionCall key params :: log)) with (S (client_calls log)).
    destruct Hq as [-> _]. lia.
  - destruct Hcall as (log & w1 & Hrun & [Hq1 Hq2] & Ht1 & Hm1 & _ & Hnone).
    assert (Hcalls : client_calls (CompletionCall key params :: log ++ [ResetScheduled key 300])
                     = 1%nat).
    { change (client_calls (CompletionCall key params :: ?l)) with (S (client_calls l)).
      rewrite client_calls_app, Hq1. reflexivity. }
    rewrite retry_loop_S. unfold try_except. rewrite Hrun. cbn [any_exception].
    destruct (Z.eqb_spec 0 (max_retries (retry config))) as [Hz | Hnz].
    { unfold raise. eexists _, w1, _. split; [reflexivity |]. split; [exact Ht1 |].
      rewrite Hcalls. lia. }
    destruct (backoff_delay config 0) as [delay | overflow] eqn:Edelay.
    2:{ unfold raise. eexists _, w1, _. split; [reflexivity |]. split; [exact Ht1 |].
        rewrite Hcalls. lia. }
    apply backoff_delay_ok in Edelay.
    destruct n as [| n'] eqn:En; [lia |].
    assert (Hsplit : backoff_delays (retry config) 0 (S n')
                     = delay :: backoff_delays (retry config) 1 n')
      by (rewrite Edelay; reflexivity).
    unfold backoff_seconds in Hbudget. fold n in Hbudget. rewrite En, Hsplit in Hbudget.
    cbn [map slept] in Hbudget.
    pose proof (slept_nonneg (map Sleep (backoff_delays (retry config) 1 n'))) as Hrest.
    pose proof (Rmax_l 0 delay) as Hd.
    assert (Hcalm1 : calm key (trace w1)
                       (Rmax 0 delay + slept (map Sleep (backoff_delays (retry config) 1 n')))).
    { rewrite Ht1. apply calm_after_failure; assumption. }
    unfold bind at 1.
    destruct (sleep_spec delay w1) as (w2 & -> & Ht2 & _ & _ & _ & Hsame).
    assert (Hget2 : models_get (ai_models w2) key = models_get (ai_models w1) key).
    { apply Hsame. eapply calm_not_due; [exact Hcalm1 | lra]. }
    change (0 + 1)%Z with (Z.of_nat 1).
    destruct (retry_closed key prompt a uid n' 1 (Some (AIServiceUnavailableError
                  ("Model " +:+ key +:+ " temporarily unavailable: "
                   +:+ exn_str (format_1f env) e0))) w2
                (slept (map Sleep (backoff_delays (retry config) 1 n'))))
      as (r & w' & m & -> & _ & Ht & _).
    + unfold closed. rewrite Hget2, Hm1. apply closed_mark_unavailable.
    + lia.
    + rewrite Ht2.
      replace (slept (map Sleep (backoff_delays (retry config) 1 n')))
        with (Rmax 0 delay + slept (map Sleep (backoff_delays (retry config) 1 n'))
              - Rmax 0 delay)%R by lra.
      now apply calm_sleep.
    + lra.
    + eexists _, w', _. split; [reflexivity |].
      split; [rewrite Ht, Ht2, Ht1, <- !app_assoc; reflexivity |].
      rewrite !client_calls_app, client_calls_map_Sleep, Hcalls. cbn. lia.
Qed.

(** X10. Retrying cannot get past the circuit breaker before the model is
    reset.  Let the remote call of a registered, available model fail, with
    retries configured, every earlier reset task of the model woken up, the
    delays of the backoff schedule computed without overflow and the whole
    schedule shorter than the 300 seconds after which the model is reset.
    Then [_retry_with_backoff] sleeps through the whole schedule, but the
    client is called once only: the failure marks the model unavailable, so
    every further attempt is refused, and the exception that comes out is
    the refusal, not the error of the client. *)
Theorem retry_never_calls_a_failed_model_again :
  forall (key : string) (prompt : text) (analysis_type : string)
         (user_id : option string) (w : World) (mc : ModelConfig),
    models_get (ai_models w) key = Some mc ->
    available mc = true ->
    (forall params, exists e, completions_create env (length (trace w)) key params = Raise e) ->
    (1 <= max_retries (retry config))%Z ->
    backoff_defined (retry config) ->
    (backoff_seconds (retry config) < 300)%R ->
    settled key (trace w) ->
    exists w' evs,
      _retry_with_backoff config (_call_ai_model env key prompt analysis_type user_id) w
      = (Raise (AIServiceUnavailableError
                  ("Model " +:+ key +:+ " is currently unavailable")), w') /\
      trace w' = trace w ++ evs /\
      client_calls evs = 1%nat /\
      sleeps evs = backoff_delays (retry config) 0 (Z.to_nat (max_retries (retry config))) /\
      models_get (ai_models w') key = Some (set_available mc false).
Proof.
  intros key prompt a uid w mc Hget Hav Hfail Hmax Hdef Hbudget Hsettled.
  unfold _retry_with_backoff.
  destruct (Z.to_nat (max_retries (retry config))) as [| n] eqn:En; [lia |].
  replace (Z.to_nat (max_retries (retry config) + 1)) with (S (S n)) by lia.
  rewrite retry_loop_S. unfold try_except.
  destruct (call_available key prompt a uid w mc Hget Hav) as [params Hcall].
  destruct (Hfail params) as [e He]. rewrite He in Hcall.
  destruct Hcall as (log & w1 & -> & [Hq1 Hq2] & Ht1 & Hm1 & _ & Hnone).
  cbn [any_exception]. rewrite (proj2 (Z.eqb_neq _ _)) by lia.
  rewrite (backoff_delay_defined config 0 Hdef) by lia.
  set (delay := Rmin (base_delay (retry config)
                      * powerRZ (exponential_base (retry config)) 0)
                     (max_delay (retry config))).
  assert (Hsplit : backoff_delays (retry config) 0 (S n)
                   = delay :: backoff_delays (retry config) 1 n) by reflexivity.
  unfold backoff_seconds in Hbudget. rewrite En, Hsplit in Hbudget.
  cbn [map slept] in Hbudget.
  pose proof (slept_nonneg (map Sleep (backoff_delays (retry config) 1 n))) as Hrest.
  pose proof (Rmax_l 0 delay) as Hd.
  assert (Hcalm1 : calm key (trace w1)
                     (Rmax 0 delay + slept (map Sleep (backoff_delays (retry config) 1 n)))).
  { rewrite Ht1. apply calm_after_failure; assumption. }
  unfold bind at 1.
  destruct (sleep_spec delay w1) as (w2 & -> & Ht2 & _ & _ & _ & Hsame).
  assert (Hget2 : models_get (ai_models w2) key = models_get (ai_models w1) key).
  { apply Hsame. eapply calm_not_due; [exact Hcalm1 | lra]. }
  change (0 + 1)%Z with (Z.of_nat 1).
  match goal with
  | |- context [retry_loop config _ (S n) _ ?l w2] =>
    destruct (retry_closed key prompt a uid n 1 l w2
                (slept (map Sleep (backoff_delays (retry config) 1 n))))
      as (r & w' & m & -> & _ & Ht & Hget' & Hexact)
  end.
  - unfold closed. rewrite Hget2, Hm1. apply closed_mark_unavailable.
  - lia.
  - rewrite Ht2.
    replace (slept (map Sleep (backoff_delays (retry config) 1 n)))
      with (Rmax 0 delay + slept (map Sleep (backoff_delays (retry config) 1 n))
            - Rmax 0 delay)%R by lra.
    now apply calm_sleep.
  - lra.
  - destruct (Hexact Hdef) as [-> ->].
    assert (Hrefusal : refusal (ai_models w2) key
                       = AIServiceUnavailableError
                           ("Model " +:+ key +:+ " is currently unavailable")).
    { unfold refusal. rewrite Hget2, Hm1, models_get_mark_same, Hget. reflexivity. }
    rewrite Hrefusal. eexists w', _. split; [reflexivity |]. split.
    { rewrite Ht, Ht2, Ht1. rewrite <- !app_assoc. reflexivity. }
    split.
    { rewrite !client_calls_app, client_calls_map_Sleep.
      change (client_calls (CompletionCall key params :: ?l))
        with (S (client_calls l)).
      rewrite client_calls_app, Hq1. reflexivity. }
    split.
    { rewrite !sleeps_app, sleeps_map_Sleep.
      change (sleeps (CompletionCall key params :: ?l)) with (sleeps l).
      rewrite sleeps_app, Hq2. rewrite Hsplit. reflexivity. }
    rewrite Hget', Hget2, Hm1, models_get_mark_same, Hget. reflexivity.
Qed.

(** *** One model tried to the end *)

(** What [attempt_model] makes of the outcome of the retry loop. *)
Lemma attempt_model_after st ck key prompt a uid fb reason w :
  match _retry_with_backoff config (_call_ai_model env key prompt a uid) w with
  | (Ok content, w1) =>
    exists res w' tail,
      attempt_model env config st ck key prompt a uid fb reason w = (Ok res, w') /\
      feedback res = content /\
      score res = Score._extract_score (ucd env) content a /\
      model_used res = Some key /\ analysis_type_used res = Some a /\
      is_fallback res = fb /\ fallback_reason res = reason /\
      trace w' = trace w1 ++ tail /\
      client_calls tail = O /\ sleeps tail = [] /\ reset_tasks tail = [] /\
      ai_models w' = ai_models w1 /\ requests w' = requests w1 /\
      cache_connected w' = cache_connected w1 /\
      cache w' = (if cache_connected w1 then <[ck := res]> (cache w1) else cache w1)
  | (Raise e, w1) =>
    attempt_model env config st ck key prompt a uid fb reason w = (Raise e, w1)
  end.
Proof.
  destruct (_retry_with_backoff config (_call_ai_model env key prompt a uid) w)
    as [[content | e] w1] eqn:Erun;
    unfold attempt_model; unfold bind at 1; rewrite Erun; [| reflexivity].
  unfold bind at 1. unfold now at 1, bind at 1, tick at 1, ret at 1. cbn beta iota.
  unfold bind at 1. unfold utcnow at 1, bind at 1, tick at 1, ret at 1. cbn beta iota.
  cbv zeta. unfold bind at 1. unfold _cache_result, bind at 1, get_world at 1.
  cbn beta iota. cbn [cache_connected clock_reads].
  destruct (cache_connected w1) eqn:Ecc.
  - unfold bind, set_cache, emit, ret. cbn beta iota.
    cbn [requests ai_models cache_connected cache clock_reads trace].
    eexists _, _, [_]. split; [reflexivity |].
    cbn [requests ai_models cache_connected cache clock_reads trace
         feedback score model_used analysis_type_used is_fallback fallback_reason].
    repeat split; reflexivity.
  - unfold ret. cbn beta iota.
    eexists _, _, []. split; [reflexivity |].
    cbn [requests ai_models cache_connected cache clock_reads trace
         feedback score model_used analysis_type_used is_fallback fallback_reason].
    rewrite app_nil_r. repeat split; reflexivity.
Qed.

Lemma attempt_model_spec st ck key prompt a uid fb reason w :
  exists r w' evs,
    attempt_model env config st ck key prompt a uid fb reason w = (r, w') /\
    trace w' = trace w ++ evs /\ requests w' = requests w /\
    cache_connected w' = cache_connected w /\
    map fst (ai_models w') = map fst (ai_models w) /\
    (forall k mc, k <> key -> models_get (ai_models w) k = Some mc ->
                  available mc = true -> models_get (ai_models w') k = Some mc) /\
    (forall k after age, In (k, after, age) (reset_tasks evs) -> k = key) /\
    match r with
    | Ok res =>
      (exists i params, completions_create env i key params = Ok (feedback res)) /\
      score res = Score._extract_score (ucd env) (feedback res) a /\
      model_used res = Some key /\ analysis_type_used res = Some a /\
      is_fallback res = fb /\ fallback_reason res = reason /\
      cache w' = (if cache_connected w then <[ck := res]> (cache w) else cache w)
    | Raise e => cache w' = cache w
    end.
Proof.
  pose proof (attempt_model_after st ck key prompt a uid fb reason w) as Hafter.
  unfold _retry_with_backoff in Hafter.
  destruct (retry_frame key prompt a uid
              (Z.to_nat (max_retries (retry config) + 1)) 0%Z None w)
    as (r & w1 & evs & Hrun & Ht & (S1 & S2 & S3) & Hk & Hopen & Htasks & Hres).
  rewrite Hrun in Hafter. destruct r as [content | e].
  - destruct Hafter as (res & w' & tail & -> & Hf & Hsc & Hmu & Hat & Hfb & Hreason
                        & Ht' & _ & _ & Hnone & Hm & Hrq & Hcc & Hcache).
    exists (Ok res), w', (evs ++ tail). split; [reflexivity |].
    split; [rewrite Ht', Ht, app_assoc; reflexivity |].
    split; [congruence |]. split; [congruence |]. split; [congruence |].
    split; [intros k mc Hne Hget Hav; rewrite Hm; now apply Hopen |].
    split.
    { intros k after age Hin.
      apply in_reset_tasks_app in Hin as [(age0 & H0 & _) | Hin]; [exact (Htasks _ _ _ H0) |].
      rewrite Hnone in Hin. destruct Hin. }
    rewrite Hf. split; [exact Hres |]. split; [exact Hsc |].
    repeat (split; [assumption |]). rewrite Hcache, S3, S2. reflexivity.
  - rewrite Hafter. exists (Raise e), w1, evs. split; [reflexivity |].
    repeat (split; [assumption |]). exact S2.
Qed.



Lemma attempt_timed st ck key prompt a uid fb reason w :
  settled key (trace w) -> (backoff_seconds (retry config) < 300)%R ->
  exists r w' evs,
    attempt_model env config st ck key prompt a uid fb reason w = (r, w') /\
    trace w' = trace w ++ evs /\
    map fst (ai_models w') = map fst (ai_models w) /\
    (forall k after age, In (k, after, age) (reset_tasks evs) -> k = key) /\
    (client_calls evs
     <= match models_get (ai_models w) key with Some _ => 1 | None => 0 end)%nat.
Proof.
  intros Hsettled Hbudget.
  pose proof (attempt_model_after st ck key prompt a uid fb reason w) as Hafter.
  destruct (attempt_model_spec st ck key prompt a uid fb reason w)
    as (r & w' & evs & Hrun & Ht & _ & _ & Hk & _ & Htasks & _).
  exists r, w', evs. repeat (split; [assumption |]).
  destruct (retry_timed key prompt a uid w Hsettled Hbudget)
    as (r1 & w1 & evs1 & Hrun1 & Ht1 & Hcalls).
  rewrite Hrun1 in Hafter. destruct r1 as [content | e].
  - destruct Hafter as (res & w2 & tail & Hrun2 & _ & _ & _ & _ & _ & _
                        & Ht2 & Hc & _).
    rewrite Hrun in Hrun2. injection Hrun2 as -> ->.
    rewrite Ht2, Ht1, <- app_assoc in Ht. apply app_inv_head in Ht. subst evs.
    rewrite client_calls_app, Hc. lia.
  - rewrite Hrun in Hafter. injection Hafter as -> ->.
    rewrite Ht1 in Ht. apply app_inv_head in Ht. now subst evs.
Qed.

(** *** The fallback models and the canned response *)

Lemma get_fallback_response_spec theme a w :
  exists r w',
    _get_fallback_response env config theme a w = (r, w') /\
    trace w' = trace w /\ ai_models w' = ai_models w /\ same_store w w' /\
    match r with
    | Ok res =>
      fallback_enabled config = true /\
      model_used res = None /\ is_fallback res = true /\ score res = None
    | Raise e =>
      fallback_enabled config = false /\
      e = AIServiceUnavailableError "AI services unavailable and fallback disabled"
    end.
Proof.
  unfold _get_fallback_response. destruct (fallback_enabled config); cbn [negb].
  - destruct (bool_decide (a = "paragraph"));
      unfold bind, utcnow, bind, tick, ret; cbn beta iota;
      eexists _, _; (split; [reflexivity |]); repeat split.
  - unfold raise. eexists _, w. split; [reflexivity |]. repeat split.
Qed.

Lemma try_fallbacks_spec st ck primary prompt theme a uid :
  forall fallback_models w,
    exists r w' evs,
      try_fallbacks env config st ck primary fallback_models prompt theme a uid w
      = (r, w') /\
      trace w' = trace w ++ evs /\ requests w' = requests w /\
      cache_connected w' = cache_connected w /\
      map fst (ai_models w') = map fst (ai_models w) /\
      match r with
      | Ok res =>
        (model_used res <> None /\ is_fallback res = true /\
         cache w' = (if cache_connected w then <[ck := res]> (cache w) else cache w)) \/
        (model_used res = None /\ is_fallback res = true /\ score res = None /\
         cache w' = cache w)
      | Raise e => cache w' = cache w /\ fallback_enabled config = false
      end.
Proof.
  induction fallback_models as [| fb rest IH]; intros w.
  - cbn [try_fallbacks].
    destruct (get_fallback_response_spec theme a w)
      as (r & w' & -> & Ht & Hm & (S1 & S2 & S3) & Hr).
    exists r, w', []. split; [reflexivity |]. rewrite app_nil_r.
    split; [exact Ht |]. split; [exact S1 |]. split; [exact S3 |].
    split; [now rewrite Hm |].
    destruct r as [res | e].
    + right. destruct Hr as (_ & H1 & H2 & H3). auto.
    + split; [exact S2 | apply Hr].
  - cbn [try_fallbacks]. unfold try_except.
    destruct (attempt_model_spec st ck fb prompt a uid true
                (Some ("Primary model " +:+ primary +:+ " failed")) w)
      as (r & w1 & evs1 & -> & Ht1 & Hrq1 & Hcc1 & Hk1 & _ & _ & Hr1).
    destruct r as [res | e].
    + destruct Hr1 as (_ & _ & Hmu & _ & Hfb & _ & Hcache).
      exists (Ok res), w1, evs1. split; [reflexivity |]. split; [exact Ht1 |].
      split; [exact Hrq1 |]. split; [exact Hcc1 |]. split; [exact Hk1 |].
      left. rewrite Hmu. split; [discriminate |]. split; [exact Hfb | exact Hcache].
    + cbn [any_exception].
      destruct (IH w1) as (r & w' & evs & -> & Ht & Hrq & Hcc & Hk & Hr).
      exists r, w', (evs1 ++ evs). split; [reflexivity |].
      split; [rewrite Ht, Ht1, app_assoc; reflexivity |].
      split; [congruence |]. split; [congruence |]. split; [congruence |].
      rewrite Hcc1, Hr1 in Hr. exact Hr.
Qed.

Lemma try_fallbacks_timed st ck primary prompt theme a uid :
  (backoff_seconds (retry config) < 300)%R ->
  forall fallback_models w,
    List.NoDup fallback_models ->
    (forall k, In k fallback_models -> settled k (trace w)) ->
    exists r w' evs,
      try_fallbacks env config st ck primary fallback_models prompt theme a uid w
      = (r, w') /\
      trace w' = trace w ++ evs /\
      map fst (ai_models w') = map fst (ai_models w) /\
      (client_calls evs <= length fallback_models)%nat.
Proof.
  intros Hbudget.
  induction fallback_models as [| fb rest IH]; intros w Hnd Hsettled.
  - cbn [try_fallbacks].
    destruct (get_fallback_response_spec theme a w) as (r & w' & -> & Ht & Hm & _).
    exists r, w', []. split; [reflexivity |]. rewrite app_nil_r.
    split; [exact Ht |]. split; [now rewrite Hm |]. cbn. lia.
  - cbn [try_fallbacks]. unfold try_except.
    apply List.NoDup_cons_iff in Hnd as [Hnotin Hnd].
    destruct (attempt_timed st ck fb prompt a uid true
                (Some ("Primary model " +:+ primary +:+ " failed")) w)
      as (r & w1 & evs1 & -> & Ht1 & Hk1 & Htasks & Hc1);
      [apply Hsettled; now left | exact Hbudget |].
    assert (Hc1' : (client_calls evs1 <= 1)%nat)
      by (destruct (models_get (ai_models w) fb); lia).
    destruct r as [res | e].
    + exists (Ok res), w1, evs1. split; [reflexivity |]. split; [exact Ht1 |].
      split; [exact Hk1 |]. cbn [length]. lia.
    + cbn [any_exception].
      destruct (IH w1 Hnd) as (r & w' & evs & -> & Ht & Hk & Hc).
      { intros k Hin. rewrite Ht1. apply settled_app; [apply Hsettled; now right |].
        intros after age Htask. apply Htasks in Htask. subst k. contradiction. }
      exists r, w', (evs1 ++ evs). split; [reflexivity |].
      split; [rewrite Ht, Ht1, app_assoc; reflexivity |].
      split; [congruence |]. rewrite client_calls_app. cbn [length]. lia.
Qed.

Lemma keys_bound (ms : list (string * ModelConfig)) (key : string) :
  (match models_get ms key with Some _ => 1 | None => 0 end
   + length (List.filter (fun m => negb (bool_decide (m = key))) (map fst ms))
   <= length ms)%nat.
Proof.
  induction ms as [| [k c] ms IH]; [cbn; lia |].
  cbn [models_get map fst List.filter length].
  destruct (bool_decide (k = key)); cbn [negb length].
  - pose proof (List.filter_length_le (fun m => negb (bool_decide (m = key))) (map fst ms)) as H.
    rewrite length_map in H. lia.
  - destruct (models_get ms key); lia.
Qed.

(** *** The three stages of [correct_essay] *)

Lemma correct_essay_stages content theme model_key user_id a theme_data metadata w :
  correct_essay env config content theme model_key user_id a theme_data metadata w
  = if (max_length a <? Z.of_nat (length content))%Z then
      (Raise (AIServiceError
                (if bool_decide (a = "paragraph")
                 then "Paragraph content too long (max 2,000 characters)"
                 else "Essay content too long (max 10,000 characters)")), ticked w)
    else if forallb (isspace (ucd env)) content then
      (Raise (AIServiceError "Essay content cannot be empty"), ticked w)
    else
      match admission env config user_id (ticked w) with
      | (Ok _, w2) =>
        serve env config (time_time env (clock_reads w)) content theme (primary_model a) user_id a
              theme_data metadata w2
      | (Raise e, w2) => (Raise e, w2)
      end.
Proof.
  unfold correct_essay. unfold bind at 1. unfold now at 1, bind at 1, tick at 1, ret at 1.
  cbn beta iota. fold (ticked w). unfold bind at 1.
  unfold max_length, primary_model.
  destruct (bool_decide (a = "paragraph")).
  - destruct (2000 <? Z.of_nat (length content))%Z; [reflexivity |].
    unfold ret at 1. cbn beta iota.
    destruct (forallb (isspace (ucd env)) content); [reflexivity |].
    unfold bind at 1. fold (admission env config user_id).
    destruct (admission env config user_id (ticked w)) as [[[] | e] w2]; reflexivity.
  - destruct (10000 <? Z.of_nat (length content))%Z; [reflexivity |].
    unfold ret at 1. cbn beta iota.
    destruct (forallb (isspace (ucd env)) content); [reflexivity |].
    unfold bind at 1. fold (admission env config user_id).
    destruct (admission env config user_id (ticked w)) as [[[] | e] w2]; reflexivity.
Qed.

Lemma admission_spec user_id w :
  exists r w',
    admission env config user_id w = (r, w') /\
    trace w' = trace w /\ cache w' = cache w /\
    cache_connected w' = cache_connected w /\ ai_models w' = ai_models w /\
    match user_id with
    | Some uid =>
      if truthy user_id then
        requests w'
        = snd (is_allowed (rate_limit config) (requests w)
                 (time_time env (clock_reads w)) uid) /\
        r = match fst (is_allowed (rate_limit config) (requests w)
                         (time_time env (clock_reads w)) uid) with
            | Raise e => Raise e
            | Ok (true, _) => Ok tt
            | Ok (false, wait_time) =>
              Raise (RateLimitExceededError (default 0%R wait_time))
            end
      else w' = w /\ r = Ok tt
    | None => w' = w /\ r = Ok tt
    end.
Proof.
  unfold admission. destruct user_id as [uid |].
  - destruct (truthy (Some uid)).
    + unfold bind at 1. unfold now at 1, bind at 1, tick at 1, ret at 1. cbn beta iota.
      unfold bind at 1. unfold get_world at 1. cbn beta iota.
      cbn [requests].
      destruct (is_allowed (rate_limit config) (requests w)
                  (time_time env (clock_reads w)) uid) as [r requests'].
      unfold bind at 1. unfold set_requests at 1. cbn beta iota.
      cbn [requests ai_models cache_connected cache clock_reads trace fst snd].
      destruct r as [[[] wt] | e]; unfold ret, raise;
        eexists _, _; (split; [reflexivity |]); repeat split.
    + exists (Ok tt), w. repeat split.
  - exists (Ok tt), w. repeat split.
Qed.

Lemma serve_spec st content theme key uid a td md w :
  let ck := _generate_cache_key env content theme key a in
  exists r w' evs,
    serve env config st content theme key uid a td md w = (r, w') /\
    trace w' = trace w ++ evs /\ requests w' = requests w /\
    cache_connected w' = cache_connected w /\
    map fst (ai_models w') = map fst (ai_models w) /\
    match r with
    | Ok res =>
      (if cache_connected w then cache w' !! ck = Some res else cache w' = cache w) \/
      (model_used res = None /\ is_fallback res = true /\ score res = None /\
       cache w' = cache w)
    | Raise e => cache w' = cache w
    end.
Proof.
  intros ck. unfold serve. fold ck. cbv zeta.
  unfold bind at 1. unfold _check_cache, bind at 1, get_world at 1, ret at 1.
  cbn beta iota.
  destruct (if cache_connected w then cache w !! ck else None) as [cached |] eqn:Ehit.
  - exists (Ok cached), w, []. unfold ret. split; [reflexivity |]. rewrite app_nil_r.
    repeat (split; [reflexivity |]). left.
    destruct (cache_connected w); [exact Ehit | discriminate].
  - unfold try_except.
    set (prompt := _get_optimized_prompt env content theme a td md).
    destruct (attempt_model_spec st ck key prompt a uid false None w)
      as (r & w1 & evs1 & -> & Ht1 & Hrq1 & Hcc1 & Hk1 & _ & _ & Hr1).
    destruct r as [res | e].
    + destruct Hr1 as (_ & _ & _ & _ & _ & _ & Hcache).
      exists (Ok res), w1, evs1. split; [reflexivity |]. split; [exact Ht1 |].
      split; [exact Hrq1 |]. split; [exact Hcc1 |]. split; [exact Hk1 |].
      left. rewrite Hcache.
      destruct (cache_connected w); [apply lookup_insert_eq | reflexivity].
    + destruct (is_AIServiceError e).
      * unfold bind at 1. unfold get_world at 1. cbn beta iota. cbv zeta.
        rewrite Hk1.
        destruct (try_fallbacks_spec st ck key prompt theme a uid
                    (List.filter (fun m => negb (bool_decide (m = key)))
                                 (map fst (ai_models w))) w1)
          as (r & w' & evs & -> & Ht & Hrq & Hcc & Hk & Hr).
        exists r, w', (evs1 ++ evs). split; [reflexivity |].
        split; [rewrite Ht, Ht1, app_assoc; reflexivity |].
        split; [congruence |]. split; [congruence |]. split; [congruence |].
        rewrite Hcc1, Hr1 in Hr. destruct r as [res | e'].
        -- destruct Hr as [(_ & _ & Hcache) | Hcanned]; [left | now right].
           rewrite Hcache.
           destruct (cache_connected w); [apply lookup_insert_eq | reflexivity].
        -- apply Hr.
      * exists (Raise e), w1, evs1. split; [reflexivity |]. split; [exact Ht1 |].
        split; [exact Hrq1 |]. split; [exact Hcc1 |]. split; [exact Hk1 |].
        exact Hr1.
Qed.

Lemma serve_timed st content theme key uid a td md w :
  (backoff_seconds (retry config) < 300)%R ->
  List.NoDup (map fst (ai_models w)) ->
  (forall k, settled k (trace w)) ->
  exists r w' evs,
    serve env config st content theme key uid a td md w = (r, w') /\
    trace w' = trace w ++ evs /\
    map fst (ai_models w') = map fst (ai_models w) /\
    (client_calls evs <= length (ai_models w))%nat.
Proof.
  intros Hbudget Hnd Hsettled. unfold serve. cbv zeta.
  set (ck := _generate_cache_key env content theme key a).
  unfold bind at 1. unfold _check_cache, bind at 1, get_world at 1, ret at 1.
  cbn beta iota.
  destruct (if cache_connected w then cache w !! ck else None) as [cached |].
  - exists (Ok cached), w, []. unfold ret. split; [reflexivity |]. rewrite app_nil_r.
    repeat (split; [reflexivity |]). cbn. lia.
  - unfold try_except.
    set (prompt := _get_optimized_prompt env content theme a td md).
    destruct (attempt_timed st ck key prompt a uid false None w (Hsettled key) Hbudget)
      as (r & w1 & evs1 & -> & Ht1 & Hk1 & Htasks & Hc1).
    pose proof (keys_bound (ai_models w) key) as Hbound.
    destruct r as [res | e].
    + exists (Ok res), w1, evs1. split; [reflexivity |]. split; [exact Ht1 |].
      split; [exact Hk1 |]. lia.
    + destruct (is_AIServiceError e).
      * unfold bind at 1. unfold get_world at 1. cbn beta iota. cbv zeta.
        rewrite Hk1.
        destruct (try_fallbacks_timed st ck key prompt theme a uid Hbudget
                    (List.filter (fun m => negb (bool_decide (m = key)))
                                 (map fst (ai_models w))) w1)
          as (r & w' & evs & -> & Ht & Hk & Hc).
        { now apply List.NoDup_filter. }
        { intros k Hin. apply filter_In in Hin as [_ Hne].
          rewrite Ht1. apply settled_app; [apply Hsettled |].
          intros after age Htask. apply Htasks in Htask. subst k.
          rewrite bool_decide_eq_true_2 in Hne by reflexivity. discriminate. }
        exists r, w', (evs1 ++ evs). split; [reflexivity |].
        split; [rewrite Ht, Ht1, app_assoc; reflexivity |].
        split; [congruence |]. rewrite client_calls_app. lia.
      * exists (Raise e), w1, evs1. split; [reflexivity |]. split; [exact Ht1 |].
        split; [exact Hk1 |]. lia.
Qed.

Lemma admission_passes user_id w :
  rate_limit_lets_through env config w user_id ->
  exists w2,
    admission env config user_id (ticked w) = (Ok tt, w2) /\
    trace w2 = trace w /\ cache w2 = cache w /\
    cache_connected w2 = cache_connected w /\ ai_models w2 = ai_models w /\
    match user_id with
    | Some uid =>
      if truthy user_id then
        requests w2
        = snd (is_allowed (rate_limit config) (requests w)
                 (time_time env (S (clock_reads w))) uid)
      else requests w2 = requests w
    | None => requests w2 = requests w
    end.
Proof.
  intros Hrate.
  destruct (admission_spec user_id (ticked w)) as (r & w2 & Hrun & Ht & Hc & Hcc & Hm & Hr).
  cbn [ticked trace cache cache_connected ai_models requests clock_reads] in *.
  unfold rate_limit_lets_through in Hrate.
  destruct user_id as [uid |].
  - destruct (truthy (Some uid)).
    + destruct (Hrate eq_refl) as [requests' Hallowed]. rewrite Hallowed in Hr.
      cbn [fst snd] in Hr. destruct Hr as [Hrq ->].
      exists w2. rewrite Hallowed. cbn [snd]. repeat split; assumption.
    + destruct Hr as [-> ->]. exists (ticked w). repeat split; assumption.
  - destruct Hr as [-> ->]. exists (ticked w). repeat split; assumption.
Qed.

Lemma valid_length (content : text) a :
  (Z.of_nat (length content) <= max_length a)%Z ->
  (max_length a <? Z.of_nat (length content))%Z = false.
Proof. intros H. apply Z.ltb_ge. exact H. Qed.
(** *** Outside the conditions of the properties above *)

(** A power of the backoff schedule out of the range of the floats:
    [OverflowError] leaves the loop of [_retry_with_backoff]. *)
Lemma retry_loop_overflows {A} (func : M A) :
  (forall w, exists e w', func w = (Raise e, w')) ->
  forall n attempt last w,
    (attempt + Z.of_nat n = max_retries (retry config) + 1)%Z ->
    (exists i, (attempt <= i < max_retries (retry config))%Z /\
               float_overflows (powerRZ (exponential_base (retry config)) i) = true) ->
    exists msg w', retry_loop config func n attempt last w = (Raise (OverflowError msg), w').
Proof.
  intros Hfunc. induction n as [| n IH]; intros attempt last w Hsum (i & Hi & Hover); [lia |].
  rewrite retry_loop_S. unfold try_except. destruct (Hfunc w) as (e & w1 & ->).
  cbn [any_exception]. rewrite (proj2 (Z.eqb_neq _ _)) by lia.
  unfold backoff_delay, float_pow.
  destruct (float_overflows (powerRZ (exponential_base (retry config)) attempt)) eqn:E.
  - unfold raise. eauto.
  - unfold bind at 1. rewrite sleep_run. apply IH; [lia |].
    exists i. split; [| exact Hover].
    assert (i <> attempt) by (intros ->; congruence). lia.
Qed.

(** With such a schedule, an accepted request on which every model call
    fails ends in [OverflowError]: [correct_essay] catches the exceptions of
    the service only around the primary model. *)
Lemma correct_essay_overflow_escapes content theme model_key user_id a td md w :
  all_models_fail env ->
  (Z.of_nat (length content) <= max_length a)%Z ->
  forallb (isspace (ucd env)) content = false ->
  rate_limit_lets_through env config w user_id ->
  cache_misses env w content theme a ->
  (exists i, (0 <= i < max_retries (retry config))%Z /\
             float_overflows (powerRZ (exponential_base (retry config)) i) = true) ->
  exists msg w',
    correct_essay env config content theme model_key user_id a td md w
    = (Raise (OverflowError msg), w').
Proof.
  intros Hfail Hlen Hblank Hrate Hmiss Hover.
  rewrite correct_essay_stages, (valid_length _ _ Hlen), Hblank.
  destruct (admission_passes user_id w Hrate) as (w2 & -> & Ht & Hc & Hcc & Hm & _).
  unfold serve. cbv zeta.
  unfold bind at 1. unfold _check_cache, bind at 1, get_world at 1, ret at 1.
  cbn beta iota.
  assert (Hnone :
    (if cache_connected w2
     then cache w2 !! _generate_cache_key env content theme (primary_model a) a
     else None) = None).
  { rewrite Hcc, Hc. destruct Hmiss as [-> | ->]; [reflexivity |].
    now destruct (cache_connected w). }
  rewrite Hnone. unfold try_except.
  match goal with
  | |- context [attempt_model env config ?st ?ck ?mk ?pr ?at' ?ui ?fb ?rs ?w0] =>
    pose proof (attempt_model_after st ck mk pr at' ui fb rs w0) as Hafter;
    destruct (retry_loop_overflows (_call_ai_model env mk pr at' ui)
                (fun w1 => match call_fails mk pr at' ui w1 (fun n p => Hfail n mk p) with
                           | ex_intro _ e (ex_intro _ w' (conj H _)) =>
                             ex_intro _ e (ex_intro _ w' H)
                           end)
                (Z.to_nat (max_retries (retry config) + 1)) 0%Z None w0)
      as (msg & w3 & Hrun)
  end.
  - destruct Hover as (i & Hi & _). lia.
  - exact Hover.
  - unfold _retry_with_backoff in Hafter. rewrite Hrun in Hafter. rewrite Hafter.
    cbn [is_AIServiceError]. eauto.
Qed.

(** The task created by a failed call is the youngest of the reset tasks. *)
Lemma reset_tasks_last evs key after :
  In (key, after, 0%R) (reset_tasks (evs ++ [ResetScheduled key after])).
Proof.
  induction evs as [| e evs IH]; [now left |].
  destruct e; cbn [app reset_tasks]; try exact IH. now right.
Qed.

Lemma models_get_resets_in keys ms k :
  In k keys ->
  models_get (fold_left _reset_model_availability keys ms) k
  = option_map (fun c => set_available c true) (models_get ms k).
Proof.
  revert ms. induction keys as [| k0 keys IH]; intros ms Hin; [destruct Hin |].
  cbn [fold_left].
  destruct (in_dec String.string_dec k keys) as [Hk | Hk].
  - rewrite (IH _ Hk), models_get_reset.
    destruct (models_get ms k) as [c |]; [| reflexivity]. cbn [option_map].
    now destruct (bool_decide (k = k0)).
  - rewrite (models_get_resets_other keys _ k Hk), models_get_reset.
    destruct Hin as [-> | Hin]; [| contradiction].
    now rewrite bool_decide_eq_true_2.
Qed.

(** A sleep of more than 300 seconds after a failed call lets the reset
    task run: the next attempt finds the model available and calls its
    client again. *)
Lemma retry_calls_again_after_reset key prompt a uid w mc :
  models_get (ai_models w) key = Some mc -> available mc = true ->
  model_fails env key ->
  max_retries (retry config) = 1%Z ->
  backoff_defined (retry config) ->
  (300 < Rmin (base_delay (retry config) * powerRZ (exponential_base (retry config)) 0)
              (max_delay (retry config)))%R ->
  exists e w' evs,
    _retry_with_backoff config (_call_ai_model env key prompt a uid) w = (Raise e, w') /\
    trace w' = trace w ++ evs /\ client_calls evs = 2%nat.
Proof.
  intros Hget Hav Hfail Hmax Hdef Hlong. unfold _retry_with_backoff.
  rewrite Hmax. change (Z.to_nat (1 + 1)) with 2%nat.
  rewrite retry_loop_S. unfold try_except.
  destruct (call_available key prompt a uid w mc Hget Hav) as [params Hcall].
  destruct (Hfail (length (trace w)) params) as [e He]. rewrite He in Hcall.
  destruct Hcall as (log & w1 & -> & [Hq1 _] & Ht1 & Hm1 & _ & _).
  cbn [any_exception]. rewrite Hmax. change (0 =? 1)%Z with false. cbv iota.
  rewrite (backoff_delay_defined config 0 Hdef) by lia.
  set (delay := Rmin (base_delay (retry config)
                      * powerRZ (exponential_base (retry config)) 0)
                     (max_delay (retry config))) in *.
  unfold bind at 1. rewrite sleep_run.
  match goal with
  | |- context [retry_loop config _ 1 _ _ ?w0] => set (w2 := w0)
  end.
  assert (Hdue : In key (resets_due (trace w1) delay)).
  { unfold resets_due. apply in_map_iff. exists (key, 300%Z, 0%R).
    split; [reflexivity |]. apply filter_In. split.
    - rewrite Ht1.
      change (CompletionCall key params :: log ++ [ResetScheduled key 300])
        with ((CompletionCall key params :: log) ++ [ResetScheduled key 300]).
      rewrite app_assoc. apply reset_tasks_last.
    - cbn [wakes_up]. pose proof (Rmax_r 0 delay).
      rewrite (proj2 (Rgeb_true _ _)) by lra.
      rewrite (proj2 (Rgtb_true _ _)) by lra. reflexivity. }
  assert (Hget2 : models_get (ai_models w2) key
                  = Some (set_available (set_available mc false) true)).
  { unfold w2. cbn [ai_models].
    rewrite (models_get_resets_in _ _ _ Hdue), Hm1, models_get_mark_same, Hget.
    reflexivity. }
  rewrite retry_loop_S. unfold try_except.
  destruct (call_available key prompt a uid w2 _ Hget2 eq_refl) as [params2 Hcall2].
  destruct (Hfail (length (trace w2)) params2) as [e2 He2]. rewrite He2 in Hcall2.
  destruct Hcall2 as (log2 & w3 & -> & [Hq2 _] & Ht3 & _).
  cbn [any_exception]. rewrite Hmax. change (0 + 1 =? 1)%Z with true. cbv iota.
  unfold raise. eexists _, w3, _. split; [reflexivity |]. split.
  { rewrite Ht3. unfold w2. cbn [trace]. rewrite Ht1, <- !app_assoc. reflexivity. }
  rewrite !client_calls_app.
  change (client_calls (CompletionCall key ?p :: ?l)) with (S (client_calls l)).
  rewrite !client_calls_app, Hq1, Hq2. reflexivity.
Qed.

End ServiceMore.

(** The default schedule sleeps 1, 2 and 4 seconds. *)
Lemma default_backoff_seconds : backoff_seconds AIService.default_retry = 7%R.
Proof.
  unfold backoff_seconds, backoff_delays.
  change (Z.to_nat (AIService.max_retries AIService.default_retry)) with 3%nat.
  cbn [seq map AIService.slept AIService.base_delay AIService.max_delay
       AIService.exponential_base AIService.default_retry].
  change (Z.of_nat 0) with 0%Z. change (Z.of_nat 1) with 1%Z. change (Z.of_nat 2) with 2%Z.
  assert (Hpowers : powerRZ 2 0 = 1%R /\ powerRZ 2 1 = 2%R /\ powerRZ 2 2 = 4%R)
    by (repeat split; simpl; lra).
  destruct Hpowers as (-> & -> & ->).
  rewrite !Rmin_left by lra. rewrite !Rmax_right by lra. lra.
Qed.

Lemma fresh_world_settled (key : string) : settled key (AIService.trace fresh_world).
Proof. intros after age []. Qed.

(** With the fallback response enabled, a request on which every model call
    fails still raises when the backoff schedule overflows. *)
Lemma correct_essay_raises_overflow :
  exists msg w',
    AIService.correct_essay down_env steep_config
      (u "Uma redação.") (u "Tema") "deepseek" None "full" None None fresh_world
    = (Raise (OverflowError msg), w').
Proof.
  apply correct_essay_overflow_escapes.
  - exact down_env_all_fail.
  - apply Z.leb_le. reflexivity.
  - reflexivity.
  - exact I.
  - left. reflexivity.
  - exists 2%Z. split; [cbn; lia |].
    cbn [AIService.retry AIService.exponential_base steep_config].
    unfold float_overflows. apply Rgeb_true.
    change (powerRZ (IZR (2 ^ 600)) 2) with (IZR (2 ^ 600) * (IZR (2 ^ 600) * 1))%R.
    rewrite Rmult_1_r, <- mult_IZR.
    rewrite Rabs_right
      by (apply Rle_ge, (IZR_le 0); apply Z.leb_le; vm_compute; reflexivity).
    apply Rle_ge, IZR_le. apply Z.leb_le. vm_compute. reflexivity.
Qed.

Lemma retry_never_calls_a_failed_model_again_witness :
  exists w' evs,
    AIService._retry_with_backoff AIService.default_service_config
      (AIService._call_ai_model down_env "llama_253b" [] "full" None) fresh_world
    = (Raise (AIServiceUnavailableError "Model llama_253b is currently unavailable"), w') /\
    AIService.trace w' = AIService.trace fresh_world ++ evs /\
    client_calls evs = 1%nat /\
    sleeps evs = backoff_delays AIService.default_retry 0 3 /\
    AIService.models_get (AIService.ai_models w') "llama_253b"
    = Some (AIService.set_available
              (registered "Llama 3.1 Nemotron Ultra 253B" "full_analysis") false).
Proof.
  apply (retry_never_calls_a_failed_model_again down_env AIService.default_service_config
           "llama_253b" [] "full" None fresh_world
           (registered "Llama 3.1 Nemotron Ultra 253B" "full_analysis")).
  - reflexivity.
  - reflexivity.
  - intros params. eexists. reflexivity.
  - simpl; lia.
  - exact default_backoff_defined.
  - change (AIService.retry AIService.default_service_config)
      with AIService.default_retry.
    rewrite default_backoff_seconds. lra.
  - apply fresh_world_settled.
Defined.

(** X11. The content is validated before anything else happens: a content
    over the length limit of the analysis type, or an empty or blank one, is
    refused with [AIServiceError], and neither the rate limiter, the cache,
    the models nor the trace have been touched. *)
Theorem correct_essay_rejects_invalid_content :
  forall (env : AIService.Env) (config : AIService.AIServiceConfig)
         (content theme : text) (model_key : string) (user_id : option string)
         (analysis_type : string) (theme_data metadata : option AIService.dict)
         (w : AIService.World),
    (max_length analysis_type < Z.of_nat (length content))%Z \/
    forallb (isspace (AIService.ucd env)) content = true ->
    exists msg w',
      AIService.correct_essay env config content theme model_key user_id analysis_type
                              theme_data metadata w
      = (Raise (AIServiceError msg), w') /\
      AIService.requests w' = AIService.requests w /\
      AIService.cache w' = AIService.cache w /\
      AIService.ai_models w' = AIService.ai_models w /\
      AIService.trace w' = AIService.trace w.
Proof.
  intros env config content theme model_key user_id a td md w Hbad.
  rewrite correct_essay_stages.
  destruct (max_length a <? Z.of_nat (length content))%Z eqn:Elen.
  - eexists _, _. split; [reflexivity |]. repeat split.
  - destruct Hbad as [Hlen | Hblank]; [apply Z.ltb_ge in Elen; lia |].
    rewrite Hblank. eexists _, _. split; [reflexivity |]. repeat split.
Qed.

Lemma correct_essay_rejects_invalid_content_witness :
  exists msg w',
    AIService.correct_essay up_env AIService.default_service_config
      (u "   ") (u "Tema") "deepseek" (Some "ana") "full" None None fresh_world
    = (Raise (AIServiceError msg), w') /\
    AIService.requests w' = AIService.requests fresh_world /\
    AIService.cache w' = AIService.cache fresh_world /\
    AIService.ai_models w' = AIService.ai_models fresh_world /\
    AIService.trace w' = AIService.trace fresh_world.
Proof.
  apply (correct_essay_rejects_invalid_content up_env AIService.default_service_config
           (u "   ") (u "Tema") "deepseek" (Some "ana") "full" None None fresh_world).
  right. reflexivity.
Defined.

(** X12. The rate limiter is asked before the cache: a valid request of a
    user whom the limiter denies ends in [RateLimitExceededError] with the
    limiter's waiting time, whatever the cache holds; no model is called and
    the cache is left as it was. *)
Theorem correct_essay_rate_limited :
  forall (env : AIService.Env) (config : AIService.AIServiceConfig)
         (content theme : text) (model_key uid : string)
         (analysis_type : string) (theme_data metadata : option AIService.dict)
         (w : AIService.World) (wait_time : option R) (requests' : gmap string (list R)),
    (Z.of_nat (length content) <= max_length analysis_type)%Z ->
    forallb (isspace (AIService.ucd env)) content = false ->
    uid <> "" ->
    RateLimiter.is_allowed (AIService.rate_limit config) (AIService.requests w)
      (AIService.time_time env (S (AIService.clock_reads w))) uid
    = (Ok (false, wait_time), requests') ->
    exists w',
      AIService.correct_essay env config content theme model_key (Some uid) analysis_type
                              theme_data metadata w
      = (Raise (RateLimitExceededError (default 0%R wait_time)), w') /\
      AIService.requests w' = requests' /\
      AIService.cache w' = AIService.cache w /\
      AIService.ai_models w' = AIService.ai_models w /\
      AIService.trace w' = AIService.trace w.
Proof.
  intros env config content theme model_key uid a td md w wt requests'
         Hlen Hblank Huid Hdenied.
  rewrite correct_essay_stages, (valid_length _ _ Hlen), Hblank.
  destruct (admission_spec env config (Some uid) (ticked w))
    as (r & w2 & -> & Ht & Hc & Hcc & Hm & Hr).
  assert (Htruthy : AIService.truthy (Some uid) = true)
    by (unfold AIService.truthy; now rewrite bool_decide_eq_false_2).
  rewrite Htruthy in Hr.
  cbn [ticked AIService.requests AIService.clock_reads] in Hr.
  rewrite Hdenied in Hr. cbn [fst snd] in Hr. destruct Hr as [Hrq ->].
  exists w2. split; [reflexivity |]. repeat split; assumption.
Qed.

Lemma busy_world_denied :
  RateLimiter.is_allowed RateLimiter.default_config (<["ana" := [0%R]]> ∅) 1 "ana"
  = (Ok (false, Some 59%R), <["ana" := [0%R]]> (<["ana" := [0%R]]> ∅)).
Proof.
  rewrite is_allowed_unfold. rewrite lookup_insert_eq.
  change (IZR (RateLimiter.window_size RateLimiter.default_config)) with 60%R.
  cbn [default from_option id]. unfold Datatypes.id.
  assert (Hk : List.filter (fun t => Rgtb t (1 - 60)) [0%R] = [0%R]).
  { simpl. now rewrite (proj2 (Rgtb_true _ _)) by lra. }
  rewrite Hk.
  cbn [length Z.of_nat RateLimiter.requests_per_minute RateLimiter.default_config Z.ltb
       Z.compare Pos.compare Pos.compare_cont Pos.of_succ_nat RateLimiter.py_min fold_left].
  rewrite Rmax_right by lra. repeat f_equal. lra.
Qed.

Lemma correct_essay_rate_limited_witness :
  exists w',
    AIService.correct_essay up_env AIService.default_service_config
      (u "Uma redação.") (u "Tema") "deepseek" (Some "ana") "full" None None busy_world
    = (Raise (RateLimitExceededError 59), w') /\
    AIService.requests w' = <["ana" := [0%R]]> (<["ana" := [0%R]]> ∅) /\
    AIService.cache w' = AIService.cache busy_world /\
    AIService.ai_models w' = AIService.ai_models busy_world /\
    AIService.trace w' = AIService.trace busy_world.
Proof.
  apply (correct_essay_rate_limited up_env AIService.default_service_config
           (u "Uma redação.") (u "Tema") "deepseek" "ana" "full" None None busy_world
           (Some 59%R) (<["ana" := [0%R]]> (<["ana" := [0%R]]> ∅))).
  - apply Z.leb_le. reflexivity.
  - reflexivity.
  - discriminate.
  - exact busy_world_denied.
Defined.

(** X13. A cache hit answers without the models, but not without the
    limiter: for an accepted request whose key is in the (connected) cache,
    the stored result is returned as it is, no event happens and cache and
    models stay as they were, while the limiter has recorded the request of
    a user with a non-empty id. *)
Theorem correct_essay_cache_hit :
  forall (env : AIService.Env) (config : AIService.AIServiceConfig)
         (content theme : text) (model_key : string) (user_id : option string)
         (analysis_type : string) (theme_data metadata : option AIService.dict)
         (w : AIService.World) (cached : AIService.CorrectionResult),
    (Z.of_nat (length content) <= max_length analysis_type)%Z ->
    forallb (isspace (AIService.ucd env)) content = false ->
    rate_limit_lets_through env config w user_id ->
    AIService.cache_connected w = true ->
    AIService.cache w
      !! AIService._generate_cache_key env content theme (primary_model analysis_type)
           analysis_type = Some cached ->
    exists w',
      AIService.correct_essay env config content theme model_key user_id analysis_type
                              theme_data metadata w
      = (Ok cached, w') /\
      AIService.trace w' = AIService.trace w /\
      AIService.cache w' = AIService.cache w /\
      AIService.ai_models w' = AIService.ai_models w /\
      match user_id with
      | Some uid =>
        if AIService.truthy user_id then
          AIService.requests w'
          = snd (RateLimiter.is_allowed (AIService.rate_limit config) (AIService.requests w)
                   (AIService.time_time env (S (AIService.clock_reads w))) uid)
        else AIService.requests w' = AIService.requests w
      | None => AIService.requests w' = AIService.requests w
      end.
Proof.
  intros env config content theme model_key user_id a td md w cached
         Hlen Hblank Hrate Hcc Hhit.
  rewrite correct_essay_stages, (valid_length _ _ Hlen), Hblank.
  destruct (admission_passes env config user_id w Hrate)
    as (w2 & -> & Ht & Hc & Hcc2 & Hm & Hrq).
  unfold serve. cbv zeta.
  unfold AIService.bind at 1.
  unfold AIService._check_cache, AIService.bind at 1, AIService.get_world at 1,
    AIService.ret at 1.
  cbn beta iota. rewrite Hcc2, Hcc, Hc, Hhit. unfold AIService.ret.
  exists w2. split; [reflexivity |]. repeat split; assumption.
Qed.

Lemma correct_essay_cache_hit_witness :
  exists w',
    AIService.correct_essay down_env AIService.default_service_config
      (u "Uma redação.") (u "Tema") "deepseek" (Some "ana") "full" None None warm_world
    = (Ok stored_result, w') /\
    AIService.trace w' = AIService.trace warm_world /\
    AIService.cache w' = AIService.cache warm_world /\
    AIService.ai_models w' = AIService.ai_models warm_world /\
    AIService.requests w'
    = snd (RateLimiter.is_allowed RateLimiter.default_config ∅ 1 "ana").
Proof.
  apply (correct_essay_cache_hit down_env AIService.default_service_config
           (u "Uma redação.") (u "Tema") "deepseek" (Some "ana") "full" None None
           warm_world stored_result).
  - apply Z.leb_le. reflexivity.
  - reflexivity.
  - intros _. eexists. apply is_allowed_under_limit.
    change (AIService.requests warm_world) with (∅ : gmap string (list R)).
    rewrite lookup_empty. simpl. lia.
  - reflexivity.
  - apply lookup_insert_eq.
Defined.

(** X14. What a request leaves in the cache. A request that raises leaves
    the cache as it was. A result that is returned is afterwards stored
    under the key of the request (when the cache is connected), unless it is
    the canned response (no model, no score), which is never stored. *)
Theorem correct_essay_cache_after :
  forall (env : AIService.Env) (config : AIService.AIServiceConfig)
         (content theme : text) (model_key : string) (user_id : option string)
         (analysis_type : string) (theme_data metadata : option AIService.dict)
         (w : AIService.World),
    exists r w',
      AIService.correct_essay env config content theme model_key user_id analysis_type
                              theme_data metadata w = (r, w') /\
      AIService.cache_connected w' = AIService.cache_connected w /\
      match r with
      | Ok res =>
        (if AIService.cache_connected w
         then AIService.cache w'
                !! AIService._generate_cache_key env content theme
                     (primary_model analysis_type) analysis_type = Some res
         else AIService.cache w' = AIService.cache w) \/
        (AIService.model_used res = None /\ AIService.is_fallback res = true /\
         AIService.score res = None /\ AIService.cache w' = AIService.cache w)
      | Raise e => AIService.cache w' = AIService.cache w
      end.
Proof.
  intros env config content theme model_key user_id a td md w.
  rewrite correct_essay_stages.
  destruct (max_length a <? Z.of_nat (length content))%Z.
  { eexists _, _. split; [reflexivity |]. split; reflexivity. }
  destruct (forallb (isspace (AIService.ucd env)) content).
  { eexists _, _. split; [reflexivity |]. split; reflexivity. }
  destruct (admission_spec env config user_id (ticked w))
    as (r & w2 & -> & Ht & Hc & Hcc & Hm & _).
  cbn [ticked AIService.cache AIService.cache_connected] in Hc, Hcc.
  destruct r as [[] | e].
  - destruct (serve_spec env config (AIService.time_time env (AIService.clock_reads w))
                content theme (primary_model a) user_id a td md w2)
      as (r & w' & evs & -> & _ & _ & Hcc' & _ & Hr).
    exists r, w'. split; [reflexivity |]. split; [congruence |].
    rewrite Hcc, Hc in Hr. exact Hr.
  - exists (Raise e), w2. split; [reflexivity |]. split; assumption.
Qed.

(** X15. A request calls the remote client at most once per registered
    model, as long as no model is reset while the request is served: when the
    reset tasks created before the request have all woken up and the whole
    backoff schedule sleeps less than the 300 seconds after which a failed
    model is reset, the events of a call of [correct_essay] hold no more
    client calls than the registry (a dictionary: its keys are pairwise
    distinct) has entries, however many retries are configured. *)
Theorem correct_essay_client_calls_bounded :
  forall (env : AIService.Env) (config : AIService.AIServiceConfig)
         (content theme : text) (model_key : string) (user_id : option string)
         (analysis_type : string) (theme_data metadata : option AIService.dict)
         (w : AIService.World),
    List.NoDup (map fst (AIService.ai_models w)) ->
    (forall key, settled key (AIService.trace w)) ->
    (backoff_seconds (AIService.retry config) < 300)%R ->
    exists r w' evs,
      AIService.correct_essay env config content theme model_key user_id analysis_type
                              theme_data metadata w = (r, w') /\
      AIService.trace w' = AIService.trace w ++ evs /\
      (client_calls evs <= length (AIService.ai_models w))%nat /\
      map fst (AIService.ai_models w') = map fst (AIService.ai_models w).
Proof.
  intros env config content theme model_key user_id a td md w Hnd Hsettled Hbudget.
  rewrite correct_essay_stages.
  destruct (max_length a <? Z.of_nat (length content))%Z.
  { eexists _, _, []. split; [reflexivity |]. rewrite app_nil_r.
    split; [reflexivity |]. split; [cbn; lia | reflexivity]. }
  destruct (forallb (isspace (AIService.ucd env)) content).
  { eexists _, _, []. split; [reflexivity |]. rewrite app_nil_r.
    split; [reflexivity |]. split; [cbn; lia | reflexivity]. }
  destruct (admission_spec env config user_id (ticked w))
    as (r & w2 & -> & Ht & _ & _ & Hm & _).
  cbn [ticked AIService.trace AIService.ai_models] in Ht, Hm.
  destruct r as [[] | e].
  - destruct (serve_timed env config (AIService.time_time env (AIService.clock_reads w))
                content theme (primary_model a) user_id a td md w2)
      as (r & w' & evs & -> & Ht' & Hk & Hcalls).
    + exact Hbudget.
    + now rewrite Hm.
    + intros key. rewrite Ht. apply Hsettled.
    + exists r, w', evs. split; [reflexivity |]. rewrite Ht', Ht, Hk, Hm.
      rewrite Hm in Hcalls. repeat split. exact Hcalls.
  - exists (Raise e), w2, []. split; [reflexivity |]. rewrite app_nil_r, Ht, Hm.
    repeat split. cbn; lia.
Qed.

Lemma correct_essay_client_calls_bounded_witness :
  exists r w' evs,
    AIService.correct_essay down_env AIService.default_service_config
      (u "Uma redação.") (u "Tema") "deepseek" None "full" None None fresh_world
    = (r, w') /\
    AIService.trace w' = AIService.trace fresh_world ++ evs /\
    (client_calls evs <= length (AIService.ai_models fresh_world))%nat /\
    map fst (AIService.ai_models w') = map fst (AIService.ai_models fresh_world).
Proof.
  apply (correct_essay_client_calls_bounded down_env AIService.default_service_config
           (u "Uma redação.") (u "Tema") "deepseek" None "full" None None fresh_world).
  - change (List.NoDup ["deepseek_14b"; "llama_253b"]).
    repeat (apply List.NoDup_cons;
            [intros Hin; cbn [In] in Hin; intuition discriminate |]).
    apply List.NoDup_nil.
  - apply fresh_world_settled.
  - change (AIService.retry AIService.default_service_config)
      with AIService.default_retry.
    rewrite default_backoff_seconds. lra.
Defined.





(** ** The enhanced orchestrator: every accepted run returns *)

Section EnhancedMore.
Import Enhanced.
Context (env : Env) (config : Config).








Lemma analyze_cache_hit content theme a user_id theme_data w cached :
  forallb (isspace (ucd env)) content = false ->
  forallb (isspace (ucd env)) theme = false ->
  cache_connected w = true ->
  cache w !! _generate_enhanced_cache_key env content theme a = Some cached ->
  exists w',
    analyze_enhanced_deep env config content theme a user_id theme_data w = (Ok cached, w') /\
    calls w' = calls w /\ requests w' = requests w /\ cache w' = cache w /\
    cache_connected w' = cache_connected w.
Proof.
  intros Hcontent Htheme Hcc Hhit.
  unfold analyze_enhanced_deep.
  unfold bind at 1. unfold now at 1, bind at 1, tick at 1, ret at 1. cbn beta iota.
  rewrite Hcontent, Htheme. cbv zeta.
  unfold bind at 1. unfold _check_enhanced_cache, bind at 1, get_world at 1, ret at 1.
  cbn beta iota. cbn [cache_connected cache]. rewrite Hcc, Hhit. unfold ret.
  eexists. split; [reflexivity |]. repeat split.
Qed.
End EnhancedMore.





(** X20. The enhanced analysis asks the cache before the rate limiter: a
    request with content and theme whose key is in the connected cache gets
    the stored result, whoever asks; the correction service is not called
    and the limiter's dictionary is not touched. *)
Theorem analyze_enhanced_deep_cache_hit :
  forall (env : Enhanced.Env) (config : Enhanced.Config)
         (content theme : text) (analysis_type : string)
         (user_id : option string) (theme_data : option AIService.dict)
         (w : Enhanced.World) (cached : Enhanced.EnhancedDeepAnalysisResult),
    forallb (isspace (Enhanced.ucd env)) content = false ->
    forallb (isspace (Enhanced.ucd env)) theme = false ->
    Enhanced.cache_connected w = true ->
    Enhanced.cache w
      !! Enhanced._generate_enhanced_cache_key env content theme analysis_type
    = Some cached ->
    exists w',
      Enhanced.analyze_enhanced_deep env config content theme analysis_type user_id
        theme_data w = (Ok cached, w') /\
      Enhanced.calls w' = Enhanced.calls w /\
      Enhanced.requests w' = Enhanced.requests w /\
      Enhanced.cache w' = Enhanced.cache w.
Proof.
  intros env config content theme a user_id theme_data w cached Hcontent Htheme Hcc Hhit.
  destruct (analyze_cache_hit env config content theme a user_id theme_data w cached
              Hcontent Htheme Hcc Hhit) as (w' & Hrun & Hcalls & Hrq & Hcache & _).
  exists w'. repeat split; assumption.
Qed.

Lemma analyze_enhanced_deep_cache_hit_witness :
  exists w',
    Enhanced.analyze_enhanced_deep timing_out_env Enhanced.default_config
      (u "Uma redação.") (u "Tema") "full" (Some "ana") None warm_run
    = (Ok stored_enhanced, w') /\
    Enhanced.calls w' = Enhanced.calls warm_run /\
    Enhanced.requests w' = Enhanced.requests warm_run /\
    Enhanced.cache w' = Enhanced.cache warm_run.
Proof.
  apply (analyze_enhanced_deep_cache_hit timing_out_env Enhanced.default_config
           (u "Uma redação.") (u "Tema") "full" (Some "ana") None warm_run stored_enhanced).
  - reflexivity.
  - reflexivity.
  - reflexivity.
  - apply lookup_insert_eq.
Defined.



(** ** The single-phase orchestrator *)

Section DeepServiceFacts.
Import DeepService.
Context (env : Env) (config : Config).

Lemma analyze_with_model_spec key content theme a w :
  exists r w',
    _analyze_with_model env config key content theme a w = (Ok r, w') /\
    model r = key /\
    calls w' = calls w ++ [deep_call config content theme a key] /\
    success r = answered (correct_essay env (length (calls w))
                            (deep_call config content theme a key)) /\
    well_formed r.
Proof.
  unfold _analyze_with_model.
  unfold bind at 1. unfold now at 1, bind at 1, tick at 1, ret at 1. cbn beta iota.
  unfold call_correct_essay. unfold bind at 1. unfold record_call at 1.
  cbn beta iota. cbn [calls].
  fold (deep_call config content theme a key).
  destruct (correct_essay env (length (calls w)) (deep_call config content theme a key))
    as [r | e].
  - unfold ret at 1. cbn beta iota.
    unfold bind, now, utcnow, bind, tick, ret. cbn beta iota.
    eexists _, _. split; [reflexivity |]. unfold well_formed.
    cbn [model calls success feedback score error answered]. repeat split.
  - unfold raise at 1. cbn beta iota. cbv zeta.
    unfold bind, now, utcnow, bind, tick, ret. cbn beta iota.
    eexists _, _. split; [reflexivity |]. unfold well_formed.
    cbn [model calls success feedback score error answered]. repeat split. discriminate.
Qed.

Lemma gather_results_spec content theme a :
  forall keys w,
    exists rs w',
      gather_results
        (map (fun model_key => _analyze_with_model env config model_key content theme a)
             keys) w = (Ok rs, w') /\
      map model rs = keys /\
      calls w' = calls w ++ map (deep_call config content theme a) keys /\
      Forall well_formed rs.
Proof.
  induction keys as [| key keys IH]; intros w.
  - exists [], w. cbn [map gather_results]. unfold ret. rewrite app_nil_r.
    repeat split. constructor.
  - cbn [map gather_results].
    destruct (analyze_with_model_spec key content theme a w)
      as (r & w1 & -> & Hm & Hc & _ & Hwf).
    destruct (IH w1) as (rs & w' & Hrun & Hms & Hcs & Hwfs).
    unfold bind. rewrite Hrun. unfold ret.
    exists (r :: rs), w'. split; [reflexivity |]. cbn [map].
    split; [now rewrite Hm, Hms |].
    split; [rewrite Hcs, Hc, <- app_assoc; reflexivity |].
    now constructor.
Qed.

Lemma length_slice_to {A} (n : Z) (l : list A) :
  (0 <= n)%Z -> (Z.of_nat (length (slice_to n l)) <= n)%Z.
Proof.
  intros Hn. unfold slice_to. rewrite (proj2 (Z.leb_le 0 n) Hn).
  rewrite length_firstn. lia.
Qed.

Lemma filter_partition_length {A} (f : A -> bool) (l : list A) :
  (length (List.filter f l) + length (List.filter (fun x => negb (f x)) l)
   = length l)%nat.
Proof.
  induction l as [| x l IH]; [reflexivity |]. cbn [List.filter].
  destruct (f x); cbn [negb length]; lia.
Qed.
End DeepServiceFacts.

(** X22. [_run_multiple_models] raises [AIServiceError] when no registered
    model is available, and this is the only way it raises. Otherwise it
    returns one result per selected model, in registry order: the selected
    models are the first [max_concurrent_models] available ones, each is
    called once with no user id (so no rate limit applies), and every
    result is either a success without error or a failure with an error
    message and neither score nor feedback. *)
Theorem run_multiple_models_shape :
  forall (env : DeepService.Env) (config : DeepAnalysis.Config)
         (ai_models : list (string * AIService.ModelConfig))
         (content theme : text) (analysis_type : string) (w : DeepService.World),
    let available :=
      map fst (List.filter (fun kc => AIService.available (snd kc)) ai_models) in
    let selected := DeepService.slice_to (DeepAnalysis.max_concurrent_models config)
                                         available in
    match available with
    | [] =>
      DeepService._run_multiple_models env config ai_models content theme analysis_type w
      = (Raise (AIServiceError "No AI models available for deep analysis"), w)
    | _ =>
      exists results w',
        DeepService._run_multiple_models env config ai_models content theme analysis_type w
        = (Ok results, w') /\
        map DeepAnalysis.model results = selected /\
        DeepService.calls w'
        = DeepService.calls w ++ map (deep_call config content theme analysis_type) selected /\
        Forall (fun c => DeepService.call_user_id c = None)
               (skipn (length (DeepService.calls w)) (DeepService.calls w')) /\
        Forall well_formed results
    end.
Proof.
  intros env config ai_models content theme a w available selected.
  unfold DeepService._run_multiple_models. fold available. cbv zeta.
  destruct available as [| k ks] eqn:Eav; [reflexivity |].
  fold selected.
  destruct (gather_results_spec env config content theme a selected w)
    as (rs & w' & Hrun & Hm & Hc & Hwf).
  exists rs, w'. split; [exact Hrun |]. split; [exact Hm |]. split; [exact Hc |].
  split; [| exact Hwf].
  rewrite Hc, drop_app_length. apply List.Forall_forall. intros c Hin.
  apply in_map_iff in Hin as (key & <- & _). reflexivity.
Qed.





(** X24. The reliability report adds up: the successful and the failed
    models together are the models attempted, the success rate lies between
    0 and 100 and is 100 exactly when results exist and none failed, and
    there are between one and three recommendations. *)
Theorem reliability_report_adds_up :
  forall (results : list DeepAnalysis.ModelResult) (m : DeepAnalysis.ConsensusMetrics),
    let report := DeepService._generate_reliability_report results m in
    (DeepService.successful_models report + DeepService.failed_models report
     = DeepService.total_models_attempted report)%Z /\
    (0 <= DeepService.success_rate report <= 100)%R /\
    (DeepService.success_rate report = 100%R <->
     results <> [] /\ DeepService.failed_models report = 0%Z) /\
    (1 <= length (DeepService.recommendations report) <= 3)%nat.
Proof.
  intros results m report. unfold report, DeepService._generate_reliability_report.
  cbv zeta.
  cbn [DeepService.successful_models DeepService.failed_models
       DeepService.total_models_attempted DeepService.success_rate
       DeepService.recommendations].
  rewrite !length_map.
  pose proof (filter_partition_length DeepAnalysis.success results) as Hpart.
  set (ok := length (List.filter DeepAnalysis.success results)) in *.
  set (ko := length (List.filter (fun r => negb (DeepAnalysis.success r)) results)) in *.
  split; [lia |].
  assert (Hrec : (1 <= length (DeepService._generate_reliability_recommendations m) <= 3)%nat).
  { unfold DeepService._generate_reliability_recommendations.
    rewrite !length_app. cbn [length].
    destruct (DeepAnalysis.outlier_models m); destruct (Rgtb _ 100); cbn [length]; lia. }
  destruct results as [| r rest] eqn:Er.
  - split; [lra |]. split; [| exact Hrec].
    split; [intros H; lra | intros [H _]; congruence].
  - assert (Hne : (0 < length (r :: rest))%nat) by (cbn [length]; lia).
    set (all := r :: rest) in *.
    assert (Hn : (0 < INR (length all))%R) by (apply lt_0_INR; exact Hne).
    assert (Hok : (0 <= INR ok <= INR (length all))%R).
    { split; [apply pos_INR | apply le_INR; lia]. }
    assert (Hrate : (INR ok / INR (length all) * 100
                     = 100 * INR ok / INR (length all))%R) by (field; lra).
    rewrite Hrate.
    split.
    { split.
      - apply Rmult_le_reg_r with (r := INR (length all)); [exact Hn |].
        replace (100 * INR ok / INR (length all) * INR (length all))%R
          with (100 * INR ok)%R by (field; lra). lra.
      - apply Rmult_le_reg_r with (r := INR (length all)); [exact Hn |].
        replace (100 * INR ok / INR (length all) * INR (length all))%R
          with (100 * INR ok)%R by (field; lra). lra. }
    split; [| exact Hrec].
    split.
    + intros H. split; [discriminate |].
      assert (E : INR ok = INR (length all)).
      { apply Rmult_eq_compat_r with (r := INR (length all)) in H.
        replace (100 * INR ok / INR (length all) * INR (length all))%R
          with (100 * INR ok)%R in H by (field; lra). lra. }
      apply INR_eq in E. lia.
    + intros [_ H]. assert (E : ok = length all) by lia. rewrite E. field. lra.
Qed.

(** ** What is cached is what is read back *)

Section WireFacts.
Import Wire.

Lemma optional_float_round_trip key (x : option R) :
  as_optional_float key (of_optional_float x) = Decoded x.
Proof. now destruct x. Qed.

Lemma optional_string_round_trip key (s : option string) :
  as_optional_string key (of_optional_string s) = Decoded s.
Proof. now destruct s. Qed.

Lemma phase1_model_result_round_trip (r : option Enhanced.Phase1ModelResult) :
  EnhancedWire._deserialize_model_result (EnhancedWire._serialize_model_result r)
  = Decoded r.
Proof.
  destruct r as [[m f s t ts e ok raw] |]; [| reflexivity].
  unfold EnhancedWire._deserialize_model_result, EnhancedWire._serialize_model_result.
  cbn [falsy Enhanced.model Enhanced.feedback Enhanced.score Enhanced.processing_time
       Enhanced.timestamp Enhanced.error Enhanced.success Enhanced.raw_output].
  destruct s, e; reflexivity.
Qed.

Lemma each_string_round_trip key (l : list string) :
  each (as_string key) (map PStr l) = Decoded l.
Proof.
  induction l as [| s l IH]; [reflexivity |].
  cbn [map each as_string bind]. rewrite IH. reflexivity.
Qed.

Lemma model_result_round_trip (mr : DeepAnalysis.ModelResult) :
  DeepWire.deserialize_model_result (DeepWire.serialize_model_result mr) = Decoded mr.
Proof.
  destruct mr as [m f s t ts e ok].
  unfold DeepWire.deserialize_model_result, DeepWire.serialize_model_result.
  cbn [DeepAnalysis.model DeepAnalysis.feedback DeepAnalysis.score
       DeepAnalysis.processing_time DeepAnalysis.timestamp DeepAnalysis.error
       DeepAnalysis.success].
  destruct s, e; reflexivity.
Qed.

Lemma each_model_result_round_trip (l : list DeepAnalysis.ModelResult) :
  each DeepWire.deserialize_model_result (map DeepWire.serialize_model_result l)
  = Decoded l.
Proof.
  induction l as [| mr l IH]; [reflexivity |].
  cbn [map each]. rewrite model_result_round_trip. cbn [bind]. rewrite IH. reflexivity.
Qed.

Lemma item_here key v d : item (PDict ((key, v) :: d)) key = Decoded v.
Proof. unfold item. cbn [lookup]. now rewrite bool_decide_eq_true_2. Qed.

Lemma item_next key k v d :
  k <> key -> item (PDict ((k, v) :: d)) key = item (PDict d) key.
Proof. intros H. unfold item. cbn [lookup]. now rewrite bool_decide_eq_false_2. Qed.

Lemma reliability_value_round_trip (l : DeepAnalysis.AnalysisReliability) :
  DeepWire.reliability_of_value (DeepWire.reliability_value l) = Decoded l.
Proof. now destruct l. Qed.
End WireFacts.

(** X25. The cache of the enhanced analysis loses nothing: reading back
    what [_serialize_enhanced_result] writes gives the result that was
    written, for every result, whether its Phase-1 entries are present or
    [None] and its scores and errors set or not. *)
Theorem enhanced_result_round_trip :
  forall r : Enhanced.EnhancedDeepAnalysisResult,
    EnhancedWire._deserialize_enhanced_result (EnhancedWire._serialize_enhanced_result r)
    = Wire.Decoded r.
Proof.
  intros [hash theme atype exam [k q d t1 n] [fb fs lvl t2 ts2 e2 ok2] total ts key].
  unfold EnhancedWire._deserialize_enhanced_result, EnhancedWire._serialize_enhanced_result.
  cbn [Enhanced.content_hash Enhanced.theme Enhanced.analysis_type Enhanced.exam_type
       Enhanced.phase1_results Enhanced.phase2_result Enhanced.total_processing_time
       Enhanced.e_timestamp Enhanced.cache_key Enhanced.kimi_result Enhanced.qwen_result
       Enhanced.deepseek_result Enhanced.p1_processing_time Enhanced.successful_models
       Enhanced.consolidated_feedback Enhanced.final_score Enhanced.reliability_level
       Enhanced.p2_processing_time Enhanced.p2_timestamp Enhanced.p2_error
       Enhanced.p2_success].
  change (Wire.item (Wire.PDict ?l) "phase1_results")
    with (Wire.Decoded (Wire.PDict
            [("kimi_result", EnhancedWire._serialize_model_result k);
             ("qwen_result", EnhancedWire._serialize_model_result q);
             ("deepseek_result", EnhancedWire._serialize_model_result d);
             ("processing_time", Wire.PFloat t1);
             ("successful_models", Wire.PInt n)])).
  cbn [Wire.bind].
  change (Wire.get (Wire.PDict ?l) "kimi_result" Wire.PNone)
    with (Wire.Decoded (EnhancedWire._serialize_model_result k)).
  cbn [Wire.bind]. rewrite phase1_model_result_round_trip. cbn [Wire.bind].
  change (Wire.get (Wire.PDict ?l) "qwen_result" Wire.PNone)
    with (Wire.Decoded (EnhancedWire._serialize_model_result q)).
  cbn [Wire.bind]. rewrite phase1_model_result_round_trip. cbn [Wire.bind].
  change (Wire.get (Wire.PDict ?l) "deepseek_result" Wire.PNone)
    with (Wire.Decoded (EnhancedWire._serialize_model_result d)).
  cbn [Wire.bind]. rewrite phase1_model_result_round_trip. cbn [Wire.bind].
  destruct fs, e2; reflexivity.
Qed.

(** X26. The cache of the single-phase analysis loses nothing either:
    [_deserialize_deep_result] gives back every result that
    [_serialize_deep_result] has written, with its list of model results,
    its consensus metrics (the reliability level goes through its string
    value) and its report. *)
Theorem deep_result_round_trip :
  forall r : DeepWire.DeepAnalysisResult,
    DeepWire._deserialize_deep_result (DeepWire._serialize_deep_result r) = Wire.Decoded r.
Proof.
  intros [hash theme atype results [v sd ag lvl out cs] fs ff report t ts key].
  unfold DeepWire._deserialize_deep_result, DeepWire._serialize_deep_result.
  cbn [DeepWire.content_hash DeepWire.theme DeepWire.analysis_type DeepWire.model_results
       DeepWire.consensus_metrics DeepWire.final_score DeepWire.final_feedback
       DeepWire.reliability_report DeepWire.result_processing_time
       DeepWire.result_timestamp DeepWire.cache_key
       DeepAnalysis.score_variance DeepAnalysis.score_std_dev
       DeepAnalysis.agreement_percentage DeepAnalysis.reliability_level
       DeepAnalysis.outlier_models DeepAnalysis.consensus_score].
  repeat first
    [ rewrite item_here
    | rewrite item_next by discriminate
    | rewrite each_model_result_round_trip
    | rewrite each_string_round_trip
    | rewrite reliability_value_round_trip
    | rewrite optional_float_round_trip
    | progress cbn [Wire.bind Wire.as_list Wire.as_float Wire.as_string Wire.as_text] ].
  reflexivity.
Qed.

(** ** Score extraction: the values it can give *)

Section ScoreMore.
Import Re Score.
Context (ucd : Unicode).

Lemma first_match_some {B} ps s (f : list text * text -> B) b :
  first_match ucd ps s f = Some b -> exists m, b = f m.
Proof.
  induction ps as [| p ps IH]; [discriminate |].
  cbn [first_match]. destruct (search ucd p s) as [m |].
  - intros H. injection H as <-. eauto.
  - exact IH.
Qed.

Lemma first_match_none_inv {B} ps s (f : list text * text -> B) :
  first_match ucd ps s f = None -> forall p, In p ps -> search ucd p s = None.
Proof.
  induction ps as [| p ps IH]; [intros _ q [] |].
  cbn [first_match]. destruct (search ucd p s) as [m |] eqn:E; [discriminate |].
  intros H q [<- | Hq]; [exact E | now apply IH].
Qed.

Lemma dict_get_scale (key : text) : In (dict_get quality_scores key 400) scale_values.
Proof.
  unfold quality_scores, scale_values. cbn [dict_get].
  repeat match goal with
         | |- context [bool_decide ?P] => destruct (bool_decide P)
         end; cbn [In]; auto 10.
Qed.

(** Greedy repetition over a run of the class that ends the text or is
    followed by a character outside the class. *)
Lemma star_greedy {A} (p : N -> bool) (k : text -> option A) ds rest a :
  Forall (fun c => p c = true) ds ->
  match rest with [] => True | c :: _ => p c = false end ->
  k rest = Some a ->
  star p k (ds ++ rest) = Some a.
Proof.
  intros Hds Hrest Hk. induction Hds as [| c ds Hc _ IH].
  - cbn [app]. destruct rest as [| c rest]; [exact Hk |].
    cbn [star]. now rewrite Hrest.
  - cbn [app star]. now rewrite Hc, IH.
Qed.

Lemma run_lits {A} (l : text) (k : text -> list text -> option A) s caps :
  (forall c, ignorecase ucd c c = true) ->
  run ucd (lits l) k (l ++ s) caps = k s caps.
Proof.
  intros Hrefl. revert k. induction l as [| c l IH]; intros k; [reflexivity |].
  change (lits (c :: l)) with (Cat (Lit c) (lits l)).
  cbn [run app]. rewrite Hrefl. apply IH.
Qed.

Lemma firstn_prefix (ds rest : text) :
  firstn (length (ds ++ rest) - length rest) (ds ++ rest) = ds.
Proof.
  rewrite length_app. replace (length ds + length rest - length rest)%nat
    with (length ds) by lia.
  rewrite firstn_app, Nat.sub_diag, firstn_all. cbn [firstn]. apply app_nil_r.
Qed.

(** The first pattern of full mode on a score written in its format. *)
Lemma match_written_score (ds : text) :
  plain_tables ucd -> digit_run ucd ds ->
  match_at ucd
    (Cat (lits (u "NOTA FINAL:")) (Cat WsStar (Cat (Group Digits) (lits (u "/1000")))))
    (u "NOTA FINAL:" ++ [32%N] ++ ds ++ u "/1000")
  = Some ([ds], []).
Proof.
  intros (Hrefl & Hspace & Hslash & Hdigit) (Hne & Hds).
  unfold match_at. cbn [run]. rewrite run_lits by exact Hrefl.
  cbn [run].
  destruct ds as [| d ds']; [congruence |].
  inversion Hds as [| ? ? Hd Hds']; subst.
  apply (star_greedy (isspace ucd) _ [32%N] ((d :: ds') ++ u "/1000")).
  - constructor; [exact Hspace | constructor].
  - cbn [app]. apply Hdigit, Hd.
  - cbn [app plus]. rewrite bool_decide_eq_true_2 by exact Hd.
    apply (star_greedy (fun x => bool_decide (is_Some (decimal ucd x))) _ ds' (u "/1000")).
    + apply (List.Forall_impl _ (P := fun c => is_Some (decimal ucd c))); [| exact Hds'].
      intros c Hc. now apply bool_decide_eq_true_2.
    + change (u "/1000") with (47%N :: u "1000").
      apply bool_decide_eq_false_2. rewrite Hslash. intros [x Hx]. discriminate.
    + change (d :: ds' ++ u "/1000") with ((d :: ds') ++ u "/1000").
      rewrite firstn_prefix.
      pose proof (run_lits (u "/1000") (fun s' caps => Some (caps, s')) []
                           [d :: ds'] Hrefl) as Hrun.
      rewrite app_nil_r in Hrun. exact Hrun.
Qed.
End ScoreMore.

(** X27. In paragraph mode every feedback that is not empty gets one of the
    five values of the scale, 200, 400, 600, 800 or 1000, whatever the text
    and the Unicode tables are: the average over several assessments, which
    the code provides for, never produces another value. *)
Theorem extract_score_paragraph_on_scale :
  forall (ucd : Unicode) (feedback : text),
    feedback <> [] ->
    exists value,
      In value scale_values /\
      Score._extract_score ucd feedback "paragraph" = Some (IZR value).
Proof.
  intros ucd feedback Hne. unfold Score._extract_score.
  destruct feedback as [| c rest]; [congruence |].
  rewrite bool_decide_eq_true_2 by reflexivity.
  destruct (Score.first_match ucd Score.paragraph_patterns (c :: rest)
              (fun m => IZR (Score.dict_get Score.quality_scores (Re.group m 1) 400)))
    as [score |] eqn:Efirst.
  - destruct (first_match_some ucd _ _ _ _ Efirst) as [m ->].
    eexists. split; [apply dict_get_scale | reflexivity].
  - pose proof (first_match_none_inv ucd _ _ _ Efirst) as Hnone.
    unfold Re.findall.
    rewrite (findall_from_none ucd) by (apply Hnone; right; left; reflexivity).
    exists 400%Z. split; [right; left; reflexivity | reflexivity].
Qed.

Lemma extract_score_paragraph_on_scale_witness :
  exists value,
    In value scale_values /\
    Score._extract_score latin (u "ok") "paragraph" = Some (IZR value).
Proof.
  apply (extract_score_paragraph_on_scale latin (u "ok")). discriminate.
Defined.

(** X28. In full mode a score written as "NOTA FINAL: <digits>/1000" is
    read as the float of the number the digits spell, which is that number
    itself when it is below 2^53: nothing keeps the extracted score within
    0 to 1000. *)
Theorem extract_score_reads_written_score :
  forall (ucd : Unicode) (ds : text) (analysis_type : string),
    plain_tables ucd ->
    digit_run ucd ds ->
    analysis_type <> "paragraph" ->
    Score._extract_score ucd (u "NOTA FINAL: " ++ ds ++ u "/1000") analysis_type
    = Some (float_of_Z (Score.digits_value ucd ds)) /\
    ((Score.digits_value ucd ds < 2 ^ 53)%Z ->
     Score._extract_score ucd (u "NOTA FINAL: " ++ ds ++ u "/1000") analysis_type
     = Some (IZR (Score.digits_value ucd ds))).
Proof.
  intros ucd ds a Htables Hds Ha.
  assert (Hread : Score._extract_score ucd (u "NOTA FINAL: " ++ ds ++ u "/1000") a
                  = Some (float_of_Z (Score.digits_value ucd ds))).
  { change (u "NOTA FINAL: ") with (u "NOTA FINAL:" ++ [32%N]).
    rewrite <- app_assoc.
    pose proof (match_written_score ucd ds Htables Hds) as Hmatch.
    unfold Score._extract_score.
    destruct (u "NOTA FINAL:" ++ [32%N] ++ ds ++ u "/1000") as [| c rest] eqn:Etext;
      [discriminate |].
    rewrite bool_decide_eq_false_2 by exact Ha.
    unfold Score.full_patterns. cbn [Score.first_match].
    assert (Hsearch :
      Re.search ucd
        (Re.Cat (Re.lits (u "NOTA FINAL:"))
                (Re.Cat Re.WsStar (Re.Cat (Re.Group Re.Digits) (Re.lits (u "/1000")))))
        (c :: rest) = Some ([ds], [])).
    { cbn [Re.search]. now rewrite Hmatch. }
    rewrite Hsearch. reflexivity. }
  split; [exact Hread |].
  intros Hsmall. rewrite Hread. unfold float_of_Z.
  now rewrite (proj2 (Z.ltb_lt _ _) Hsmall).
Qed.

Lemma latin_plain_tables : plain_tables latin.
Proof.
  split; [| split; [reflexivity | split; [reflexivity |]]].
  - intros c. cbn [ignorecase latin]. unfold latin_ignorecase. cbv zeta.
    now rewrite N.eqb_refl.
  - intros c [x Hx]. cbn [decimal isspace latin] in *. unfold latin_decimal in Hx.
    destruct ((48 <=? c) && (c <=? 57))%N eqn:E; [| discriminate].
    apply andb_true_iff in E as [E1 E2].
    apply N.leb_le in E1, E2.
    assert (Hc : (c = 48 \/ c = 49 \/ c = 50 \/ c = 51 \/ c = 52 \/ c = 53 \/ c = 54
                  \/ c = 55 \/ c = 56 \/ c = 57)%N) by lia.
    repeat destruct Hc as [-> | Hc]; try subst c; reflexivity.
Qed.

Lemma extract_score_reads_written_score_witness :
  Score._extract_score latin (u "NOTA FINAL: " ++ u "5000" ++ u "/1000") "full"
  = Some 5000%R.
Proof.
  apply (extract_score_reads_written_score latin (u "5000") "full").
  - exact latin_plain_tables.
  - split; [discriminate |]. repeat constructor; eexists; reflexivity.
  - discriminate.
  - apply Z.ltb_lt. reflexivity.
Defined.

(** ** Failure and recovery of a model *)

Section RecoveryFacts.
Import AIService Recovery.

Lemma set_available_back (c : ModelConfig) :
  available c = true -> set_available (set_available c false) true = c.
Proof. destruct c. cbn. now intros ->. Qed.

Lemma models_get_in ms key c :
  List.NoDup (map fst ms) -> In (key, c) ms -> models_get ms key = Some c.
Proof.
  induction ms as [| [k c'] ms IH]; intros Hnd Hin; [destruct Hin |].
  cbn [map fst] in Hnd. inversion Hnd as [| ? ? Hnotin Hnd']; subst.
  cbn [models_get]. destruct Hin as [E | Hin].
  - injection E as -> ->. now rewrite bool_decide_eq_true_2.
  - rewrite bool_decide_eq_false_2; [now apply IH |].
    intros ->. apply Hnotin. apply in_map_iff. now exists (key, c).
Qed.

Lemma reset_after_mark ms key mc :
  List.NoDup (map fst ms) -> models_get ms key = Some mc -> available mc = true ->
  _reset_model_availability (mark_unavailable ms key) key = ms.
Proof.
  intros Hnd Hget Hav.
  unfold Recovery._reset_model_availability, AIService._reset_model_availability,
    mark_unavailable.
  rewrite map_map. rewrite <- (map_id ms) at 2. apply map_ext_in.
  intros [k c] Hin. cbn [fst snd].
  destruct (bool_decide (k = key)) eqn:E; cbn [fst snd]; rewrite E; [| reflexivity].
  apply bool_decide_eq_true in E. subst k.
  rewrite (models_get_in ms key c Hnd Hin) in Hget. injection Hget as ->.
  now rewrite set_available_back.
Qed.
End RecoveryFacts.

(** X29. The circuit breaker opens and closes without a trace. When the
    remote call of a registered, available model fails, [_call_ai_model]
    raises [AIServiceUnavailableError], leaves the model closed to further
    calls and schedules its reset after 300 seconds; once that reset has
    run, the registry is exactly what it was before the call. *)
Theorem failed_call_is_undone_by_reset :
  forall (env : AIService.Env) (key : string) (prompt : text) (analysis_type : string)
         (user_id : option string) (w : AIService.World) (mc : AIService.ModelConfig),
    List.NoDup (map fst (AIService.ai_models w)) ->
    AIService.models_get (AIService.ai_models w) key = Some mc ->
    AIService.available mc = true ->
    (forall params, exists e,
       AIService.completions_create env (length (AIService.trace w)) key params = Raise e) ->
    exists msg w',
      AIService._call_ai_model env key prompt analysis_type user_id w
      = (Raise (AIServiceUnavailableError msg), w') /\
      closed (AIService.ai_models w') key /\
      In (AIService.ResetScheduled key 300) (AIService.trace w') /\
      Recovery._reset_model_availability (AIService.ai_models w') key
      = AIService.ai_models w.
Proof.
  intros env key prompt a uid w mc Hnd Hget Hav Hfail.
  destruct (call_available env key prompt a uid w mc Hget Hav) as [params Hcall].
  destruct (Hfail params) as [e He]. rewrite He in Hcall.
  destruct Hcall as (log & w' & Hrun & _ & Ht & Hm & _).
  eexists _, w'. split; [exact Hrun |]. rewrite Hm, Ht.
  split; [apply closed_mark_unavailable |]. split.
  - apply in_or_app. right. right. apply in_or_app. right. now left.
  - exact (reset_after_mark _ _ _ Hnd Hget Hav).
Qed.

Lemma failed_call_is_undone_by_reset_witness :
  exists msg w',
    AIService._call_ai_model down_env "llama_253b" [] "full" None fresh_world
    = (Raise (AIServiceUnavailableError msg), w') /\
    closed (AIService.ai_models w') "llama_253b" /\
    In (AIService.ResetScheduled "llama_253b" 300) (AIService.trace w') /\
    Recovery._reset_model_availability (AIService.ai_models w') "llama_253b"
    = AIService.ai_models fresh_world.
Proof.
  apply (failed_call_is_undone_by_reset down_env "llama_253b" [] "full" None fresh_world
           (registered "Llama 3.1 Nemotron Ultra 253B" "full_analysis")).
  - change (List.NoDup ["deepseek_14b"; "llama_253b"]).
    apply List.NoDup_cons; [intros [H | []]; discriminate |].
    apply List.NoDup_cons; [intros [] | apply List.NoDup_nil].
  - reflexivity.
  - reflexivity.
  - intros params. eexists. reflexivity.
Defined.

(** ** The synthesis prompt meets the length limit of the correction service *)

Lemma synthesis_prompt_length content theme exam_type phase1_outputs :
  (2055 + Z.of_nat (length content)
   <= Z.of_nat (length (Enhanced._create_synthesis_prompt content theme exam_type
                          phase1_outputs)))%Z.
Proof.
  unfold Enhanced._create_synthesis_prompt. cbv zeta. rewrite !length_app.
  rewrite !Nat2Z.inj_add.
  repeat match goal with
         | |- context [Z.of_nat (length (u ?s))] =>
           let n := eval vm_compute in (Z.of_nat (length (u s))) in
           replace (Z.of_nat (length (u s))) with n by (vm_compute; reflexivity)
         end.
  lia.
Qed.

(** X30. Phase 2 sends its synthesis prompt through [correct_essay] as the
    essay content, with the analysis type "synthesis", so the limit of
    10,000 characters for essays applies to the prompt. The fixed text of
    the prompt has 2,055 characters: for every essay of more than 7,945
    characters the synthesis call is refused with [AIServiceError] before
    any model is called, whatever the Phase-1 analyses are. *)
Theorem synthesis_call_refused_for_long_essays :
  forall (env : AIService.Env) (config : AIService.AIServiceConfig)
         (content theme exam_type : text) (phase1_outputs : list (string * text))
         (theme_data metadata : option AIService.dict) (w : AIService.World),
    (7945 < Z.of_nat (length content))%Z ->
    exists w',
      AIService.correct_essay env config
        (Enhanced._create_synthesis_prompt content theme exam_type phase1_outputs)
        (u "Síntese de análises para: " ++ theme) Enhanced.phase2_model None "synthesis"
        theme_data metadata w
      = (Raise (AIServiceError "Essay content too long (max 10,000 characters)"), w') /\
      AIService.trace w' = AIService.trace w /\
      AIService.cache w' = AIService.cache w /\
      AIService.ai_models w' = AIService.ai_models w.
Proof.
  intros env config content theme exam outputs td md w Hlong.
  pose proof (synthesis_prompt_length content theme exam outputs) as Hlen.
  rewrite correct_essay_stages.
  change (max_length "synthesis") with 10000%Z.
  rewrite (proj2 (Z.ltb_lt _ _)) by lia.
  eexists. split; [reflexivity |]. repeat split.
Qed.

Lemma synthesis_call_refused_for_long_essays_witness :
  exists w',
    AIService.correct_essay up_env AIService.default_service_config
      (Enhanced._create_synthesis_prompt (repeat 97%N (Z.to_nat 7946)) (u "Tema") (u "ENEM") [])
      (u "Síntese de análises para: " ++ u "Tema") Enhanced.phase2_model None "synthesis"
      None None fresh_world
    = (Raise (AIServiceError "Essay content too long (max 10,000 characters)"), w') /\
    AIService.trace w' = AIService.trace fresh_world /\
    AIService.cache w' = AIService.cache fresh_world /\
    AIService.ai_models w' = AIService.ai_models fresh_world.
Proof.
  apply (synthesis_call_refused_for_long_essays up_env AIService.default_service_config
           (repeat 97%N (Z.to_nat 7946)) (u "Tema") (u "ENEM") [] None None fresh_world).
  rewrite repeat_length. lia.
Defined.
